(** * Digital-twin control room: the simulation view's derived metrics,
      telemetry polling loop and manual prediction request

    Shallow embedding of [DigitalTwinSimulation] (the simulation view of the
    control-room dashboard) and of the [SimulationParams] interface of
    [types/machine.ts].

    JavaScript numbers are IEEE 754 binary64 values; they are modelled with
    the Standard Library's executable specification of binary floating-point
    arithmetic ([spec_float], precision 53, maximal exponent 1024), so that
    every arithmetic step of the source rounds the way the engine rounds. *)

From Stdlib Require Import ZArith QArith Qround Qabs Qpower List String Ascii Bool
  Lia Lqa DecimalString Permutation.
From Stdlib Require Import Floats.SpecFloat.
Import ListNotations.

Set Implicit Arguments.
#[local] Set Warnings "-register-all".
Local Open Scope Z_scope.

(** ** JavaScript numbers *)

Module Js.

Definition number : Type := spec_float.

Definition prec : Z := 53.
Definition emax : Z := 1024.

Definition NaN : number := S754_nan.

(** The number nearest to an integer (exact below 2^53). *)
Definition of_Z (n : Z) : number := binary_normalize prec emax n 0 false.

Definition add : number -> number -> number := SFadd prec emax.
Definition sub : number -> number -> number := SFsub prec emax.
Definition mul : number -> number -> number := SFmul prec emax.
Definition div : number -> number -> number := SFdiv prec emax.

(** The quotient [n / d] of two integers, rounded once to the nearest
    number (ties to even).  The mantissas handed to the division need not
    be normalised: the quotient is computed exactly and rounded once. *)
Definition of_ratio (n : Z) (d : positive) : number :=
  match n with
  | Z0 => S754_zero false
  | Zpos p => div (S754_finite false p 0) (S754_finite false d 0)
  | Zneg p => div (S754_finite true p 0) (S754_finite false d 0)
  end.

(** A decimal literal [n * 10^-k] of the source text, for instance
    [0.12 = decimal 12 2]. *)
Definition decimal (n : Z) (k : nat) : number :=
  of_ratio n (Z.to_pos (10 ^ Z.of_nat k)).

Definition isNaN (x : number) : bool :=
  match x with S754_nan => true | _ => false end.

(** [Number.isFinite] *)
Definition isFinite (x : number) : bool :=
  match x with
  | S754_zero _ | S754_finite _ _ _ => true
  | _ => false
  end.

(** The relational operators on numbers; every comparison with [NaN] is
    false. *)
Definition ltb (a b : number) : bool := SFltb a b.
Definition leb (a b : number) : bool := SFleb a b.
Definition gtb (a b : number) : bool := SFltb b a.
Definition geb (a b : number) : bool := SFleb b a.

(** [Math.max] and [Math.min] of two arguments: [NaN] if either argument
    is [NaN]; [+0] is larger than [-0]. *)
Definition Math_max (a b : number) : number :=
  match SFcompare a b with
  | None => NaN
  | Some Gt => a
  | Some Lt => b
  | Some Eq => match a with S754_zero true => b | _ => a end
  end.

Definition Math_min (a b : number) : number :=
  match SFcompare a b with
  | None => NaN
  | Some Lt => a
  | Some Gt => b
  | Some Eq => match a with S754_zero false => b | _ => a end
  end.

(** [Math.round]: an integral number, [NaN] and the infinities are
    returned unchanged; otherwise the result is [floor (x + 1/2)], computed
    exactly, and it is [-0] when [-0.5 <= x < 0]. *)
Definition Math_round (x : number) : number :=
  match x with
  | S754_finite s m e =>
      if 0 <=? e then x
      else if Z.pos m mod 2 ^ (- e) =? 0 then x
      else
        let n := (2 * cond_Zopp s (Z.pos m) + 2 ^ (- e)) / 2 ^ (- e + 1) in
        if n =? 0 then S754_zero s else of_Z n
  | _ => x
  end.

(** Whether [m * 2^e >= b] for an integer bound [b]. *)
Definition magnitude_geb (m : positive) (e : Z) (b : Z) : bool :=
  if 0 <=? e then b <=? Z.pos m * 2 ^ e
  else b * 2 ^ (- e) <=? Z.pos m.

(** The integer nearest to [m * 2^e * 10^d]; of two equally near integers
    the larger. *)
Definition scaled_nearest (m : positive) (e : Z) (d : nat) : Z :=
  let t := Z.pos m * 10 ^ Z.of_nat d in
  if 0 <=? e then t * 2 ^ e
  else (2 * t + 2 ^ (- e)) / 2 ^ (- e + 1).

(** [parseFloat(x.toFixed(d))]: [toFixed] prints the integer [n] nearest to
    [|x| * 10^d] with the decimal point [d] places from the right and the
    sign of [x] in front ([-0] prints as [0]); for [|x| >= 10^21] it prints
    [x] as [String(x)] does.  [parseFloat] reads the number nearest to the
    printed decimal. *)
Definition toFixed_parsed (d : nat) (x : number) : number :=
  match x with
  | S754_nan => NaN
  | S754_infinity _ => x
  | S754_zero _ => S754_zero false
  | S754_finite s m e =>
      if magnitude_geb m e (10 ^ 21) then x
      else
        match scaled_nearest m e d with
        | Zpos n =>
            div (S754_finite s n 0)
                (S754_finite false (Z.to_pos (10 ^ Z.of_nat d)) 0)
        | _ => S754_zero s
        end
  end.

Definition Math_sqrt : number -> number := SFsqrt prec emax.

(** [Math.pow(x, 2)]: the engine's [pow] returns the product [x * x] when
    the exponent is 2. *)
Definition Math_pow2 (x : number) : number := mul x x.

(** A number with an integral value. *)
Definition integral (x : number) : bool :=
  match x with
  | S754_finite _ m e => (0 <=? e) || (Z.pos m mod 2 ^ (- e) =? 0)
  | _ => true
  end.

(** A number that is not negative: a zero of either sign, a positive
    finite number or [+Infinity]. *)
Definition nonneg (x : number) : bool :=
  match x with
  | S754_zero _ => true
  | S754_infinity s | S754_finite s _ _ => negb s
  | S754_nan => false
  end.

(** A finite positive number, as every constant of the formulas is. *)
Definition positive_constant (c : number) : bool :=
  match c with S754_finite false _ _ => true | _ => false end.

End Js.


(** ** Data model *)

(** [SimulationParams] of [types/machine.ts]: 22 numeric fields. *)
Record SimulationParams := {
  (* Mechanical / Physical *)
  rpm : Js.number;
  torque : Js.number;
  loadWeight : Js.number;
  motorTemp : Js.number;
  windingTemp : Js.number;
  bearingTemp : Js.number;
  ambientTemp : Js.number;
  vibrationX : Js.number;
  vibrationY : Js.number;
  vibrationZ : Js.number;
  (* Electrical *)
  voltage : Js.number;
  current : Js.number;
  powerConsumption : Js.number;
  powerFactor : Js.number;
  harmonicDistortion : Js.number;
  efficiency : Js.number;
  insulationResistance : Js.number;
  (* Operational *)
  operatingHours : Js.number;
  startStopCycles : Js.number;
  (* Degradation / Wear *)
  wearLevel : Js.number;
  bearingWear : Js.number;
  (* Environmental *)
  humidity : Js.number
}.

(** The field names of the interface with their projections, in
    declaration order. *)
Definition SimulationParams_fields : list (string * (SimulationParams -> Js.number)) :=
  [ ("rpm", rpm); ("torque", torque); ("loadWeight", loadWeight);
    ("motorTemp", motorTemp); ("windingTemp", windingTemp);
    ("bearingTemp", bearingTemp); ("ambientTemp", ambientTemp);
    ("vibrationX", vibrationX); ("vibrationY", vibrationY);
    ("vibrationZ", vibrationZ);
    ("voltage", voltage); ("current", current);
    ("powerConsumption", powerConsumption); ("powerFactor", powerFactor);
    ("harmonicDistortion", harmonicDistortion); ("efficiency", efficiency);
    ("insulationResistance", insulationResistance);
    ("operatingHours", operatingHours); ("startStopCycles", startStopCycles);
    ("wearLevel", wearLevel); ("bearingWear", bearingWear);
    ("humidity", humidity) ]%string.

Record TelemetrySample := {
  s_timestamp : Js.number;
  s_machineId : string;
  s_machineName : string;
  s_rpm : Js.number;
  s_torque : Js.number;
  s_loadWeight : Js.number;
  s_motorTemp : Js.number;
  s_windingTemp : Js.number;
  s_bearingTemp : Js.number;
  s_ambientTemp : Js.number;
  s_vibrationX : Js.number;
  s_vibrationY : Js.number;
  s_vibrationZ : Js.number;
  s_vibrationMagnitude : Js.number;
  s_voltage : Js.number;
  s_current : Js.number;
  s_powerConsumption : Js.number;
  s_powerFactor : Js.number;
  s_harmonicDistortion : Js.number;
  s_efficiency : Js.number;
  s_operatingHours : Js.number;
  s_startStopCycles : Js.number;
  s_wearLevel : Js.number;
  s_bearingWear : Js.number;
  s_insulationResistance : Js.number;
  s_humidity : Js.number;
  s_isRunning : bool
}.

(** [TelemetryPayload]: every field is optional; [machines] is an object
    used as a map, kept as the list of its entries in the order of
    [Object.keys]. *)
Record TelemetryPayload := {
  exportTime : option string;
  totalDataPoints : option Js.number;
  runtime : option Js.number;
  machines : option (list (string * list TelemetrySample))
}.

(** [TelemetryPayload | TelemetrySample[] | null] *)
Inductive payload :=
| PNull
| PArray (samples : list TelemetrySample)
| PObject (p : TelemetryPayload).

Definition defaultParams : SimulationParams := {|
  rpm := Js.of_Z 980;
  torque := Js.of_Z 120;
  loadWeight := Js.of_Z 62;
  motorTemp := Js.of_Z 188;
  windingTemp := Js.of_Z 188;
  bearingTemp := Js.of_Z 162;
  ambientTemp := Js.of_Z 28;
  vibrationX := Js.decimal 21 1;
  vibrationY := Js.decimal 24 1;
  vibrationZ := Js.decimal 22 1;
  voltage := Js.of_Z 400;
  current := Js.of_Z 22;
  powerConsumption := Js.of_Z 18;
  powerFactor := Js.decimal 88 2;
  harmonicDistortion := Js.decimal 222 2;
  efficiency := Js.of_Z 88;
  insulationResistance := Js.of_Z 12;
  operatingHours := Js.of_Z 4200;
  startStopCycles := Js.of_Z 14;
  wearLevel := Js.of_Z 18;
  bearingWear := Js.of_Z 28;
  humidity := Js.of_Z 48
|}.

(** ** Pure helpers of the simulation view *)

Definition clamp (value min max : Js.number) : Js.number :=
  Js.Math_min max (Js.Math_max min value).

Definition formatNumber (value : Js.number) : Js.number :=
  if Js.isFinite value then value else Js.of_Z 0.

(** A string is truthy when it is not empty. *)
Definition truthy (s : string) : bool :=
  match s with EmptyString => false | String _ _ => true end.

(** [a[a.length - 1]]: [None] stands for [undefined]. *)
Definition last_element {A : Type} (a : list A) : option A :=
  nth_error a (List.length a - 1).

(** [obj[key]] on an object kept as its list of entries. *)
Fixpoint property {A : Type} (obj : list (string * A)) (key : string) : option A :=
  match obj with
  | [] => None
  | (k, v) :: rest => if String.eqb k key then Some v else property rest key
  end.

(** [Object.keys(obj)[0]] *)
Definition first_key {A : Type} (obj : list (string * A)) : option string :=
  nth_error (map fst obj) 0.

(** [getLatestSample]; [None] is [null]. *)
Definition getLatestSample (p : payload) : option TelemetrySample :=
  match p with
  | PNull => None
  | PArray samples =>
      if (0 <? List.length samples)%nat then last_element samples else None
  | PObject o =>
      match machines o with
      | None => None
      | Some ms =>
          let machineKey := first_key ms in
          let series :=
            match machineKey with
            | Some k => if truthy k then property ms k else None
            | None => None
            end in
          match series with
          | None => None
          | Some series =>
              if (List.length series =? 0)%nat then None else last_element series
          end
      end
  end.

Definition mapSampleToParams (sample : TelemetrySample) (previous : SimulationParams)
  : SimulationParams := {|
  rpm := Js.Math_round (s_rpm sample);
  torque := Js.Math_round (s_torque sample);
  loadWeight := Js.Math_round (s_loadWeight sample);
  vibrationX := s_vibrationX sample;
  vibrationY := s_vibrationY sample;
  vibrationZ := s_vibrationZ sample;
  voltage := s_voltage sample;
  current := s_current sample;
  powerConsumption := s_powerConsumption sample;
  powerFactor := s_powerFactor sample;
  harmonicDistortion := s_harmonicDistortion sample;
  efficiency := s_efficiency sample;
  insulationResistance := s_insulationResistance sample;
  motorTemp := Js.Math_round (s_motorTemp sample);
  windingTemp := Js.Math_round (s_windingTemp sample);
  bearingTemp := Js.Math_round (s_bearingTemp sample);
  ambientTemp := Js.Math_round (s_ambientTemp sample);
  operatingHours := Js.Math_round (s_operatingHours sample);
  startStopCycles := Js.Math_round (s_startStopCycles sample);
  wearLevel := Js.Math_round (s_wearLevel sample);
  bearingWear := Js.Math_round (s_bearingWear sample);
  humidity := Js.Math_round (s_humidity sample)
|}.

(** [buildPredictPayload]: the [sequence] property of the object it returns.
    Every sample is copied field by field. *)
Definition buildPredictPayload (sequence : list TelemetrySample) : list TelemetrySample :=
  map (fun sample => {|
    s_rpm := s_rpm sample;
    s_torque := s_torque sample;
    s_loadWeight := s_loadWeight sample;
    s_motorTemp := s_motorTemp sample;
    s_windingTemp := s_windingTemp sample;
    s_bearingTemp := s_bearingTemp sample;
    s_ambientTemp := s_ambientTemp sample;
    s_vibrationX := s_vibrationX sample;
    s_vibrationY := s_vibrationY sample;
    s_vibrationZ := s_vibrationZ sample;
    s_vibrationMagnitude := s_vibrationMagnitude sample;
    s_voltage := s_voltage sample;
    s_current := s_current sample;
    s_powerConsumption := s_powerConsumption sample;
    s_powerFactor := s_powerFactor sample;
    s_harmonicDistortion := s_harmonicDistortion sample;
    s_efficiency := s_efficiency sample;
    s_operatingHours := s_operatingHours sample;
    s_startStopCycles := s_startStopCycles sample;
    s_wearLevel := s_wearLevel sample;
    s_bearingWear := s_bearingWear sample;
    s_insulationResistance := s_insulationResistance sample;
    s_humidity := s_humidity sample;
    s_isRunning := s_isRunning sample;
    s_timestamp := s_timestamp sample;
    s_machineId := s_machineId sample;
    s_machineName := s_machineName sample
  |}) sequence.

(** ** Derived metrics *)

Record Derived := {
  d_rpm : Js.number;
  loadPercent : Js.number;
  vibration : Js.number;
  temperature : Js.number;
  riskScore : Js.number;
  expectedTemp : Js.number;
  expectedVibration : Js.number;
  remainingLife : Js.number
}.

(** The [useMemo] callback that computes the derived metrics. *)
Definition derived (params : SimulationParams) : Derived :=
  let rpm := rpm params in
  let loadPercent :=
    clamp (Js.Math_round (loadWeight params)) (Js.of_Z 0) (Js.of_Z 100) in
  let baseVibration :=
    Js.div (Js.add (Js.add (vibrationX params) (vibrationY params))
                   (vibrationZ params))
           (Js.of_Z 3) in
  let vibration := Js.toFixed_parsed 2 baseVibration in
  let temperature :=
    Js.Math_round (Js.div (Js.add (motorTemp params) (bearingTemp params))
                          (Js.of_Z 2)) in
  let powerPenalty :=
    Js.mul (Js.Math_max (Js.of_Z 0) (Js.sub (Js.of_Z 1) (powerFactor params)))
           (Js.of_Z 20) in
  let thermalStress :=
    Js.mul (Js.Math_max (Js.of_Z 0) (Js.sub (ambientTemp params) (Js.of_Z 25)))
           (Js.decimal 3 1) in
  let wearPenalty :=
    Js.add (Js.mul (bearingWear params) (Js.decimal 12 2))
           (Js.mul (wearLevel params) (Js.decimal 8 2)) in
  let riskScore :=
    clamp
      (Js.Math_round
         (Js.add (Js.add (Js.add (Js.add (Js.add (Js.add
            (Js.mul (Js.div rpm (Js.of_Z 2000)) (Js.of_Z 18))
            (Js.mul (Js.div (torque params) (Js.of_Z 200)) (Js.of_Z 12)))
            (Js.mul (Js.div vibration (Js.of_Z 10)) (Js.of_Z 15)))
            (Js.mul (Js.div temperature (Js.of_Z 220)) (Js.of_Z 12)))
            powerPenalty)
            thermalStress)
            wearPenalty))
      (Js.of_Z 0) (Js.of_Z 100) in
  let expectedTemp := Js.Math_round temperature in
  let expectedVibration := Js.toFixed_parsed 1 vibration in
  let remainingLife :=
    Js.Math_max (Js.of_Z 120)
      (Js.Math_round
         (Js.sub (Js.sub (Js.sub (Js.of_Z 1400) (Js.mul riskScore (Js.of_Z 8)))
                         (Js.div (operatingHours params) (Js.of_Z 6)))
                 (Js.mul (bearingWear params) (Js.of_Z 3)))) in
  {| d_rpm := rpm;
     loadPercent := loadPercent;
     vibration := vibration;
     temperature := temperature;
     riskScore := riskScore;
     expectedTemp := expectedTemp;
     expectedVibration := expectedVibration;
     remainingLife := remainingLife |}.

(** ** JSON values, requests and responses *)

Inductive json :=
| JNull
| JBool (b : bool)
| JNum (n : Js.number)
| JStr (s : string)
| JArr (items : list json)
| JObj (entries : list (string * json)).

(** The entries of the object that [runSimulation] stores as result when its
    timeout of 1600 ms fires. *)
Definition simulationResult (derived : Derived) : list (string * json) :=
  let impact :=
    (if Js.gtb (riskScore derived) (Js.of_Z 70) then "high"
     else if Js.gtb (riskScore derived) (Js.of_Z 40) then "medium"
     else "low")%string in
  [ ("predictedFailureRisk", JNum (riskScore derived));
    ("expectedTemperature", JNum (expectedTemp derived));
    ("expectedVibration", JNum (expectedVibration derived));
    ("productionImpact", JStr impact);
    ("remainingLife", JNum (remainingLife derived)) ]%string.

Inductive method := GET | POST.

Inductive body :=
| NoBody
| PredictBody (sequence : list TelemetrySample)
| DispatchBody (failure_probability timestamp : Js.number)
               (machineId machineName : string) (sample : TelemetrySample)
               (sequence : option (list TelemetrySample))
| JsonBody (j : json).

Record request := {
  req_url : string;
  req_method : method;
  req_body : body
}.

Record Error := { message : string }.

Inductive outcome (A : Type) :=
| Returned (a : A)
| Threw (e : Error).
Arguments Returned {A} a.
Arguments Threw {A} e.

(** What the host answers to one [fetch]: the promise rejects, or it
    resolves to a response whose [text()] and [json()] promises resolve or
    reject in turn. *)
Record Response (B : Type) := {
  ok : bool;
  status : Z;
  res_text : outcome string;
  res_json : outcome B
}.

Inductive fetched (B : Type) :=
| Rejected (e : Error)
| Responded (r : Response B).
Arguments Rejected {B} e.
Arguments Responded {B} r.

(** ** Component state *)

Record State := {
  params : SimulationParams;
  result : option json;
  isSimulating : bool;
  autoMode : bool;
  failureProbability : option Js.number;
  lastUpdate : option Js.number;
  showWireframe : bool;
  friendUrl : string;
  isPredicting : bool;
  predictionStatus : option string;
  telemetryBuffer : list TelemetrySample   (* telemetryBufferRef.current *)
}.

Definition initialState : State := {|
  params := defaultParams;
  result := None;
  isSimulating := false;
  autoMode := false;
  failureProbability := None;
  lastUpdate := None;
  showWireframe := false;
  friendUrl := "http://192.168.56.1:8000/predict";
  isPredicting := false;
  predictionStatus := None;
  telemetryBuffer := []
|}.

Definition with_params (f : SimulationParams -> SimulationParams) (st : State) : State :=
  {| params := f (params st); result := result st;
     isSimulating := isSimulating st; autoMode := autoMode st;
     failureProbability := failureProbability st; lastUpdate := lastUpdate st;
     showWireframe := showWireframe st; friendUrl := friendUrl st;
     isPredicting := isPredicting st; predictionStatus := predictionStatus st;
     telemetryBuffer := telemetryBuffer st |}.

Definition with_result (v : option json) (st : State) : State :=
  {| params := params st; result := v;
     isSimulating := isSimulating st; autoMode := autoMode st;
     failureProbability := failureProbability st; lastUpdate := lastUpdate st;
     showWireframe := showWireframe st; friendUrl := friendUrl st;
     isPredicting := isPredicting st; predictionStatus := predictionStatus st;
     telemetryBuffer := telemetryBuffer st |}.

Definition with_failureProbability (v : option Js.number) (st : State) : State :=
  {| params := params st; result := result st;
     isSimulating := isSimulating st; autoMode := autoMode st;
     failureProbability := v; lastUpdate := lastUpdate st;
     showWireframe := showWireframe st; friendUrl := friendUrl st;
     isPredicting := isPredicting st; predictionStatus := predictionStatus st;
     telemetryBuffer := telemetryBuffer st |}.

Definition with_lastUpdate (v : option Js.number) (st : State) : State :=
  {| params := params st; result := result st;
     isSimulating := isSimulating st; autoMode := autoMode st;
     failureProbability := failureProbability st; lastUpdate := v;
     showWireframe := showWireframe st; friendUrl := friendUrl st;
     isPredicting := isPredicting st; predictionStatus := predictionStatus st;
     telemetryBuffer := telemetryBuffer st |}.

Definition with_isPredicting (v : bool) (st : State) : State :=
  {| params := params st; result := result st;
     isSimulating := isSimulating st; autoMode := autoMode st;
     failureProbability := failureProbability st; lastUpdate := lastUpdate st;
     showWireframe := showWireframe st; friendUrl := friendUrl st;
     isPredicting := v; predictionStatus := predictionStatus st;
     telemetryBuffer := telemetryBuffer st |}.

Definition with_predictionStatus (v : option string) (st : State) : State :=
  {| params := params st; result := result st;
     isSimulating := isSimulating st; autoMode := autoMode st;
     failureProbability := failureProbability st; lastUpdate := lastUpdate st;
     showWireframe := showWireframe st; friendUrl := friendUrl st;
     isPredicting := isPredicting st; predictionStatus := v;
     telemetryBuffer := telemetryBuffer st |}.

Definition with_telemetryBuffer (f : list TelemetrySample -> list TelemetrySample)
  (st : State) : State :=
  {| params := params st; result := result st;
     isSimulating := isSimulating st; autoMode := autoMode st;
     failureProbability := failureProbability st; lastUpdate := lastUpdate st;
     showWireframe := showWireframe st; friendUrl := friendUrl st;
     isPredicting := isPredicting st; predictionStatus := predictionStatus st;
     telemetryBuffer := f (telemetryBuffer st) |}.

(** ** A state-and-exception monad for the asynchronous handlers

    A handler runs against the component state, the log of the requests it
    has issued, and the list of rejections nobody awaits.  A thrown error
    keeps the state changes made before it.  One run of a handler is followed
    from its call to its completion; what the host answers at each [await]
    is given with the run, and no other handler is interleaved. *)

Record Machine := {
  ui : State;
  sent : list request;           (* oldest first *)
  unhandled : list Error         (* rejections of promises that are not awaited *)
}.

Definition M (A : Type) : Type := Machine -> outcome A * Machine.

Definition ret {A : Type} (a : A) : M A := fun mc => (Returned a, mc).

Definition bind {A B : Type} (c : M A) (k : A -> M B) : M B :=
  fun mc =>
    match c mc with
    | (Returned a, mc') => k a mc'
    | (Threw e, mc') => (Threw e, mc')
    end.

Definition throw {A : Type} (e : Error) : M A := fun mc => (Threw e, mc).

Definition try_catch {A : Type} (c : M A) (handler : Error -> M A) : M A :=
  fun mc =>
    match c mc with
    | (Returned a, mc') => (Returned a, mc')
    | (Threw e, mc') => handler e mc'
    end.

Definition finally {A : Type} (c : M A) (f : M unit) : M A :=
  fun mc =>
    let '(r, mc') := c mc in
    match f mc' with
    | (Returned _, mc'') => (r, mc'')
    | (Threw e, mc'') => (Threw e, mc'')
    end.

Declare Scope handler_scope.
Delimit Scope handler_scope with handler.
Notation "x <- c ;; k" := (bind c (fun x => k))
  (at level 100, c at next level, right associativity) : handler_scope.
Notation "c ;; k" := (bind c (fun _ => k))
  (at level 100, right associativity) : handler_scope.

Definition setState (f : State -> State) : M unit :=
  fun mc => (Returned tt, {| ui := f (ui mc); sent := sent mc; unhandled := unhandled mc |}).

Definition getState : M State := fun mc => (Returned (ui mc), mc).

(** [await p] for a promise whose settlement is known. *)
Definition await {A : Type} (p : outcome A) : M A :=
  match p with
  | Returned a => ret a
  | Threw e => throw e
  end.

Definition issue (r : request) : M unit :=
  fun mc => (Returned tt, {| ui := ui mc; sent := sent mc ++ [r]; unhandled := unhandled mc |}).

(** [await fetch(url, init)] *)
Definition fetch {B : Type} (r : request) (answer : fetched B) : M (Response B) :=
  (issue r ;;
   match answer with
   | Rejected e => throw e
   | Responded res => ret res
   end)%handler.

(** [void fetch(url, init)]: the request is issued and its promise dropped;
    a rejection is reported to nobody in the handler. *)
Definition void_fetch {B : Type} (r : request) (answer : fetched B) : M unit :=
  (issue r ;;
   match answer with
   | Rejected e =>
       fun mc => (Returned tt,
                  {| ui := ui mc; sent := sent mc; unhandled := unhandled mc ++ [e] |})
   | Responded _ => ret tt
   end)%handler.

(** [value.key] on a parsed JSON value: a [TypeError] on [null], [undefined]
    (here [None]) on a missing property and on values without own named
    properties. *)
Definition get_property (value : json) (key : string) : outcome (option json) :=
  match value with
  | JNull => Threw {| message := "Cannot read properties of null" |}
  | JObj entries => Returned (property entries key)
  | _ => Returned None
  end.

(** [a ?? b] *)
Definition nullish_or (a : option json) (b : option json) : option json :=
  match a with
  | None | Some JNull => b
  | Some v => Some v
  end.

(** ** The simulation view *)

Inductive MachineStatus := healthy | warning | critical.
Inductive MachineType := boiler | motor | pump | gearbox.

Record MachineData := {
  m_id : string;
  m_name : string;
  m_type : MachineType;
  m_status : MachineStatus;
  m_failureRisk : Js.number;
  m_temperature : Js.number;
  m_vibration : Js.number;
  m_rpm : Js.number;
  m_load : Js.number;
  m_energyConsumption : Js.number;
  m_lastMaintenance : string;
  m_nextMaintenance : string
}.

(** The build-time environment, [import.meta.env]; an unset variable is
    [None]. *)
Record Env := {
  VITE_TELEMETRY_URL : option string;
  VITE_PREDICT_URL : option string;
  VITE_HARDWARE_URL : option string;
  VITE_RETRAIN_URL : option string;
  VITE_TELEMETRY_POLL_MS : option string;
  VITE_FAILURE_THRESHOLD : option string
}.

(** What the host answers during one run of [fetchTelemetry]: the clock, the
    three fetches, and the value of the effect's [active] flag at the two
    places that read it. *)
Record PollWorld := {
  now : Js.number;
  telemetry : fetched payload;
  active_after_fetch : bool;
  predict : fetched json;
  dispatch : fetched json;
  active_in_catch : bool
}.

(** What the host answers during one run of [handleSendToFriend]. *)
Record SendWorld := {
  send_now : Js.number;
  send_answer : fetched json
}.

Inductive callback := FetchTelemetry | ClearPredictionStatus.

(** What an effect asks of the host. *)
Inductive host_cmd :=
| CallNow (f : callback)
| SetInterval (f : callback) (ms : Js.number)
| SetTimeout (f : callback) (ms : Js.number).

(** [buffer.push(sample)] followed by the [splice] that drops the oldest
    entries beyond 200. *)
Definition push_sample (sample : TelemetrySample) (buffer : list TelemetrySample)
  : list TelemetrySample :=
  let buffer := buffer ++ [sample] in
  if (200 <? List.length buffer)%nat
  then skipn (List.length buffer - 200) buffer
  else buffer.

(** [a.slice(-n)] *)
Definition slice_last {A : Type} (n : nat) (a : list A) : list A :=
  skipn (List.length a - n) a.

Definition string_of_status (z : Z) : string :=
  NilZero.string_of_int (Z.to_int z).

Section Component.

(** [Number(v)] on a value that is not a number already is left to the
    engine. *)
Variable ToNumber : json -> Js.number.
Variable env : Env.
(** [machinesData] of [data/mockData]. *)
Variable machinesData : list MachineData.
(** The component's [selectedMachineId] property. *)
Variable selectedMachineId : string.

Definition Number (v : json) : Js.number :=
  match v with JNum n => n | _ => ToNumber v end.

Definition env_or (v : option string) (default : string) : string :=
  match v with Some s => s | None => default end.

Definition TELEMETRY_URL : string :=
  env_or (VITE_TELEMETRY_URL env) "http://localhost:8000/telemetry".
Definition PREDICT_URL : string :=
  env_or (VITE_PREDICT_URL env) "http://localhost:8000/predict".
Definition HARDWARE_URL : string :=
  env_or (VITE_HARDWARE_URL env) "http://localhost:8000/hardware".
Definition RETRAIN_URL : string :=
  env_or (VITE_RETRAIN_URL env) "http://localhost:8000/retrain".

Definition TELEMETRY_POLL_MS : Js.number :=
  Number match VITE_TELEMETRY_POLL_MS env with
         | Some s => JStr s
         | None => JNum (Js.of_Z 1000)
         end.

Definition DEFAULT_FAILURE_THRESHOLD : Js.number :=
  Number match VITE_FAILURE_THRESHOLD env with
         | Some s => JStr s
         | None => JNum (Js.decimal 6 1)
         end.

(** [useState(DEFAULT_FAILURE_THRESHOLD)], whose setter is never taken. *)
Definition failureThreshold : Js.number := DEFAULT_FAILURE_THRESHOLD.

Definition machine : option MachineData :=
  match find (fun m => String.eqb (m_id m) selectedMachineId) machinesData with
  | Some m => Some m
  | None => nth_error machinesData 0
  end.

Definition machineName : string :=
  match machine with
  | Some m => if truthy (m_name m) then m_name m else "Unknown Machine"
  | None => "Unknown Machine"
  end.

(** *** The manual prediction request *)

Definition sendPayload (params : SimulationParams) (now : Js.number)
  : list (string * json) :=
  [ ("timestamp", JNum now);
    ("machineId", JStr selectedMachineId);
    ("machineName", JStr machineName);
    ("rpm", JNum (rpm params));
    ("torque", JNum (torque params));
    ("loadWeight", JNum (loadWeight params));
    ("motorTemp", JNum (motorTemp params));
    ("windingTemp", JNum (windingTemp params));
    ("bearingTemp", JNum (bearingTemp params));
    ("ambientTemp", JNum (ambientTemp params));
    ("vibrationX", JNum (vibrationX params));
    ("vibrationY", JNum (vibrationY params));
    ("vibrationZ", JNum (vibrationZ params));
    ("vibrationMagnitude",
     JNum (Js.toFixed_parsed 3
             (Js.Math_sqrt
                (Js.add (Js.add (Js.Math_pow2 (vibrationX params))
                                (Js.Math_pow2 (vibrationY params)))
                        (Js.Math_pow2 (vibrationZ params))))));
    ("voltage", JNum (voltage params));
    ("current", JNum (current params));
    ("powerConsumption", JNum (powerConsumption params));
    ("powerFactor", JNum (powerFactor params));
    ("harmonicDistortion", JNum (harmonicDistortion params));
    ("efficiency", JNum (efficiency params));
    ("operatingHours", JNum (operatingHours params));
    ("startStopCycles", JNum (startStopCycles params));
    ("wearLevel", JNum (wearLevel params));
    ("bearingWear", JNum (bearingWear params));
    ("insulationResistance", JNum (insulationResistance params));
    ("humidity", JNum (humidity params));
    ("isRunning", JBool (Js.gtb (rpm params) (Js.of_Z 0))) ]%string.

Definition sendRequest (params : SimulationParams) (now : Js.number) : request :=
  {| req_url := "/api/send_critical_data";
     req_method := POST;
     req_body := JsonBody (JObj (sendPayload params now)) |}.

Definition handleSendToFriend_try (w : SendWorld) : M unit :=
  (st <- getState ;;
   res <- fetch (sendRequest (params st) (send_now w)) (send_answer w) ;;
   if negb (ok res) then
     errText <- await (res_text res) ;;
     throw {| message := if truthy errText then errText else "Failed to send" |}
   else
     data <- await (res_json res) ;;
     setState (with_result (Some data)) ;;
     setState (with_predictionStatus (Some "Prediction received!"%string)))%handler.

Definition handleSendToFriend_catch (err : Error) : M unit :=
  setState (with_predictionStatus (Some ("Error: " ++ message err)%string)).

Definition handleSendToFriend (w : SendWorld) : M unit :=
  (setState (with_isPredicting true) ;;
   setState (with_predictionStatus None) ;;
   finally (try_catch (handleSendToFriend_try w) handleSendToFriend_catch)
           (setState (with_isPredicting false)))%handler.

(** The effect that clears the prediction status: for a truthy status it
    asks for one timeout of 3000 ms whose callback sets the status to
    [null]. *)
Definition predictionStatusEffect (st : State) : list host_cmd :=
  match predictionStatus st with
  | Some s => if truthy s then [SetTimeout ClearPredictionStatus (Js.of_Z 3000)] else []
  | None => []
  end.

Definition clearPredictionStatus : M unit :=
  setState (with_predictionStatus None).

(** *** The telemetry loop *)

Definition telemetryRequest : request :=
  {| req_url := TELEMETRY_URL; req_method := GET; req_body := NoBody |}.

Definition predictRequest (sequence : list TelemetrySample) : request :=
  {| req_url := PREDICT_URL; req_method := POST;
     req_body := PredictBody (buildPredictPayload sequence) |}.

Definition retrainRequest (nextFailure : Js.number) (latestSample : TelemetrySample)
  (sequence : list TelemetrySample) : request :=
  {| req_url := RETRAIN_URL; req_method := POST;
     req_body := DispatchBody nextFailure (s_timestamp latestSample)
                   (s_machineId latestSample) (s_machineName latestSample)
                   latestSample (Some sequence) |}.

Definition hardwareRequest (nextFailure : Js.number) (latestSample : TelemetrySample)
  : request :=
  {| req_url := HARDWARE_URL; req_method := POST;
     req_body := DispatchBody nextFailure (s_timestamp latestSample)
                   (s_machineId latestSample) (s_machineName latestSample)
                   latestSample None |}.

(** [Number(j.failure_probability ?? j.failureProbability ?? j.failure ?? 0)] *)
Definition nextFailure_of (predictJson : json) : outcome Js.number :=
  match get_property predictJson "failure_probability",
        get_property predictJson "failureProbability",
        get_property predictJson "failure" with
  | Returned a, Returned b, Returned c =>
      match nullish_or (nullish_or (nullish_or a b) c) (Some (JNum (Js.of_Z 0))) with
      | Some v => Returned (Number v)
      | None => Returned Js.NaN
      end
  | Threw e, _, _ | _, Threw e, _ | _, _, Threw e => Threw e
  end.

(** The block guarded by [buffer.length >= 50]. *)
Definition predictAndDispatch (w : PollWorld) (latestSample : TelemetrySample)
  : M unit :=
  (st <- getState ;;
   let buffer := telemetryBuffer st in
   if (50 <=? List.length buffer)%nat then
     let sequence := slice_last 50 buffer in
     predictResponse <- fetch (predictRequest sequence) (predict w) ;;
     if negb (ok predictResponse) then
       throw {| message := "Predict error "
                           ++ string_of_status (status predictResponse) |}
     else
       predictJson <- await (res_json predictResponse) ;;
       nextFailure <- await (nextFailure_of predictJson) ;;
       setState (with_failureProbability (Some nextFailure)) ;;
       let isCritical := Js.geb nextFailure failureThreshold in
       if isCritical then
         void_fetch (retrainRequest nextFailure latestSample sequence) (dispatch w)
       else
         void_fetch (hardwareRequest nextFailure latestSample) (dispatch w)
   else ret tt)%handler.

(** The body of the [try] block. *)
Definition fetchTelemetry_try (w : PollWorld) : M unit :=
  (response <- fetch telemetryRequest (telemetry w) ;;
   if negb (ok response) then
     throw {| message := "Telemetry error " ++ string_of_status (status response) |}
   else
     payload <- await (res_json response) ;;
     match getLatestSample payload with
     | None => throw {| message := "No telemetry samples" |}
     | Some latestSample =>
         if negb (active_after_fetch w) then ret tt
         else
           setState (with_lastUpdate (Some (now w))) ;;
           setState (with_params (fun prev => mapSampleToParams latestSample prev)) ;;
           setState (with_telemetryBuffer (push_sample latestSample)) ;;
           predictAndDispatch w latestSample
     end)%handler.

Definition fetchTelemetry_catch (w : PollWorld) (error : Error) : M unit :=
  if negb (active_in_catch w) then ret tt
  else setState (with_lastUpdate None).

Definition fetchTelemetry (w : PollWorld) : M unit :=
  try_catch (fetchTelemetry_try w) (fetchTelemetry_catch w).

(** The polling effect: nothing when auto mode is off; otherwise one call
    of [fetchTelemetry] at once and one interval that calls it again every
    [TELEMETRY_POLL_MS] milliseconds. *)
Definition telemetryEffect (st : State) : list host_cmd :=
  if negb (autoMode st) then []
  else [CallNow FetchTelemetry; SetInterval FetchTelemetry TELEMETRY_POLL_MS].

Definition run_callback (f : callback) (w : PollWorld) : M unit :=
  match f with
  | FetchTelemetry => fetchTelemetry w
  | ClearPredictionStatus => clearPredictionStatus
  end.

(** Running an effect's commands at mount time: immediate calls run, timers
    are handed to the host. *)
Definition perform (w : PollWorld) (acc : Machine * list host_cmd) (cmd : host_cmd)
  : Machine * list host_cmd :=
  match cmd with
  | CallNow f => (snd (run_callback f w (fst acc)), snd acc)
  | timer => (fst acc, snd acc ++ [timer])
  end.

Definition mountTelemetryEffect (w : PollWorld) (mc : Machine)
  : Machine * list host_cmd :=
  fold_left (perform w) (telemetryEffect (ui mc)) (mc, []).

Definition resetToDefault : M unit :=
  (setState (with_params (fun _ => defaultParams)) ;;
   setState (with_result None) ;;
   setState (with_failureProbability None) ;;
   setState (with_telemetryBuffer (fun _ => [])))%handler.

(** The events that drive the component. *)
Inductive event :=
| Poll (w : PollWorld)
| Send (w : SendWorld)
| StatusTimeout
| ResetToDefault.

Definition handle (mc : Machine) (ev : event) : Machine :=
  match ev with
  | Poll w => snd (fetchTelemetry w mc)
  | Send w => snd (handleSendToFriend w mc)
  | StatusTimeout => snd (clearPredictionStatus mc)
  | ResetToDefault => snd (resetToDefault mc)
  end.

Definition run (evs : list event) (mc : Machine) : Machine :=
  fold_left handle evs mc.

(** *** States named in the properties *)

(** The machine after a sample has been accepted and before the prediction
    block runs. *)
Definition accepted (w : PollWorld) (latest : TelemetrySample) (mc : Machine)
  : Machine :=
  {| ui := with_telemetryBuffer (push_sample latest)
             (with_params (fun prev => mapSampleToParams latest prev)
                (with_lastUpdate (Some (now w)) (ui mc)));
     sent := sent mc ++ [telemetryRequest];
     unhandled := unhandled mc |}.

(** The request that follows a prediction. *)
Definition dispatchRequest (nextFailure : Js.number) (latest : TelemetrySample)
  (sequence : list TelemetrySample) : request :=
  if Js.geb nextFailure failureThreshold
  then retrainRequest nextFailure latest sequence
  else hardwareRequest nextFailure latest.

(** The state a failed manual request leaves: the status carries the error
    and the busy flag is off again. *)
Definition send_failed (msg : string) (w : SendWorld) (mc : Machine) : Machine :=
  {| ui := with_isPredicting false
             (with_predictionStatus (Some ("Error: " ++ msg)%string)
                (with_predictionStatus None (with_isPredicting true (ui mc))));
     sent := sent mc ++ [sendRequest (params (ui mc)) (send_now w)];
     unhandled := unhandled mc |}.

End Component.

(** The machine with further requests in its log. *)
Definition with_sent (rs : list request) (mc : Machine) : Machine :=
  {| ui := ui mc; sent := sent mc ++ rs; unhandled := unhandled mc |}.

(** The machine the failure handler of [fetchTelemetry] leaves. *)
Definition handled (w : PollWorld) (mc : Machine) : Machine :=
  if active_in_catch w
  then {| ui := with_lastUpdate None (ui mc); sent := sent mc;
          unhandled := unhandled mc |}
  else mc.

(** The world [w] with another answer to the retrain or hardware request. *)
Definition with_dispatch (d : fetched json) (w : PollWorld) : PollWorld :=
  {| now := now w; telemetry := telemetry w;
     active_after_fetch := active_after_fetch w; predict := predict w;
     dispatch := d; active_in_catch := active_in_catch w |}.

Definition initialMachine : Machine :=
  {| ui := initialState; sent := []; unhandled := [] |}.

(** ** The formulas as the specification words them *)

(** The formulas of the derived metrics as the specification words them. *)
Module Formula.

(** The arithmetic mean of the three vibration axes, rounded to two
    decimals. *)
Definition vibrationAggregate (p : SimulationParams) : Js.number :=
  Js.toFixed_parsed 2
    (Js.div (Js.add (Js.add (vibrationX p) (vibrationY p)) (vibrationZ p))
            (Js.of_Z 3)).

(** The rounded arithmetic mean of [motorTemp] and [bearingTemp]. *)
Definition temperatureAggregate (p : SimulationParams) : Js.number :=
  Js.Math_round (Js.div (Js.add (motorTemp p) (bearingTemp p)) (Js.of_Z 2)).

(** [(rpm/2000)*18 + (torque/200)*12 + (vibration/10)*15 +
    (temperature/220)*12 + max(0, 1-powerFactor)*20 +
    max(0, ambientTemp-25)*0.3 + bearingWear*0.12 + wearLevel*0.08];
    the sum is taken from left to right, the two wear terms being added to
    each other first. *)
Definition weightedSum (p : SimulationParams) : Js.number :=
  Js.add (Js.add (Js.add (Js.add (Js.add (Js.add
    (Js.mul (Js.div (rpm p) (Js.of_Z 2000)) (Js.of_Z 18))
    (Js.mul (Js.div (torque p) (Js.of_Z 200)) (Js.of_Z 12)))
    (Js.mul (Js.div (vibrationAggregate p) (Js.of_Z 10)) (Js.of_Z 15)))
    (Js.mul (Js.div (temperatureAggregate p) (Js.of_Z 220)) (Js.of_Z 12)))
    (Js.mul (Js.Math_max (Js.of_Z 0) (Js.sub (Js.of_Z 1) (powerFactor p)))
            (Js.of_Z 20)))
    (Js.mul (Js.Math_max (Js.of_Z 0) (Js.sub (ambientTemp p) (Js.of_Z 25)))
            (Js.decimal 3 1)))
    (Js.add (Js.mul (bearingWear p) (Js.decimal 12 2))
            (Js.mul (wearLevel p) (Js.decimal 8 2))).

Definition risk (p : SimulationParams) : Js.number :=
  clamp (Js.Math_round (weightedSum p)) (Js.of_Z 0) (Js.of_Z 100).

(** The same eight terms added strictly from left to right, the wear terms
    one after the other. *)
Definition flatSum (p : SimulationParams) : Js.number :=
  Js.add (Js.add (Js.add (Js.add (Js.add (Js.add (Js.add
    (Js.mul (Js.div (rpm p) (Js.of_Z 2000)) (Js.of_Z 18))
    (Js.mul (Js.div (torque p) (Js.of_Z 200)) (Js.of_Z 12)))
    (Js.mul (Js.div (vibrationAggregate p) (Js.of_Z 10)) (Js.of_Z 15)))
    (Js.mul (Js.div (temperatureAggregate p) (Js.of_Z 220)) (Js.of_Z 12)))
    (Js.mul (Js.Math_max (Js.of_Z 0) (Js.sub (Js.of_Z 1) (powerFactor p)))
            (Js.of_Z 20)))
    (Js.mul (Js.Math_max (Js.of_Z 0) (Js.sub (ambientTemp p) (Js.of_Z 25)))
            (Js.decimal 3 1)))
    (Js.mul (bearingWear p) (Js.decimal 12 2)))
    (Js.mul (wearLevel p) (Js.decimal 8 2)).

(** [1400 - 8*riskScore - operatingHours/6 - 3*bearingWear] *)
Definition lifeBudget (p : SimulationParams) : Js.number :=
  Js.sub (Js.sub (Js.sub (Js.of_Z 1400) (Js.mul (Js.of_Z 8) (risk p)))
                 (Js.div (operatingHours p) (Js.of_Z 6)))
         (Js.mul (Js.of_Z 3) (bearingWear p)).

Definition life (p : SimulationParams) : Js.number :=
  Js.Math_max (Js.of_Z 120) (Js.Math_round (lifeBudget p)).

End Formula.

(** Every field is a finite number. *)
Definition params_finite (p : SimulationParams) : bool :=
  forallb (fun f => Js.isFinite (snd f p)) SimulationParams_fields.

(** No field that enters the risk score is [NaN], and those that enter it
    without a [max(0, ...)] guard are not negative. *)
Definition risk_inputs_nonneg (p : SimulationParams) : bool :=
  Js.nonneg (rpm p) && Js.nonneg (torque p)
  && Js.nonneg (vibrationX p) && Js.nonneg (vibrationY p)
  && Js.nonneg (vibrationZ p)
  && Js.nonneg (motorTemp p) && Js.nonneg (bearingTemp p)
  && Js.nonneg (bearingWear p) && Js.nonneg (wearLevel p)
  && negb (Js.isNaN (powerFactor p)) && negb (Js.isNaN (ambientTemp p)).

(** Finite parameters whose vibration axes and temperatures are large
    enough, with opposite signs, for their sums to overflow. *)
Definition overflowParams : SimulationParams := {|
  rpm := Js.of_Z 980;
  torque := Js.of_Z 120;
  loadWeight := Js.of_Z 62;
  motorTemp := Js.of_Z (- 17 * 10 ^ 307);
  windingTemp := Js.of_Z 188;
  bearingTemp := Js.of_Z (- 17 * 10 ^ 307);
  ambientTemp := Js.of_Z 28;
  vibrationX := Js.of_Z (17 * 10 ^ 307);
  vibrationY := Js.of_Z (17 * 10 ^ 307);
  vibrationZ := Js.decimal 22 1;
  voltage := Js.of_Z 400;
  current := Js.of_Z 22;
  powerConsumption := Js.of_Z 18;
  powerFactor := Js.decimal 88 2;
  harmonicDistortion := Js.decimal 222 2;
  efficiency := Js.of_Z 88;
  insulationResistance := Js.of_Z 12;
  operatingHours := Js.of_Z 4200;
  startStopCycles := Js.of_Z 14;
  wearLevel := Js.of_Z 18;
  bearingWear := Js.of_Z 28;
  humidity := Js.of_Z 48
|}.

(** Ordinary parameters for which the order of the additions decides the
    score: the exact value of the weighted sum is 55.5. *)
Definition orderParams : SimulationParams := {|
  rpm := Js.of_Z 2760;
  torque := Js.of_Z 17;
  loadWeight := Js.of_Z 62;
  motorTemp := Js.of_Z 131;
  windingTemp := Js.of_Z 188;
  bearingTemp := Js.of_Z 22;
  ambientTemp := Js.of_Z 37;
  vibrationX := Js.decimal 21 1;
  vibrationY := Js.decimal 64 1;
  vibrationZ := Js.decimal 83 1;
  voltage := Js.of_Z 400;
  current := Js.of_Z 22;
  powerConsumption := Js.of_Z 18;
  powerFactor := Js.decimal 66 2;
  harmonicDistortion := Js.decimal 222 2;
  efficiency := Js.of_Z 88;
  insulationResistance := Js.of_Z 12;
  operatingHours := Js.of_Z 4200;
  startStopCycles := Js.of_Z 14;
  wearLevel := Js.of_Z 56;
  bearingWear := Js.of_Z 18;
  humidity := Js.of_Z 48
|}.

(** The weighted formula read in exact rational arithmetic on the values of
    the fields. *)
Module Exact.

(** The value of a finite number; 0 for the others. *)
Definition value (x : Js.number) : Q :=
  match x with
  | S754_finite s m e =>
      ((if s then -1 else 1) * inject_Z (Z.pos m) * Qpower 2 e)%Q
  | _ => 0%Q
  end.

(** The nearest integer, halves going up. *)
Definition round (x : Q) : Z := Qfloor (x + (1 # 2))%Q.

(** Rounding to [d] decimals as [toFixed] does, on the magnitude. *)
Definition to_decimals (d : nat) (x : Q) : Q :=
  let scale := inject_Z (10 ^ Z.of_nat d) in
  if Qle_bool 0 x then (inject_Z (round (x * scale)) / scale)%Q
  else (- (inject_Z (round (- x * scale)) / scale))%Q.

Definition Qmax0 (x : Q) : Q := if Qle_bool 0 x then x else 0%Q.

Definition vibrationAggregate (p : SimulationParams) : Q :=
  to_decimals 2
    ((value (vibrationX p) + value (vibrationY p) + value (vibrationZ p)) / 3)%Q.

Definition temperatureAggregate (p : SimulationParams) : Q :=
  inject_Z (round ((value (motorTemp p) + value (bearingTemp p)) / 2)%Q).

Definition weightedSum (p : SimulationParams) : Q :=
  ((value (rpm p) / 2000) * 18
   + (value (torque p) / 200) * 12
   + (vibrationAggregate p / 10) * 15
   + (temperatureAggregate p / 220) * 12
   + Qmax0 (1 - value (powerFactor p)) * 20
   + Qmax0 (value (ambientTemp p) - 25) * (3 # 10)
   + value (bearingWear p) * (12 # 100)
   + value (wearLevel p) * (8 # 100))%Q.

Definition risk (p : SimulationParams) : Z :=
  Z.min 100 (Z.max 0 (round (weightedSum p))).





(** [1400 - 8*risk - operatingHours/6 - 3*bearingWear] for a risk score
    [risk], and the sum of the sizes of its four terms. *)
Definition lifeDifference (risk : Js.number) (p : SimulationParams) : Q :=
  (1400 - 8 * value risk - value (operatingHours p) / 6
   - 3 * value (bearingWear p))%Q.

Definition lifeSize (risk : Js.number) (p : SimulationParams) : Q :=
  (1400 + 8 * Qabs (value risk) + Qabs (value (operatingHours p)) / 6
   + 3 * Qabs (value (bearingWear p)))%Q.

End Exact.

(** Integer-valued parameters for which the exact weighted sum is
    [0.54 + 6.96 = 7.5]. *)
Definition halfwayParams : SimulationParams := {|
  rpm := Js.of_Z 60;
  torque := Js.of_Z 116;
  loadWeight := Js.of_Z 62;
  motorTemp := Js.of_Z 0;
  windingTemp := Js.of_Z 0;
  bearingTemp := Js.of_Z 0;
  ambientTemp := Js.of_Z 25;
  vibrationX := Js.of_Z 0;
  vibrationY := Js.of_Z 0;
  vibrationZ := Js.of_Z 0;
  voltage := Js.of_Z 400;
  current := Js.of_Z 22;
  powerConsumption := Js.of_Z 18;
  powerFactor := Js.of_Z 1;
  harmonicDistortion := Js.of_Z 0;
  efficiency := Js.of_Z 88;
  insulationResistance := Js.of_Z 12;
  operatingHours := Js.of_Z 4200;
  startStopCycles := Js.of_Z 14;
  wearLevel := Js.of_Z 0;
  bearingWear := Js.of_Z 0;
  humidity := Js.of_Z 48
|}.








(** ** Concrete inputs *)

Module Example.

Definition sampleA : TelemetrySample := {|
  s_timestamp := Js.of_Z 1700000000000;
  s_machineId := "M1";
  s_machineName := "Motor 1";
  s_rpm := Js.of_Z 1200;
  s_torque := Js.of_Z 110;
  s_loadWeight := Js.of_Z 60;
  s_motorTemp := Js.of_Z 95;
  s_windingTemp := Js.of_Z 99;
  s_bearingTemp := Js.of_Z 81;
  s_ambientTemp := Js.of_Z 24;
  s_vibrationX := Js.decimal 15 1;
  s_vibrationY := Js.decimal 20 1;
  s_vibrationZ := Js.decimal 25 1;
  s_vibrationMagnitude := Js.decimal 3536 3;
  s_voltage := Js.of_Z 400;
  s_current := Js.of_Z 21;
  s_powerConsumption := Js.of_Z 17;
  s_powerFactor := Js.decimal 9 1;
  s_harmonicDistortion := Js.decimal 21 1;
  s_efficiency := Js.of_Z 90;
  s_operatingHours := Js.of_Z 4100;
  s_startStopCycles := Js.of_Z 12;
  s_wearLevel := Js.of_Z 15;
  s_bearingWear := Js.of_Z 20;
  s_insulationResistance := Js.of_Z 12;
  s_humidity := Js.of_Z 45;
  s_isRunning := true
|}.

(** No variable of the environment is set. *)
Definition noEnv : Env := {|
  VITE_TELEMETRY_URL := None;
  VITE_PREDICT_URL := None;
  VITE_HARDWARE_URL := None;
  VITE_RETRAIN_URL := None;
  VITE_TELEMETRY_POLL_MS := None;
  VITE_FAILURE_THRESHOLD := None
|}.

(** [Number] on the values that need no parsing. *)
Definition toNumber (v : json) : Js.number :=
  match v with
  | JNum n => n
  | JNull | JBool false | JStr EmptyString | JArr [] => Js.of_Z 0
  | JBool true => Js.of_Z 1
  | _ => Js.NaN
  end.

Definition boom : Error := {| message := "Failed to fetch" |}.

Definition answer {B : Type} (body : B) : fetched B :=
  Responded {| ok := true; status := 200;
               res_text := Returned ""%string; res_json := Returned body |}.

Definition unavailable {B : Type} : fetched B :=
  Responded {| ok := false; status := 503;
               res_text := Returned "Service Unavailable"%string;
               res_json := Threw {| message := "Unexpected token" |} |}.

Definition predicted (probability : Js.number) : json :=
  JObj [("failure_probability"%string, JNum probability)].

(** A poll in which every request succeeds and the predicted failure
    probability is 0.9. *)
Definition criticalPoll : PollWorld := {|
  now := Js.of_Z 1700000001000;
  telemetry := answer (PArray [sampleA]);
  active_after_fetch := true;
  predict := answer (predicted (Js.decimal 9 1));
  dispatch := answer JNull;
  active_in_catch := true
|}.

(** The same poll, the retrain request being rejected. *)
Definition dispatchRejectedPoll : PollWorld :=
  with_dispatch (Rejected boom) criticalPoll.

(** A poll whose telemetry request is rejected. *)
Definition telemetryDownPoll : PollWorld := {|
  now := Js.of_Z 1700000001000;
  telemetry := Rejected boom;
  active_after_fetch := true;
  predict := answer (predicted (Js.decimal 9 1));
  dispatch := answer JNull;
  active_in_catch := true
|}.

(** A poll whose predict request is answered with status 503. *)
Definition predictDownPoll : PollWorld := {|
  now := Js.of_Z 1700000001000;
  telemetry := answer (PArray [sampleA]);
  active_after_fetch := true;
  predict := unavailable;
  dispatch := answer JNull;
  active_in_catch := true
|}.

(** A machine whose buffer holds 49 samples. *)
Definition almostFull : Machine :=
  {| ui := with_telemetryBuffer (fun _ => repeat sampleA 49) initialState;
     sent := []; unhandled := [] |}.

(** A machine whose auto mode is on. *)
Definition autoMachine : Machine :=
  {| ui := {| params := defaultParams; result := None; isSimulating := false;
              autoMode := true; failureProbability := None; lastUpdate := None;
              showWireframe := false;
              friendUrl := "http://192.168.56.1:8000/predict";
              isPredicting := false; predictionStatus := None;
              telemetryBuffer := [] |};
     sent := []; unhandled := [] |}.

(** A manual request that is rejected. *)
Definition rejectedSend : SendWorld :=
  {| send_now := Js.of_Z 1700000001000; send_answer := Rejected boom |}.

(** A telemetry payload whose only machine key is the empty string. *)
Definition emptyKeyPayload : payload :=
  PObject {| exportTime := None; totalDataPoints := None; runtime := None;
             machines := Some [(""%string, [sampleA])] |}.

End Example.

(** ** Editing one parameter *)

(** [keyof SimulationParams] *)
Inductive SimulationParamsKey :=
| K_rpm | K_torque | K_loadWeight | K_motorTemp | K_windingTemp
| K_bearingTemp | K_ambientTemp | K_vibrationX | K_vibrationY | K_vibrationZ
| K_voltage | K_current | K_powerConsumption | K_powerFactor
| K_harmonicDistortion | K_efficiency | K_insulationResistance
| K_operatingHours | K_startStopCycles
| K_wearLevel | K_bearingWear
| K_humidity.

(** The keys in declaration order. *)
Definition SimulationParams_keys : list SimulationParamsKey :=
  [ K_rpm; K_torque; K_loadWeight; K_motorTemp; K_windingTemp;
    K_bearingTemp; K_ambientTemp; K_vibrationX; K_vibrationY; K_vibrationZ;
    K_voltage; K_current; K_powerConsumption; K_powerFactor;
    K_harmonicDistortion; K_efficiency; K_insulationResistance;
    K_operatingHours; K_startStopCycles; K_wearLevel; K_bearingWear;
    K_humidity ].

Definition key_name (key : SimulationParamsKey) : string :=
  match key with
  | K_rpm => "rpm" | K_torque => "torque" | K_loadWeight => "loadWeight"
  | K_motorTemp => "motorTemp" | K_windingTemp => "windingTemp"
  | K_bearingTemp => "bearingTemp" | K_ambientTemp => "ambientTemp"
  | K_vibrationX => "vibrationX" | K_vibrationY => "vibrationY"
  | K_vibrationZ => "vibrationZ"
  | K_voltage => "voltage" | K_current => "current"
  | K_powerConsumption => "powerConsumption" | K_powerFactor => "powerFactor"
  | K_harmonicDistortion => "harmonicDistortion" | K_efficiency => "efficiency"
  | K_insulationResistance => "insulationResistance"
  | K_operatingHours => "operatingHours"
  | K_startStopCycles => "startStopCycles"
  | K_wearLevel => "wearLevel" | K_bearingWear => "bearingWear"
  | K_humidity => "humidity"
  end%string.

(** [params[key]] *)
Definition get_field (key : SimulationParamsKey) (params : SimulationParams)
  : Js.number :=
  match key with
  | K_rpm => rpm params | K_torque => torque params
  | K_loadWeight => loadWeight params
  | K_motorTemp => motorTemp params | K_windingTemp => windingTemp params
  | K_bearingTemp => bearingTemp params | K_ambientTemp => ambientTemp params
  | K_vibrationX => vibrationX params | K_vibrationY => vibrationY params
  | K_vibrationZ => vibrationZ params
  | K_voltage => voltage params | K_current => current params
  | K_powerConsumption => powerConsumption params
  | K_powerFactor => powerFactor params
  | K_harmonicDistortion => harmonicDistortion params
  | K_efficiency => efficiency params
  | K_insulationResistance => insulationResistance params
  | K_operatingHours => operatingHours params
  | K_startStopCycles => startStopCycles params
  | K_wearLevel => wearLevel params | K_bearingWear => bearingWear params
  | K_humidity => humidity params
  end.

Definition key_eqb (a b : SimulationParamsKey) : bool :=
  String.eqb (key_name a) (key_name b).

(** [{ ...prev, [key]: value }] *)
Definition set_field (key : SimulationParamsKey) (value : Js.number)
  (prev : SimulationParams) : SimulationParams :=
  let put k := if key_eqb key k then value else get_field k prev in
  {| rpm := put K_rpm;
     torque := put K_torque;
     loadWeight := put K_loadWeight;
     motorTemp := put K_motorTemp;
     windingTemp := put K_windingTemp;
     bearingTemp := put K_bearingTemp;
     ambientTemp := put K_ambientTemp;
     vibrationX := put K_vibrationX;
     vibrationY := put K_vibrationY;
     vibrationZ := put K_vibrationZ;
     voltage := put K_voltage;
     current := put K_current;
     powerConsumption := put K_powerConsumption;
     powerFactor := put K_powerFactor;
     harmonicDistortion := put K_harmonicDistortion;
     efficiency := put K_efficiency;
     insulationResistance := put K_insulationResistance;
     operatingHours := put K_operatingHours;
     startStopCycles := put K_startStopCycles;
     wearLevel := put K_wearLevel;
     bearingWear := put K_bearingWear;
     humidity := put K_humidity |}.

Definition updateNumber (key : SimulationParamsKey) (value : Js.number) : M unit :=
  setState (with_params (fun prev => set_field key value prev)).

(** The property assignments of the object literal of [mapSampleToParams],
    in the order of the source text. *)
Definition mapSampleToParams_entries (sample : TelemetrySample)
  : list (SimulationParamsKey * Js.number) :=
  [ (K_rpm, Js.Math_round (s_rpm sample));
    (K_torque, Js.Math_round (s_torque sample));
    (K_loadWeight, Js.Math_round (s_loadWeight sample));
    (K_vibrationX, s_vibrationX sample);
    (K_vibrationY, s_vibrationY sample);
    (K_vibrationZ, s_vibrationZ sample);
    (K_voltage, s_voltage sample);
    (K_current, s_current sample);
    (K_powerConsumption, s_powerConsumption sample);
    (K_powerFactor, s_powerFactor sample);
    (K_harmonicDistortion, s_harmonicDistortion sample);
    (K_efficiency, s_efficiency sample);
    (K_insulationResistance, s_insulationResistance sample);
    (K_motorTemp, Js.Math_round (s_motorTemp sample));
    (K_windingTemp, Js.Math_round (s_windingTemp sample));
    (K_bearingTemp, Js.Math_round (s_bearingTemp sample));
    (K_ambientTemp, Js.Math_round (s_ambientTemp sample));
    (K_operatingHours, Js.Math_round (s_operatingHours sample));
    (K_startStopCycles, Js.Math_round (s_startStopCycles sample));
    (K_wearLevel, Js.Math_round (s_wearLevel sample));
    (K_bearingWear, Js.Math_round (s_bearingWear sample));
    (K_humidity, Js.Math_round (s_humidity sample)) ].

(** The object literal [{ ...previous, rpm: ..., ... }] evaluated as the
    engine does: the spread first, then one assignment after the other. *)
Definition object_literal (previous : SimulationParams)
  (entries : list (SimulationParamsKey * Js.number)) : SimulationParams :=
  fold_left (fun acc kv => set_field (fst kv) (snd kv) acc) entries previous.

(** The fields that the derived metrics read. *)
Definition derived_reads : list SimulationParamsKey :=
  [ K_rpm; K_torque; K_loadWeight; K_motorTemp; K_bearingTemp; K_ambientTemp;
    K_vibrationX; K_vibrationY; K_vibrationZ; K_powerFactor;
    K_operatingHours; K_wearLevel; K_bearingWear ].

Definition reads (key : SimulationParamsKey) : bool :=
  existsb (key_eqb key) derived_reads.

(** Identity of two numbers as values of the engine ([Object.is]). *)
Definition same_number (a b : Js.number) : bool :=
  match a, b with
  | S754_nan, S754_nan => true
  | S754_zero s, S754_zero s' => Bool.eqb s s'
  | S754_infinity s, S754_infinity s' => Bool.eqb s s'
  | S754_finite s m e, S754_finite s' m' e' =>
      Bool.eqb s s' && Pos.eqb m m' && Z.eqb e e'
  | _, _ => false
  end.

Definition same_derived (a b : Derived) : bool :=
  same_number (d_rpm a) (d_rpm b)
  && same_number (loadPercent a) (loadPercent b)
  && same_number (vibration a) (vibration b)
  && same_number (temperature a) (temperature b)
  && same_number (riskScore a) (riskScore b)
  && same_number (expectedTemp a) (expectedTemp b)
  && same_number (expectedVibration a) (expectedVibration b)
  && same_number (remainingLife a) (remainingLife b).

(** ** What the simulation view shows *)

Definition with_isSimulating (v : bool) (st : State) : State :=
  {| params := params st; result := result st;
     isSimulating := v; autoMode := autoMode st;
     failureProbability := failureProbability st; lastUpdate := lastUpdate st;
     showWireframe := showWireframe st; friendUrl := friendUrl st;
     isPredicting := isPredicting st; predictionStatus := predictionStatus st;
     telemetryBuffer := telemetryBuffer st |}.

Definition with_showWireframe (v : bool) (st : State) : State :=
  {| params := params st; result := result st;
     isSimulating := isSimulating st; autoMode := autoMode st;
     failureProbability := failureProbability st; lastUpdate := lastUpdate st;
     showWireframe := v; friendUrl := friendUrl st;
     isPredicting := isPredicting st; predictionStatus := predictionStatus st;
     telemetryBuffer := telemetryBuffer st |}.

(** [value?.key] on the stored result: [undefined] (here [None]) when the
    value is [null], when it has no such property, and on the values that
    have no named properties of their own. *)
Definition optional_property (value : option json) (key : string) : option json :=
  match value with
  | Some (JObj entries) => property entries key
  | _ => None
  end.

(** Whether a value, or [undefined], counts as true in a condition. *)
Definition truthy_json (v : option json) : bool :=
  match v with
  | None | Some JNull => false
  | Some (JBool b) => b
  | Some (JNum n) =>
      match n with
      | S754_zero _ | S754_nan => false
      | _ => true
      end
  | Some (JStr s) => truthy s
  | Some (JArr _) | Some (JObj _) => true
  end.

(** A timer handed to the host by [setTimeout]. *)
Inductive timer := Timer (callback : M unit) (ms : Js.number).

Section View.

Variable ToNumber : json -> Js.number.
Variable env : Env.

(** [failureProbability !== null ? Math.round(failureProbability * 100) : null] *)
Definition autoRisk (st : State) : option Js.number :=
  match failureProbability st with
  | Some fp => Some (Js.Math_round (Js.mul fp (Js.of_Z 100)))
  | None => None
  end.

(** [result?.failureProbability ? Math.round(result.failureProbability * 100) : null] *)
Definition predictedRiskPercentage (st : State) : option Js.number :=
  let fp := optional_property (result st) "failureProbability" in
  if truthy_json fp then
    match fp with
    | Some v => Some (Js.Math_round (Js.mul (Number ToNumber v) (Js.of_Z 100)))
    | None => None
    end
  else None.

(** [result?.riskLevel ?? null] *)
Definition predictedRiskLevel (st : State) : option json :=
  nullish_or (optional_property (result st) "riskLevel") None.

(** [result?.interpretation ?? null] *)
Definition predictedInterpretation (st : State) : option json :=
  nullish_or (optional_property (result st) "interpretation") None.

(** [predictedRiskPercentage ?? autoRisk ?? derived.riskScore] *)
Definition currentRisk (st : State) : Js.number :=
  match predictedRiskPercentage st with
  | Some x => x
  | None =>
      match autoRisk st with
      | Some y => y
      | None => riskScore (derived (params st))
      end
  end.

(** [predictedRiskLevel ?? (currentRisk > 70 ? 'CRITICAL' : currentRisk > 40
    ? 'WARNING' : 'SAFE')] *)
Definition currentRiskLevel (st : State) : json :=
  match predictedRiskLevel st with
  | Some level => level
  | None =>
      JStr (if Js.gtb (currentRisk st) (Js.of_Z 70) then "CRITICAL"
            else if Js.gtb (currentRisk st) (Js.of_Z 40) then "WARNING"
            else "SAFE")
  end.

Definition statusLabel (st : State) : string :=
  if autoMode st then
    match failureProbability st with
    | None => "PENDING"
    | Some fp =>
        if Js.geb fp (failureThreshold ToNumber env) then "CRITICAL" else "SAFE"
    end
  else "MANUAL".

(** The class of the tile that shows the predicted risk. *)
Definition riskTileClass (st : State) : string :=
  if Js.ltb (currentRisk st) (Js.of_Z 40) then "stat-ok"
  else if Js.ltb (currentRisk st) (Js.of_Z 70) then "stat-warn"
  else "stat-alert".

(** The class of the failure-risk figure of the telemetry card. *)
Definition riskTextClass (st : State) : string :=
  if Js.gtb (currentRisk st) (Js.of_Z 70) then "text-red-500"
  else if Js.gtb (currentRisk st) (Js.of_Z 40) then "text-yellow-500"
  else "text-green-500".

(** The callback that [runSimulation] hands to [setTimeout]; [derived] is
    the value of the render in which [runSimulation] was created. *)
Definition simulationTimeout (derived : Derived) : M unit :=
  (setState (with_result (Some (JObj (simulationResult derived)))) ;;
   setState (with_isSimulating false))%handler.

Definition runSimulation : M timer :=
  (st <- getState ;;
   let derived := derived (params st) in
   setState (with_isSimulating true) ;;
   ret (Timer (simulationTimeout derived) (Js.of_Z 1600)))%handler.

(** [() => setShowWireframe(!showWireframe)] *)
Definition toggleWireframe : M unit :=
  (st <- getState ;;
   setState (with_showWireframe (negb (showWireframe st))))%handler.

Variable machinesData : list MachineData.
Variable selectedMachineId : string.

(** Everything that can happen to the mounted view. *)
Inductive view_event :=
| Handler (ev : event)
| UpdateNumber (key : SimulationParamsKey) (value : Js.number)
| RunSimulation
| SimulationTimeout (derived : Derived)
| ToggleWireframe.

Definition view_handle (mc : Machine) (ev : view_event) : Machine :=
  match ev with
  | Handler ev => handle ToNumber env machinesData selectedMachineId mc ev
  | UpdateNumber key value => snd (updateNumber key value mc)
  | RunSimulation => snd (runSimulation mc)
  | SimulationTimeout derived => snd (simulationTimeout derived mc)
  | ToggleWireframe => snd (toggleWireframe mc)
  end.

Definition view_run (evs : list view_event) (mc : Machine) : Machine :=
  fold_left view_handle evs mc.

(** Whether an event is a run of [fetchTelemetry]. *)
Definition is_poll (ev : view_event) : bool :=
  match ev with
  | Handler (Poll _) => true
  | _ => false
  end.

End View.

(** ** Sequences of polls *)

(** The sample that a poll accepts, if it accepts one. *)
Definition accepted_sample (w : PollWorld) : option TelemetrySample :=
  match telemetry w with
  | Responded r =>
      if ok r then
        match res_json r with
        | Returned pl => if active_after_fetch w then getLatestSample pl else None
        | Threw _ => None
        end
      else None
  | Rejected _ => None
  end.

(** The samples accepted by a sequence of polls, oldest first. *)
Fixpoint accepted_samples (ws : list PollWorld) : list TelemetrySample :=
  match ws with
  | [] => []
  | w :: rest =>
      match accepted_sample w with
      | Some s => s :: accepted_samples rest
      | None => accepted_samples rest
      end
  end.

(** ** The parts of the state a handler leaves alone

    Each function blanks the parts of the state that a handler may write, so
    that two states are equal under it exactly when they agree on all the
    rest. *)

(** [fetchTelemetry] may write the parameters, the last update, the failure
    probability and the buffer. *)
Definition outside_poll (st : State) : State :=
  with_params (fun _ => defaultParams)
    (with_lastUpdate None
       (with_failureProbability None
          (with_telemetryBuffer (fun _ => []) st))).

(** [handleSendToFriend] may write the result, the status and the busy
    flag. *)
Definition outside_send (st : State) : State :=
  with_result None (with_predictionStatus None (with_isPredicting false st)).

(** [resetToDefault] writes the parameters, the result, the failure
    probability and the buffer. *)
Definition outside_reset (st : State) : State :=
  with_params (fun _ => defaultParams)
    (with_result None
       (with_failureProbability None
          (with_telemetryBuffer (fun _ => []) st))).

(** [runSimulation] and its timeout may write the result and the
    simulating flag. *)
Definition outside_simulation (st : State) : State :=
  with_result None (with_isSimulating false st).

(** [null] or [undefined]: what [??] skips. *)
Definition nullish (v : option json) : bool :=
  match v with
  | None | Some JNull => true
  | Some _ => false
  end.

(** ** The status line of the manual request *)

(** [s.includes(sub)] *)
Fixpoint includes (s sub : string) : bool :=
  String.prefix sub s
  || match s with
     | EmptyString => false
     | String _ rest => includes rest sub
     end.

(** The class of the status line:
    [predictionStatus.includes('Error') ? 'text-red-400' : 'text-green-400'];
    the line is rendered for a status that is not empty. *)
Definition statusClass (st : State) : option string :=
  match predictionStatus st with
  | Some s =>
      if truthy s
      then Some (if includes s "Error" then "text-red-400" else "text-green-400")%string
      else None
  | None => None
  end.

(** Whether the host's answer to a manual request is an OK response whose
    body parses. *)
Definition send_succeeds (w : SendWorld) : bool :=
  match send_answer w with
  | Responded r =>
      ok r && match res_json r with Returned _ => true | Threw _ => false end
  | Rejected _ => false
  end.

(** ** The mock data, the overview dashboard and the machine cards *)

Module mockData.

Definition machinesData : list MachineData :=
  [ {| m_id := "B1";
       m_name := "High-Pressure Boiler";
       m_type := boiler;
       m_status := healthy;
       m_failureRisk := Js.of_Z 14;
       m_temperature := Js.of_Z 182;
       m_vibration := Js.decimal 19 1;
       m_rpm := Js.of_Z 980;
       m_load := Js.of_Z 62;
       m_energyConsumption := Js.decimal 184 1;
       m_lastMaintenance := "2025-12-05";
       m_nextMaintenance := "2026-01-05" |} ].

End mockData.

(** [m.status === s] *)
Definition has_status (s : MachineStatus) (m : MachineData) : bool :=
  match m_status m, s with
  | healthy, healthy | warning, warning | critical, critical => true
  | _, _ => false
  end.

Section Overview.

(** [machinesData] of [data/mockData]. *)
Variable machinesData : list MachineData.

Definition getProductionLineStatus : string :=
  let criticalCount := List.length (filter (has_status critical) machinesData) in
  let warningCount := List.length (filter (has_status warning) machinesData) in
  if (0 <? criticalCount)%nat then "at-risk"
  else if (0 <? warningCount)%nat then "warning"
  else "normal".

Definition getOverallFailureRisk : Js.number :=
  let avgRisk :=
    Js.div (fold_left (fun sum m => Js.add sum (m_failureRisk m)) machinesData
                      (Js.of_Z 0))
           (Js.of_Z (Z.of_nat (List.length machinesData))) in
  Js.Math_round avgRisk.

(** The number of machines that require attention, as the overview
    dashboard counts them. *)
Definition warningCount : nat :=
  List.length
    (filter (fun m => has_status warning m || has_status critical m) machinesData).

End Overview.

(** The class names handed to [cn] with a condition each: those whose
    condition is false are dropped. *)
Definition conditional_classes (classes : list (bool * string)) : list string :=
  map snd (filter fst classes).

(** The colour of a machine's failure risk on its card and in the machine
    details. *)
Definition failureRiskClasses (failureRisk : Js.number) : list string :=
  conditional_classes
    [ (Js.ltb failureRisk (Js.of_Z 30), "text-success");
      (Js.geb failureRisk (Js.of_Z 30) && Js.ltb failureRisk (Js.of_Z 70),
       "text-warning");
      (Js.geb failureRisk (Js.of_Z 70), "text-destructive") ]%string.

(** The colour of the overall failure risk on the overview dashboard. *)
Definition overallRiskClasses (overallRisk : Js.number) : list string :=
  conditional_classes
    [ (Js.ltb overallRisk (Js.of_Z 30), "text-success");
      (Js.geb overallRisk (Js.of_Z 30) && Js.ltb overallRisk (Js.of_Z 60),
       "text-warning");
      (Js.geb overallRisk (Js.of_Z 60), "text-destructive") ]%string.

(** ** The machine details *)

Definition getStatus (value : Js.number) (thresholds : Js.number * Js.number)
  : string :=
  if Js.ltb value (fst thresholds) then "normal"
  else if Js.ltb value (snd thresholds) then "warning"
  else "critical".

(** ** The boiler of the 3D viewer *)

Module BoilerModel.

(** [Math.min(1, Math.max(0.2, temperature / 220))] *)
Definition glow (temperature : Js.number) : Js.number :=
  Js.Math_min (Js.of_Z 1)
    (Js.Math_max (Js.decimal 2 1) (Js.div temperature (Js.of_Z 220))).

(** [Math.min(1, Math.max(0.2, load / 100))] *)
Definition flamePower (load : Js.number) : Js.number :=
  Js.Math_min (Js.of_Z 1)
    (Js.Math_max (Js.decimal 2 1) (Js.div load (Js.of_Z 100))).

(** [Math.min(1, Math.max(0, (temperature - 80) / 160 + load / 200))] *)
Definition pressureRatio (temperature load : Js.number) : Js.number :=
  Js.Math_min (Js.of_Z 1)
    (Js.Math_max (Js.of_Z 0)
       (Js.add (Js.div (Js.sub temperature (Js.of_Z 80)) (Js.of_Z 160))
               (Js.div load (Js.of_Z 200)))).

End BoilerModel.

(** ** The page: tabs and the selected machine *)

Module Index.

Record State := {
  activeTab : string;
  selectedMachineId : string
}.

Definition initialState : State :=
  {| activeTab := "dashboard"; selectedMachineId := "B1" |}.

Definition setActiveTab (tab : string) (st : State) : State :=
  {| activeTab := tab; selectedMachineId := selectedMachineId st |}.

Definition setSelectedMachineId (id : string) (st : State) : State :=
  {| activeTab := activeTab st; selectedMachineId := id |}.

Definition handleViewMachine (machineId : string) (st : State) : State :=
  setActiveTab "machine" (setSelectedMachineId machineId st).

Definition handleViewSimulation (st : State) : State :=
  setActiveTab "simulation" st.

Definition handleViewDecisions (st : State) : State :=
  setActiveTab "decisions" st.

(** The tabs of the navigation bar: identifier and label. *)
Definition tabs : list (string * string) :=
  [ ("dashboard", "Overview");
    ("machine", "Machine Details");
    ("simulation", "Digital Twin");
    ("decisions", "AI Decisions") ]%string.

Inductive view :=
| OverviewDashboard
| MachineDetails
| DigitalTwinSimulation
| DecisionsExplainability.

(** The views that the page renders, in the order of the source. *)
Definition rendered (st : State) : list view :=
  (if String.eqb (activeTab st) "dashboard" then [OverviewDashboard] else [])
  ++ (if String.eqb (activeTab st) "machine" then [MachineDetails] else [])
  ++ (if String.eqb (activeTab st) "simulation" then [DigitalTwinSimulation] else [])
  ++ (if String.eqb (activeTab st) "decisions" then [DecisionsExplainability] else []).

(** What the user can do: press the [n]-th tab of the navigation bar, press
    the card of the [n]-th machine of the overview, choose the [n]-th item
    of a machine selector, or press one of the buttons that lead to the
    simulation or to the decisions.  A control that does not exist does
    nothing. *)
Inductive event :=
| TabClick (n : nat)
| CardClick (n : nat)
| SelectMachine (n : nat)
| ViewSimulation
| ViewDecisions.

Section Page.

Variable machinesData : list MachineData.

Definition handle (st : State) (ev : event) : State :=
  match ev with
  | TabClick n =>
      match nth_error tabs n with
      | Some tab => setActiveTab (fst tab) st
      | None => st
      end
  | CardClick n =>
      match nth_error machinesData n with
      | Some machine => handleViewMachine (m_id machine) st
      | None => st
      end
  | SelectMachine n =>
      match nth_error machinesData n with
      | Some m => setSelectedMachineId (m_id m) st
      | None => st
      end
  | ViewSimulation => handleViewSimulation st
  | ViewDecisions => handleViewDecisions st
  end.

Definition run (evs : list event) (st : State) : State :=
  fold_left handle evs st.

End Page.

End Index.

(** ** The recommendations *)

Module Decisions.

Inductive level := high | medium | low.

Record AIRecommendation := {
  id : string;
  action : string;
  reasoning : list string;
  featureImportance : list (string * level);
  urgency : level;
  approved : option bool      (* [None] is [undefined] *)
}.

Inductive toast :=
| toast_success (text : string)
| toast_info (text : string).

Record State := {
  recommendations : list AIRecommendation;
  approvedAction : option string;
  toasts : list toast             (* oldest first *)
}.

(** [aiRecommendations] of [data/mockData]. *)
Definition aiRecommendations : list AIRecommendation :=
  [ {| id := "REC-001";
       action := "Reduce draft fan speed by 8% and inspect burner nozzles within 48 hours for Boiler B1";
       reasoning :=
         [ "Steam temperature trending above recommended limits";
           "Vibration spikes observed during load ramp-up";
           "Fuel valve response lag detected in control loop";
           "Operating load near upper bound for extended duration" ];
       featureImportance :=
         [ ("Steam Temperature", high); ("Vibration", high);
           ("Control Response", medium); ("Load", low) ];
       urgency := high;
       approved := None |} ]%string.

Definition initialState : State :=
  {| recommendations := aiRecommendations; approvedAction := None; toasts := [] |}.

(** [{ ...r, approved: v }] *)
Definition with_approved (v : bool) (r : AIRecommendation) : AIRecommendation :=
  {| id := id r; action := action r; reasoning := reasoning r;
     featureImportance := featureImportance r; urgency := urgency r;
     approved := Some v |}.

Definition handleApprove (i : string) (st : State) : State :=
  {| recommendations :=
       map (fun r => if String.eqb (id r) i then with_approved true r else r)
           (recommendations st);
     approvedAction := Some i;
     toasts := toasts st
               ++ [toast_success "Action approved. Monitoring system response..."] |}.

Definition handleReject (i : string) (st : State) : State :=
  {| recommendations :=
       map (fun r => if String.eqb (id r) i then with_approved false r else r)
           (recommendations st);
     approvedAction := approvedAction st;
     toasts := toasts st
               ++ [toast_info "Action rejected. Consider re-simulating alternatives."] |}.

(** The buttons of a recommendation are rendered while it is undecided. *)
Definition has_buttons (r : AIRecommendation) : bool :=
  match approved r with None => true | Some _ => false end.

(** What the user can do: press the approve or the reject button of the
    [n]-th recommendation; a button that is not rendered does nothing. *)
Inductive event :=
| Approve (n : nat)
| Reject (n : nat).

Definition handle (st : State) (ev : event) : State :=
  match ev with
  | Approve n =>
      match nth_error (recommendations st) n with
      | Some r => if has_buttons r then handleApprove (id r) st else st
      | None => st
      end
  | Reject n =>
      match nth_error (recommendations st) n with
      | Some r => if has_buttons r then handleReject (id r) st else st
      | None => st
      end
  end.

Definition run (evs : list event) (st : State) : State :=
  fold_left handle evs st.

End Decisions.

(** ** The labels of the parameter inputs *)

Module Label.

Definition is_capital (c : ascii) : bool :=
  (65 <=? nat_of_ascii c)%nat && (nat_of_ascii c <=? 90)%nat.

Definition is_small (c : ascii) : bool :=
  (97 <=? nat_of_ascii c)%nat && (nat_of_ascii c <=? 122)%nat.

(** [s.replace(/([A-Z])/g, ' $1')] *)
Fixpoint space_capitals (s : string) : string :=
  match s with
  | EmptyString => EmptyString
  | String c rest =>
      if is_capital c then String " " (String c (space_capitals rest))
      else String c (space_capitals rest)
  end.

(** [c.toUpperCase()] for a character of the ASCII range. *)
Definition toUpperCase (c : ascii) : ascii :=
  if is_small c then ascii_of_nat (nat_of_ascii c - 32) else c.

(** The characters that [.] does not match. *)
Definition line_terminator (c : ascii) : bool :=
  (nat_of_ascii c =? 10)%nat || (nat_of_ascii c =? 13)%nat.

(** [s.replace(/^./, str => str.toUpperCase())] *)
Definition capitalize (s : string) : string :=
  match s with
  | EmptyString => EmptyString
  | String c rest =>
      if line_terminator c then s else String (toUpperCase c) rest
  end.

(** The label of the input of a parameter; the keys are made of characters
    of the ASCII range. *)
Definition label (key : string) : string :=
  capitalize (space_capitals key).

(** Reading a key back from its label: the spaces are dropped and the
    first character is made small. *)
Fixpoint drop_spaces (s : string) : string :=
  match s with
  | EmptyString => EmptyString
  | String c rest =>
      if Ascii.eqb c " " then drop_spaces rest else String c (drop_spaces rest)
  end.

Definition toLowerCase (c : ascii) : ascii :=
  if is_capital c then ascii_of_nat (nat_of_ascii c + 32) else c.

Definition key_of_label (l : string) : string :=
  match drop_spaces l with
  | EmptyString => EmptyString
  | String c rest => String (toLowerCase c) rest
  end.

(** Whether a string is made of letters and digits of the ASCII range. *)
Fixpoint alphanumeric (s : string) : bool :=
  match s with
  | EmptyString => true
  | String c rest =>
      (is_capital c || is_small c
       || ((48 <=? nat_of_ascii c)%nat && (nat_of_ascii c <=? 57)%nat))
      && alphanumeric rest
  end.

Definition starts_small (s : string) : bool :=
  match s with
  | String c _ => is_small c
  | EmptyString => false
  end.

End Label.

(** ** Further concrete inputs *)

Module Scenario.

(** A stored prediction whose failure probability is 0. *)
Definition zeroPrediction : State :=
  with_result
    (Some (JObj [ ("failureProbability", JNum (Js.of_Z 0));
                  ("riskLevel", JStr "LOW");
                  ("interpretation", JStr "No failure expected") ]%string))
    initialState.

(** The default parameters with a torque for which the risk score is 40. *)
Definition atForty : State :=
  with_params (set_field K_torque (Js.of_Z 170)) initialState.

(** A manual request that is answered with a prediction. *)
Definition prediction : json :=
  JObj [ ("failureProbability", JNum (Js.decimal 42 2));
         ("riskLevel", JStr "WARNING");
         ("interpretation", JStr "Bearing wear is rising") ]%string.

Definition answeredSend : SendWorld :=
  {| send_now := Js.of_Z 1700000001000;
     send_answer := Example.answer prediction |}.

(** A poll that comes back after the effect has been cleaned up. *)
Definition latePoll : PollWorld := {|
  now := Js.of_Z 1700000001000;
  telemetry := Example.answer (PArray [Example.sampleA]);
  active_after_fetch := false;
  predict := Example.answer (Example.predicted (Js.decimal 9 1));
  dispatch := Example.answer JNull;
  active_in_catch := false
|}.

(** A poll whose prediction carries a failure probability that is not a
    number. *)
Definition nanPoll : PollWorld := {|
  now := Js.of_Z 1700000001000;
  telemetry := Example.answer (PArray [Example.sampleA]);
  active_after_fetch := true;
  predict := Example.answer (Example.predicted Js.NaN);
  dispatch := Example.answer JNull;
  active_in_catch := true
|}.

(** Three polls, the second of which fails. *)
Definition threePolls : list PollWorld :=
  [ Example.criticalPoll; Example.telemetryDownPoll; Example.criticalPoll ].

(** A manual request that is refused with a body text, and one that is
    refused with an empty body. *)
Definition refusedSend : SendWorld :=
  {| send_now := Js.of_Z 1700000001000; send_answer := Example.unavailable |}.

Definition emptyRefusal : SendWorld :=
  {| send_now := Js.of_Z 1700000001000;
     send_answer :=
       Responded {| ok := false; status := 500;
                    res_text := Returned ""%string;
                    res_json := Threw {| message := "Unexpected end of JSON input" |} |} |}.

(** A session in the mounted view: an edit, a manual request, a simulation
    and a reset. *)
Definition manualSession : list view_event :=
  [ UpdateNumber K_torque (Js.of_Z 170);
    Handler (Send answeredSend);
    RunSimulation;
    Handler ResetToDefault ].

(** A prediction that names its probability under the second of the three
    keys, the first being [null]. *)
Definition secondKey : json :=
  JObj [ ("failure_probability", JNull);
         ("failureProbability", JNum (Js.decimal 7 1)) ]%string.

(** A visit of the page: the card of the first machine, the simulation, the
    first item of the machine selector. *)
Definition visit : list Index.event :=
  [ Index.CardClick 0; Index.ViewSimulation; Index.SelectMachine 0 ].

End Scenario.

(** ** The host's timers

    [setInterval(f, ms)] has the host call [f] once per period of [ms]
    milliseconds for as long as the interval is not cleared.  One period of
    the mounted polling effect lets every interval of the effect fire once;
    the answers of the host during that call are those of the period's
    world. *)

Section Timers.

Variable ToNumber : json -> Js.number.
Variable env : Env.

Definition fire (w : PollWorld) (mc : Machine) (cmd : host_cmd) : Machine :=
  match cmd with
  | SetInterval f _ => snd (run_callback ToNumber env f w mc)
  | _ => mc
  end.

Definition period (timers : list host_cmd) (mc : Machine) (w : PollWorld)
  : Machine :=
  fold_left (fire w) timers mc.

(** The view from the mounting of the polling effect through the periods
    that follow: the call made at once is answered by [w0], the call of the
    k-th period by the k-th world of [ws]. *)
Definition pollingSession (w0 : PollWorld) (ws : list PollWorld) (mc : Machine)
  : Machine :=
  let mounted := mountTelemetryEffect ToNumber env w0 mc in
  fold_left (period (snd mounted)) ws (fst mounted).

End Timers.

Definition is_get (r : request) : bool :=
  match req_method r with GET => true | POST => false end.

(** The world [w] with another answer to the predict request. *)
Definition with_predict (p : fetched json) (w : PollWorld) : PollWorld :=
  {| now := now w; telemetry := telemetry w;
     active_after_fetch := active_after_fetch w; predict := p;
     dispatch := dispatch w; active_in_catch := active_in_catch w |}.

(** The world [w] with another value of the [active] flag at the time the
    catch block reads it. *)
Definition with_active_in_catch (b : bool) (w : PollWorld) : PollWorld :=
  {| now := now w; telemetry := telemetry w;
     active_after_fetch := active_after_fetch w; predict := predict w;
     dispatch := dispatch w; active_in_catch := b |}.

(** Whether a request carries a sample sequence besides the dispatch
    payload, as only the retrain request does. *)
Definition carries_sequence (r : request) : bool :=
  match req_body r with
  | DispatchBody _ _ _ _ _ (Some _) => true
  | _ => false
  end.

Module Trace.

(** A sample whose readings are not whole numbers. *)
Definition sampleB : TelemetrySample := {|
  s_timestamp := Js.of_Z 1700000002000;
  s_machineId := "M1";
  s_machineName := "Motor 1";
  s_rpm := Js.decimal 12006 1;
  s_torque := Js.decimal 1104 1;
  s_loadWeight := Js.decimal 605 1;
  s_motorTemp := Js.decimal 945 1;
  s_windingTemp := Js.decimal 992 1;
  s_bearingTemp := Js.decimal 8149 2;
  s_ambientTemp := Js.decimal 245 1;
  s_vibrationX := Js.decimal 15 1;
  s_vibrationY := Js.decimal 20 1;
  s_vibrationZ := Js.decimal 25 1;
  s_vibrationMagnitude := Js.decimal 3536 3;
  s_voltage := Js.decimal 4003 1;
  s_current := Js.decimal 212 1;
  s_powerConsumption := Js.decimal 173 1;
  s_powerFactor := Js.decimal 9 1;
  s_harmonicDistortion := Js.decimal 21 1;
  s_efficiency := Js.decimal 905 1;
  s_operatingHours := Js.decimal 41004 1;
  s_startStopCycles := Js.of_Z 12;
  s_wearLevel := Js.decimal 156 1;
  s_bearingWear := Js.decimal 202 1;
  s_insulationResistance := Js.decimal 125 1;
  s_humidity := Js.decimal (-5) 1;
  s_isRunning := true
|}.

(** A poll that delivers [sampleB]. *)
Definition fractionalPoll : PollWorld := {|
  now := Js.of_Z 1700000003000;
  telemetry := Example.answer (PArray [Example.sampleA; sampleB]);
  active_after_fetch := true;
  predict := Example.answer (Example.predicted (Js.decimal 9 1));
  dispatch := Example.answer JNull;
  active_in_catch := true
|}.

(** Polls whose predicted failure probability is 0.3, and exactly the
    default threshold 0.6. *)
Definition calmPoll : PollWorld :=
  with_predict (Example.answer (Example.predicted (Js.decimal 3 1)))
               Example.criticalPoll.

Definition thresholdPoll : PollWorld :=
  with_predict (Example.answer (Example.predicted (Js.decimal 6 1)))
               Example.criticalPoll.

(** A poll during whose predict request the effect is cleaned up: the flag
    is on when the telemetry response is read and off afterwards. *)
Definition cleanedUpInFlight : PollWorld :=
  with_active_in_catch false Example.criticalPoll.

(** The same, the predict request failing. *)
Definition cleanedUpThenFailed : PollWorld :=
  with_active_in_catch false Example.predictDownPoll.

End Trace.

(** ** How far a computed number lies from the exact one

    Every arithmetic operation of the engine returns the number nearest to
    the exact result.  The two constants of JavaScript that measure the
    distance: a finite result [r] of one operation on an exact value [x]
    satisfies [|r - x| <= EPSILON * |r| + MIN_VALUE]. *)

Module Accuracy.

(** [Number.EPSILON], the distance from 1 to the next number: [2^-52]. *)
Definition EPSILON : Q := 1 # 4503599627370496.

(** [Number.MIN_VALUE], the least positive number: [2^-1074]. *)
Definition MIN_VALUE : Q := Qpower 2 (-1074).

End Accuracy.




(** * Properties *)

Unset Implicit Arguments.

(** ** Numbers: ordering, [Math.max], [Math.min] and [clamp] *)

Module JsFacts.
Import Js.

(** Swapping the arguments of a comparison flips its answer. *)
Lemma SFcompare_swap (a b : number) (c : comparison) :
  SFcompare a b = Some c -> SFcompare b a = Some (CompOpp c).
Proof.
  destruct a as [sa|sa| |sa ma ea], b as [sb|sb| |sb mb eb]; simpl;
    try discriminate;
    try (intros H; injection H as <-;
         repeat match goal with s : bool |- _ => destruct s end;
         reflexivity).
  intros H; injection H as <-. f_equal.
  destruct sa, sb; try reflexivity.
  - rewrite (Z.compare_antisym ea eb).
    destruct (ea ?= eb); simpl; try reflexivity.
    rewrite (Pos.compare_cont_antisym ma mb Eq). simpl.
    reflexivity.
  - rewrite (Z.compare_antisym ea eb).
    destruct (ea ?= eb); simpl; try reflexivity.
    rewrite (Pos.compare_cont_antisym ma mb Eq). simpl.
    destruct (Pos.compare_cont Eq ma mb); reflexivity.
Qed.

Lemma compare_none (a b : number) :
  SFcompare a b = None -> a = NaN \/ b = NaN.
Proof.
  destruct a as [sa|sa| |sa ma ea], b as [sb|sb| |sb mb eb]; simpl;
    try discriminate; auto.
Qed.

Lemma Math_max_nan_l (b : number) : Math_max NaN b = NaN.
Proof. reflexivity. Qed.

Lemma Math_max_nan_r (a : number) : Math_max a NaN = NaN.
Proof. destruct a; reflexivity. Qed.

Lemma Math_min_nan_r (a : number) : Math_min a NaN = NaN.
Proof. destruct a; reflexivity. Qed.

(** [Math.max a v] with a lower bound [a] that is a number other than
    [-0]: the result is [NaN] exactly when [v] is, and otherwise it is [a]
    or a [v] that is not below [a]. *)
Lemma Math_max_lower (a v : number) :
  a <> NaN -> a <> S754_zero true ->
  (v = NaN /\ Math_max a v = NaN) \/
  (v <> NaN /\ (Math_max a v = a \/ (Math_max a v = v /\ ltb a v = true))).
Proof.
  intros Ha Hz. unfold Math_max, ltb, SFltb.
  destruct (SFcompare a v) as [[ | | ]|] eqn:E.
  - right. split.
    + intros ->. destruct a; discriminate.
    + left. destruct a as [[|]| | |]; auto. contradiction.
  - right. split.
    + intros ->. destruct a; discriminate.
    + right. split; reflexivity.
  - right. split.
    + intros ->. destruct a; discriminate.
    + left. reflexivity.
  - left. destruct (compare_none _ _ E) as [->| ->]; [contradiction|].
    split; reflexivity.
Qed.

(** [Math.max a v] is never less than its lower bound [a]. *)
Lemma Math_max_not_below (a v : number) :
  a <> NaN -> a <> S754_zero true -> ltb a a = false ->
  ltb (Math_max a v) a = false.
Proof.
  intros Ha Hz Irr.
  destruct (Math_max_lower a v Ha Hz) as [[_ M]|[_ [M|[M L]]]]; rewrite M.
  - reflexivity.
  - exact Irr.
  - unfold ltb, SFltb in *.
    destruct (SFcompare a v) as [[ | | ]|] eqn:C; try discriminate L.
    apply SFcompare_swap in C. rewrite C. reflexivity.
Qed.

Lemma leb_of_ltb (a b : number) : ltb a b = true -> leb a b = true.
Proof.
  unfold ltb, leb, SFltb, SFleb.
  destruct (SFcompare a b) as [[ | | ]|]; auto.
Qed.

Lemma leb_not_ltb (a b : number) : leb a b = true -> ltb b a = false.
Proof.
  unfold ltb, leb, SFltb, SFleb.
  destruct (SFcompare a b) as [[ | | ]|] eqn:C; try discriminate;
    intros _; apply SFcompare_swap in C; rewrite C; reflexivity.
Qed.

Lemma isNaN_true (x : number) : isNaN x = true <-> x = NaN.
Proof. unfold NaN; destruct x; simpl; split; congruence. Qed.

Lemma isNaN_false (x : number) : isNaN x = false <-> x <> NaN.
Proof. unfold NaN; destruct x; simpl; split; congruence. Qed.

End JsFacts.

(** [clamp v lo hi] for bounds that are numbers other than zero-signed
    corner cases: [NaN] goes through, everything else lands in
    [[lo, hi]]. *)
Lemma clamp_bounds (v lo hi : Js.number) :
  lo <> Js.NaN -> lo <> S754_zero true ->
  hi <> Js.NaN -> hi <> S754_zero false ->
  Js.leb lo hi = true ->
  Js.leb lo lo = true -> Js.leb hi hi = true ->
  (v = Js.NaN /\ clamp v lo hi = Js.NaN) \/
  (v <> Js.NaN /\ clamp v lo hi <> Js.NaN /\
   Js.leb lo (clamp v lo hi) = true /\ Js.leb (clamp v lo hi) hi = true).
Proof.
  intros Hlo Hlo0 Hhi Hhi0 Hle Hll Hhh. unfold clamp.
  destruct (JsFacts.Math_max_lower lo v Hlo Hlo0) as [[-> E]|[Hv E]].
  - left. split; [reflexivity|]. rewrite E. apply JsFacts.Math_min_nan_r.
  - right. split; [exact Hv|].
    assert (Hw : exists w, Js.Math_max lo v = w /\ w <> Js.NaN /\ Js.leb lo w = true).
    { destruct E as [E|[E L]]; rewrite E.
      - exists lo. auto.
      - exists v. split; [reflexivity|]. split; [exact Hv|].
        apply JsFacts.leb_of_ltb; exact L. }
    destruct Hw as (w & -> & Hw & Hlw).
    unfold Js.Math_min, Js.leb, SFleb in *.
    destruct (SFcompare hi w) as [[ | | ]|] eqn:C.
    + assert (R : match hi with S754_zero false => w | _ => hi end = hi).
      { destruct hi as [[|]| | |]; auto. contradiction. }
      rewrite R. repeat split; auto.
    + repeat split; auto.
    + apply JsFacts.SFcompare_swap in C. simpl in C.
      repeat split; auto. rewrite C. reflexivity.
    + destruct (JsFacts.compare_none _ _ C); contradiction.
Qed.

(** ** Numbers: rounding *)

Module RoundFacts.
Import Js.

Lemma iter_pos_invariant {A : Type} (f : A -> A) (P : A -> Prop) :
  (forall x, P x -> P (f x)) ->
  forall n x, P x -> P (iter_pos f n x).
Proof.
  intros Hf. induction n as [n IH|n IH|]; simpl; intros x Hx; auto.
Qed.

Lemma shr_1_nonneg (mrs : shr_record) :
  0 <= shr_m mrs -> 0 <= shr_m (shr_1 mrs).
Proof.
  destruct mrs as [m r s]; simpl.
  destruct m as [|[p|p|]|[p|p|]]; simpl; lia.
Qed.

Lemma shr_nonneg (mrs : shr_record) (e n : Z) :
  0 <= shr_m mrs -> 0 <= shr_m (fst (shr mrs e n)).
Proof.
  intros H. destruct n as [|p|p]; simpl; auto.
  apply iter_pos_invariant; auto using shr_1_nonneg.
Qed.

Lemma shr_exponent (mrs : shr_record) (e n : Z) : e <= snd (shr mrs e n).
Proof. destruct n; simpl; lia. Qed.

Lemma shr_record_of_loc_m (m : Z) (l : location) :
  shr_m (shr_record_of_loc m l) = m.
Proof. destruct l as [|[ | | ]]; reflexivity. Qed.

Lemma round_nearest_even_nonneg (m : Z) (l : location) :
  0 <= m -> 0 <= round_nearest_even m l.
Proof.
  intros H. destruct l as [|[ | | ]]; simpl; try lia.
  destruct (Z.even m); lia.
Qed.

(** Rounding a non-negative mantissa keeps the sign, never yields [NaN]
    and never lowers the exponent. *)
Lemma binary_round_aux_shape (s : bool) (m e : Z) (l : location) :
  0 <= m ->
  match binary_round_aux prec emax s m e l with
  | S754_zero s' | S754_infinity s' => s' = s
  | S754_nan => False
  | S754_finite s' _ e' => s' = s /\ e <= e'
  end.
Proof.
  intros Hm. unfold binary_round_aux.
  destruct (shr_fexp prec emax m e l) as [mrs' e'] eqn:E1.
  destruct (shr_fexp prec emax (round_nearest_even (shr_m mrs') (loc_of_shr_record mrs'))
              e' loc_Exact) as [mrs'' e''] eqn:E2.
  assert (H1 : 0 <= shr_m mrs' /\ e <= e').
  { unfold shr_fexp in E1.
    pose proof (shr_nonneg (shr_record_of_loc m l) e
                  (fexp prec emax (Zdigits2 m + e) - e)) as N.
    pose proof (shr_exponent (shr_record_of_loc m l) e
                  (fexp prec emax (Zdigits2 m + e) - e)) as X.
    rewrite E1 in N, X. simpl in N, X.
    rewrite shr_record_of_loc_m in N. auto. }
  destruct H1 as [N1 X1].
  assert (H2 : 0 <= shr_m mrs'' /\ e' <= e'').
  { unfold shr_fexp in E2.
    set (r := round_nearest_even (shr_m mrs') (loc_of_shr_record mrs')) in *.
    pose proof (shr_nonneg (shr_record_of_loc r loc_Exact) e'
                  (fexp prec emax (Zdigits2 r + e') - e')) as N.
    pose proof (shr_exponent (shr_record_of_loc r loc_Exact) e'
                  (fexp prec emax (Zdigits2 r + e') - e')) as X.
    rewrite E2 in N, X. simpl in N, X.
    split; [|exact X]. apply N. apply round_nearest_even_nonneg; exact N1. }
  destruct H2 as [N2 X2].
  destruct (shr_m mrs'') as [|p|p]; [reflexivity| |lia].
  destruct (e'' <=? emax - prec); [split; [reflexivity|lia]|reflexivity].
Qed.

Lemma digits2_pos_iter (p k : positive) :
  Z.pos (digits2_pos (PosDef.Pos.iter xO p k)) = Z.pos (digits2_pos p) + Z.pos k.
Proof.
  change (PosDef.Pos.iter xO p k) with (Pos.iter xO p k).
  induction k as [|k IH] using Pos.peano_ind.
  - simpl. lia.
  - rewrite Pos.iter_succ. simpl digits2_pos. lia.
Qed.

Lemma pos_iter_xO (p k : positive) :
  Z.pos (PosDef.Pos.iter xO p k) = Z.pos p * 2 ^ Z.pos k.
Proof.
  change (PosDef.Pos.iter xO p k) with (Pos.iter xO p k).
  induction k as [|k IH] using Pos.peano_ind.
  - simpl Pos.iter. lia.
  - rewrite Pos.iter_succ, Pos2Z.inj_succ, Z.pow_succ_r by lia.
    rewrite Pos2Z.inj_xO, IH. ring.
Qed.


Lemma binary_round_integral (s : bool) (p : positive) :
  integral (binary_round prec emax s p 0) = true.
Proof.
  unfold binary_round, shl_align.
  set (ex := fexp prec emax (Z.pos (digits2_pos p) + 0)).
  destruct (ex - 0) as [|d|d] eqn:D.
  - pose proof (binary_round_aux_shape s (Z.pos p) 0 loc_Exact (Pos2Z.is_nonneg p)) as H.
    destruct (binary_round_aux prec emax s (Z.pos p) 0 loc_Exact); simpl; auto.
    destruct H as [_ H]. apply Z.leb_le in H. rewrite H. reflexivity.
  - pose proof (binary_round_aux_shape s (Z.pos p) 0 loc_Exact (Pos2Z.is_nonneg p)) as H.
    destruct (binary_round_aux prec emax s (Z.pos p) 0 loc_Exact); simpl; auto.
    destruct H as [_ H]. apply Z.leb_le in H. rewrite H. reflexivity.
  - assert (Hex : ex = Z.neg d) by lia.
    rewrite Hex.
    unfold binary_round_aux, shr_fexp.
    assert (S0 : fexp prec emax (Zdigits2 (Z.pos (PosDef.Pos.iter xO p d)) + Z.neg d)
                 - Z.neg d = 0).
    { simpl Zdigits2. rewrite digits2_pos_iter.
      replace (Z.pos (digits2_pos p) + Z.pos d + Z.neg d)
        with (Z.pos (digits2_pos p) + 0) by lia.
      fold ex. lia. }
    rewrite S0. simpl shr. cbv beta iota.
    simpl shr_m. simpl loc_of_shr_record. simpl round_nearest_even.
    rewrite S0. simpl shr. cbv beta iota. simpl shr_m.
    destruct (Z.neg d <=? emax - prec); [|reflexivity].
    unfold integral. change (- Z.neg d) with (Z.pos d).
    rewrite pos_iter_xO, Z.mod_mul by (apply Z.pow_nonzero; lia).
    apply orb_true_r.
Qed.

Lemma of_Z_integral (n : Z) : integral (of_Z n) = true.
Proof.
  destruct n as [|p|p]; simpl; auto using binary_round_integral.
Qed.

Lemma Math_round_integral (x : number) : integral (Math_round x) = true.
Proof.
  destruct x as [s|s| |s m e]; try reflexivity.
  unfold Math_round.
  destruct (0 <=? e) eqn:E.
  { unfold integral. rewrite E. reflexivity. }
  destruct (Z.pos m mod 2 ^ (- e) =? 0) eqn:I.
  { unfold integral. rewrite E, I. reflexivity. }
  cbv zeta.
  match goal with |- context [if ?c then S754_zero _ else _] => destruct c end;
    [reflexivity|apply of_Z_integral].
Qed.


Lemma binary_round_not_nan (s : bool) (p : positive) (e : Z) :
  binary_round prec emax s p e <> NaN.
Proof.
  unfold binary_round.
  destruct (shl_align p e (fexp prec emax (Z.pos (digits2_pos p) + e))) as [mz ez].
  pose proof (binary_round_aux_shape s (Z.pos mz) ez loc_Exact (Pos2Z.is_nonneg mz)) as H.
  intros E. rewrite E in H. exact H.
Qed.

Lemma binary_normalize_not_nan (m e : Z) (sz : bool) :
  binary_normalize prec emax m e sz <> NaN.
Proof.
  destruct m; simpl; [discriminate| |]; apply binary_round_not_nan.
Qed.

(** [Math.round] yields [NaN] only for [NaN]. *)
Lemma Math_round_isNaN (x : number) : isNaN (Math_round x) = isNaN x.
Proof.
  destruct x as [s|s| |s m e]; try reflexivity.
  unfold Math_round.
  destruct (0 <=? e); [reflexivity|].
  destruct (Z.pos m mod 2 ^ (- e) =? 0); [reflexivity|].
  cbv zeta.
  match goal with |- context [if ?c then S754_zero _ else _] => destruct c end;
    [reflexivity|].
  apply JsFacts.isNaN_false. apply binary_normalize_not_nan.
Qed.

End RoundFacts.

(** ** Numbers that are not negative

    Zero of either sign, the positive finite numbers and [+Infinity].  The
    arithmetic of the risk score keeps its operands in this class, which is
    why no [NaN] can arise from them. *)

Module NonNeg.
Import Js.

Lemma nonneg_not_nan (x : number) : nonneg x = true -> x <> NaN.
Proof. unfold NaN; destruct x; simpl; congruence. Qed.

Lemma binary_round_aux_nonneg (m e : Z) (l : location) :
  0 <= m -> nonneg (binary_round_aux prec emax false m e l) = true.
Proof.
  intros H. pose proof (RoundFacts.binary_round_aux_shape false m e l H) as S.
  destruct (binary_round_aux prec emax false m e l) as [s|s| |s mm ee]; simpl;
    [reflexivity|subst; reflexivity|contradiction|destruct S as [-> _]; reflexivity].
Qed.

Lemma binary_round_nonneg (p : positive) (e : Z) :
  nonneg (binary_round prec emax false p e) = true.
Proof.
  unfold binary_round.
  destruct (shl_align p e (fexp prec emax (Z.pos (digits2_pos p) + e))) as [mz ez].
  apply binary_round_aux_nonneg. apply Pos2Z.is_nonneg.
Qed.

Lemma of_Z_nonneg (n : Z) : 0 <= n -> nonneg (of_Z n) = true.
Proof.
  destruct n as [|p|p]; intros H;
    [reflexivity|apply binary_round_nonneg|lia].
Qed.

Lemma add_nonneg (x y : number) :
  nonneg x = true -> nonneg y = true -> nonneg (add x y) = true.
Proof.
  destruct x as [sx|[|]| |[|] mx ex], y as [sy|[|]| |[|] my ey];
    simpl; try discriminate; auto.
  - destruct sx, sy; reflexivity.
  - intros _ _. unfold add, SFadd. simpl cond_Zopp.
    apply binary_round_nonneg.
Qed.

Lemma mul_nonneg (x : number) (c : positive) (e : Z) :
  nonneg x = true -> nonneg (mul x (S754_finite false c e)) = true.
Proof.
  destruct x as [sx|[|]| |[|] mx ex]; simpl; try discriminate; auto.
  intros _. unfold mul, SFmul. simpl xorb.
  apply binary_round_aux_nonneg. apply Pos2Z.is_nonneg.
Qed.

Lemma div_core_nonneg (m1 : positive) (e1 : Z) (m2 : positive) (e2 : Z) :
  0 <= fst (fst (SFdiv_core_binary prec emax (Z.pos m1) e1 (Z.pos m2) e2)).
Proof.
  unfold SFdiv_core_binary.
  set (s := e1 - e2 - _).
  set (m' := match s with Z.pos _ => Z.shiftl (Z.pos m1) s | 0 => Z.pos m1 | Z.neg _ => 0 end).
  assert (Hm : 0 <= m').
  { subst m'. destruct s; try lia. apply Z.shiftl_nonneg. lia. }
  pose proof (Z.div_pos m' (Z.pos m2) Hm (Pos2Z.is_pos m2)) as Q.
  unfold Z.div in Q.
  destruct (Z.div_eucl m' (Z.pos m2)) as [q r]. exact Q.
Qed.

Lemma div_nonneg (x : number) (c : positive) (e : Z) :
  nonneg x = true -> nonneg (div x (S754_finite false c e)) = true.
Proof.
  destruct x as [sx|[|]| |[|] mx ex]; simpl; try discriminate; auto.
  intros _. unfold div, SFdiv. simpl xorb.
  pose proof (div_core_nonneg mx ex c e) as Q.
  destruct (SFdiv_core_binary prec emax (Z.pos mx) ex (Z.pos c) e) as [[mz ez] lz].
  apply binary_round_aux_nonneg. exact Q.
Qed.

Lemma Math_round_nonneg (x : number) :
  nonneg x = true -> nonneg (Math_round x) = true.
Proof.
  intros H.
  destruct x as [sx|[|]| |[|] mx ex]; try discriminate H; try reflexivity.
  clear H. unfold Math_round.
  destruct (0 <=? ex) eqn:E; [reflexivity|].
  destruct (Z.pos mx mod 2 ^ (- ex) =? 0); [reflexivity|].
  cbv zeta. unfold cond_Zopp.
  set (n := (2 * Z.pos mx + 2 ^ (- ex)) / 2 ^ (- ex + 1)).
  assert (Hn : 0 <= n).
  { subst n. apply Z.leb_gt in E. apply Z.div_pos.
    - assert (0 <= 2 ^ (- ex)) by (apply Z.pow_nonneg; lia). lia.
    - apply Z.pow_pos_nonneg; lia. }
  destruct (n =? 0); [reflexivity|]. apply of_Z_nonneg; exact Hn.
Qed.

Lemma toFixed_parsed_nonneg (d : nat) (x : number) :
  nonneg x = true -> nonneg (toFixed_parsed d x) = true.
Proof.
  intros H.
  destruct x as [sx|[|]| |[|] mx ex]; try discriminate H; try reflexivity.
  clear H. unfold toFixed_parsed.
  destruct (magnitude_geb mx ex (10 ^ 21)); [reflexivity|].
  destruct (scaled_nearest mx ex d); try reflexivity.
  apply div_nonneg. reflexivity.
Qed.

(** [Math.max(0, y)] of a number is not negative. *)
Lemma Math_max_zero_nonneg (y : number) :
  y <> NaN -> nonneg (Math_max (of_Z 0) y) = true.
Proof.
  intros Hy.
  destruct y as [sy|[|]| |[|] my ey]; try reflexivity.
  contradiction.
Qed.

Lemma sub_not_nan (c : positive) (e : Z) (y : number) :
  y <> NaN -> sub (S754_finite false c e) y <> NaN /\
              sub y (S754_finite false c e) <> NaN.
Proof.
  intros Hy. destruct y as [sy|sy| |sy my ey]; try contradiction;
    unfold sub, SFsub; try (split; discriminate).
  split; apply RoundFacts.binary_normalize_not_nan.
Qed.

End NonNeg.

(** ** Numbers: what rounding does to a mantissa *)

Module ShiftFacts.
Import Js.

Lemma fexp_eq (e : Z) : fexp prec emax e = Z.max (e - 53) (-1074).
Proof. reflexivity. Qed.

Lemma shr_1_m (mrs : shr_record) :
  0 <= shr_m mrs -> shr_m (shr_1 mrs) = shr_m mrs / 2.
Proof.
  destruct mrs as [m r s]; cbn [shr_m]. intros H.
  destruct m as [|[p|p|]|p]; cbn [shr_1 shr_m]; try lia; try reflexivity.
  - rewrite Pos2Z.inj_xI. apply Z.div_unique with (r := 1); lia.
  - rewrite Pos2Z.inj_xO. apply Z.div_unique with (r := 0); lia.
Qed.

Lemma iter_shr_1_nonneg (p : positive) (mrs : shr_record) :
  0 <= shr_m mrs -> 0 <= shr_m (iter_pos shr_1 p mrs).
Proof.
  intros H.
  apply (RoundFacts.iter_pos_invariant shr_1 (fun x => 0 <= shr_m x));
    [apply RoundFacts.shr_1_nonneg|exact H].
Qed.

Lemma iter_shr_1_m (p : positive) (mrs : shr_record) :
  0 <= shr_m mrs ->
  shr_m (iter_pos shr_1 p mrs) = shr_m mrs / 2 ^ Z.pos p.
Proof.
  revert mrs. induction p as [p IH|p IH|]; intros mrs H; cbn [iter_pos].
  - rewrite IH by (apply iter_shr_1_nonneg, RoundFacts.shr_1_nonneg, H).
    rewrite IH by (apply RoundFacts.shr_1_nonneg, H).
    rewrite shr_1_m by exact H.
    assert (P : 0 < 2 ^ Z.pos p) by (apply Z.pow_pos_nonneg; lia).
    rewrite !Z.div_div by lia.
    f_equal.
    replace (Z.pos p~1) with (1 + Z.pos p + Z.pos p) by lia.
    rewrite (Z.pow_add_r 2 (1 + Z.pos p) (Z.pos p)) by lia.
    rewrite (Z.pow_add_r 2 1 (Z.pos p)) by lia.
    change (2 ^ 1) with 2. ring.
  - rewrite IH by (apply iter_shr_1_nonneg, H).
    rewrite IH by exact H.
    assert (P : 0 < 2 ^ Z.pos p) by (apply Z.pow_pos_nonneg; lia).
    rewrite !Z.div_div by lia.
    f_equal.
    replace (Z.pos p~0) with (Z.pos p + Z.pos p) by lia.
    rewrite (Z.pow_add_r 2 (Z.pos p) (Z.pos p)) by lia. ring.
  - rewrite shr_1_m by exact H. reflexivity.
Qed.

(** Shifting right by [n] places divides the mantissa by [2^n]. *)
Lemma shr_spec (mrs : shr_record) (e n : Z) :
  0 <= shr_m mrs ->
  shr_m (fst (shr mrs e n)) = shr_m mrs / 2 ^ Z.max 0 n
  /\ snd (shr mrs e n) = e + Z.max 0 n.
Proof.
  intros H. destruct n as [|p|p]; cbn [shr fst snd].
  - rewrite Z.max_id. cbn. rewrite Z.div_1_r. split; [reflexivity|lia].
  - rewrite Z.max_r by lia. split; [apply iter_shr_1_m; exact H|reflexivity].
  - rewrite Z.max_l by lia. cbn. rewrite Z.div_1_r. split; [reflexivity|lia].
Qed.

(** The number of binary digits of a positive integer. *)
Lemma Zdigits2_bounds (m : Z) :
  0 < m -> 2 ^ (Zdigits2 m - 1) <= m < 2 ^ Zdigits2 m.
Proof.
  destruct m as [|p|p]; try lia. intros _. cbn [Zdigits2].
  induction p as [p IH|p IH|]; cbn [digits2_pos].
  - change (PosDef.Pos.succ) with Pos.succ. rewrite Pos2Z.inj_succ.
    replace (Z.succ (Z.pos (digits2_pos p)) - 1)
      with (Z.succ (Z.pos (digits2_pos p) - 1)) by lia.
    rewrite !Z.pow_succ_r by lia. rewrite Pos2Z.inj_xI.
    revert IH. generalize (2 ^ (Z.pos (digits2_pos p) - 1)).
    generalize (2 ^ Z.pos (digits2_pos p)). intros; lia.
  - change (PosDef.Pos.succ) with Pos.succ. rewrite Pos2Z.inj_succ.
    replace (Z.succ (Z.pos (digits2_pos p)) - 1)
      with (Z.succ (Z.pos (digits2_pos p) - 1)) by lia.
    rewrite !Z.pow_succ_r by lia.
    replace (Z.pos p~0) with (2 * Z.pos p) by reflexivity.
    revert IH. generalize (2 ^ (Z.pos (digits2_pos p) - 1)).
    generalize (2 ^ Z.pos (digits2_pos p)). intros; lia.
  - cbn. lia.
Qed.

Lemma Zdigits2_nonneg (m : Z) : 0 <= Zdigits2 m.
Proof. destruct m; cbn; lia. Qed.

(** An integer in [[2^(d-1), 2^d)] has [d] digits. *)
Lemma Zdigits2_unique (m d : Z) :
  2 ^ (d - 1) <= m < 2 ^ d -> 0 < m -> Zdigits2 m = d.
Proof.
  intros [L U] P.
  destruct (Zdigits2_bounds m P) as [L' U'].
  pose proof (Zdigits2_nonneg m) as N.
  assert (D : 0 <= d).
  { destruct (Z_lt_le_dec d 0) as [Neg|]; [|assumption].
    rewrite Z.pow_neg_r in U by assumption. lia. }
  destruct (Z.lt_trichotomy (Zdigits2 m) d) as [Lt|[Eq|Gt]]; [|exact Eq|].
  - assert (2 ^ Zdigits2 m <= 2 ^ (d - 1)) by (apply Z.pow_le_mono_r; lia). lia.
  - assert (2 ^ d <= 2 ^ (Zdigits2 m - 1)) by (apply Z.pow_le_mono_r; lia). lia.
Qed.

End ShiftFacts.

Module RoundingFacts.
Import Js.

Lemma pow2_pos (k : Z) : 0 <= k -> 0 < 2 ^ k.
Proof. intros H. apply Z.pow_pos_nonneg; lia. Qed.

Lemma pow2_ge_1 (k : Z) : 0 <= k -> 1 <= 2 ^ k.
Proof. intros H. pose proof (pow2_pos k H). lia. Qed.

Lemma pow2_split (a b : Z) : 0 <= a -> 0 <= b -> 2 ^ (a + b) = 2 ^ a * 2 ^ b.
Proof. intros. apply Z.pow_add_r; assumption. Qed.

(** The quotient of a division by a power of two, bracketed. *)
Lemma div_pow2_bracket (m k : Z) :
  0 <= k -> m / 2 ^ k * 2 ^ k <= m /\ m + 1 <= (m / 2 ^ k + 1) * 2 ^ k.
Proof.
  intros K. pose proof (pow2_pos k K) as P.
  pose proof (Z.div_mod m (2 ^ k) ltac:(lia)) as D.
  pose proof (Z.mod_pos_bound m (2 ^ k) P) as B.
  split; nia.
Qed.

(** Dividing a number of [d] digits by [2^k] leaves [d - k] digits. *)
Lemma div_pow2_digits (m d k : Z) :
  0 <= k -> k < d -> 2 ^ (d - 1) <= m < 2 ^ d ->
  2 ^ (d - 1 - k) <= m / 2 ^ k < 2 ^ (d - k).
Proof.
  intros K D [L U]. pose proof (pow2_pos k K) as P.
  split.
  - apply Z.div_le_lower_bound; [exact P|].
    rewrite <- pow2_split by lia. replace (k + (d - 1 - k)) with (d - 1) by lia.
    exact L.
  - apply Z.div_lt_upper_bound; [exact P|].
    rewrite <- pow2_split by lia. replace (k + (d - k)) with d by lia.
    exact U.
Qed.

Lemma div_pow2_small (m d k : Z) :
  0 <= m < 2 ^ d -> 0 <= d -> 0 <= k -> m / 2 ^ k < 2 ^ Z.max 0 (d - k).
Proof.
  intros [L U] D K. pose proof (pow2_pos k K) as P.
  apply Z.div_lt_upper_bound; [exact P|].
  destruct (Z_le_gt_dec k d) as [Le|Gt].
  - rewrite Z.max_r by lia. rewrite <- pow2_split by lia.
    replace (k + (d - k)) with d by lia. exact U.
  - rewrite Z.max_l by lia. rewrite Z.pow_0_r, Z.mul_1_r.
    assert (2 ^ d <= 2 ^ k) by (apply Z.pow_le_mono_r; lia). lia.
Qed.

Lemma digits_upper (m : Z) : 0 <= m -> m < 2 ^ Zdigits2 m.
Proof.
  intros H. destruct (Z.eq_dec m 0) as [->|N]; [cbn; lia|].
  apply ShiftFacts.Zdigits2_bounds. lia.
Qed.

(** A non-negative integer below [2^n] has at most [n] digits. *)
Lemma digits_le (m n : Z) : 0 <= m -> 0 <= n -> m < 2 ^ n -> Zdigits2 m <= n.
Proof.
  intros M N H. destruct (Z.eq_dec m 0) as [->|Nz]; [cbn; lia|].
  destruct (ShiftFacts.Zdigits2_bounds m ltac:(lia)) as [L _].
  destruct (Z_le_gt_dec (Zdigits2 m) n) as [Le|Gt]; [exact Le|].
  assert (2 ^ n <= 2 ^ (Zdigits2 m - 1)) by (apply Z.pow_le_mono_r; lia). lia.
Qed.

Lemma loc_of_shr_record_of_loc (m : Z) (l : location) :
  loc_of_shr_record (shr_record_of_loc m l) = l.
Proof. destruct l as [|[ | | ]]; reflexivity. Qed.

Lemma round_nearest_even_range (m : Z) (l : location) :
  m <= round_nearest_even m l <= m + 1.
Proof.
  destruct l as [|[ | | ]]; cbn [round_nearest_even]; try lia.
  destruct (Z.even m); lia.
Qed.

(** What [shr_fexp] returns: the mantissa divided by [2^k] at the exponent
    raised by [k], where [k] is the distance to the exponent that the number
    of digits asks for, if that lies above. *)
Lemma shr_fexp_spec (m e : Z) (l : location) :
  0 <= m ->
  let k := Z.max 0 (fexp prec emax (Zdigits2 m + e) - e) in
  shr_m (fst (shr_fexp prec emax m e l)) = m / 2 ^ k
  /\ snd (shr_fexp prec emax m e l) = e + k
  /\ (k = 0 -> loc_of_shr_record (fst (shr_fexp prec emax m e l)) = l).
Proof.
  intros M k. unfold shr_fexp.
  destruct (ShiftFacts.shr_spec (shr_record_of_loc m l) e
              (fexp prec emax (Zdigits2 m + e) - e)) as [S1 S2].
  { rewrite RoundFacts.shr_record_of_loc_m. exact M. }
  rewrite RoundFacts.shr_record_of_loc_m in S1.
  split; [exact S1|]. split; [exact S2|].
  intros K. subst k.
  destruct (fexp prec emax (Zdigits2 m + e) - e) as [|p|p]; cbn [shr fst];
    try apply loc_of_shr_record_of_loc.
  lia.
Qed.

(** The mantissa and exponent that [binary_round_aux] arrives at: a
    faithful rounding of [m * 2^e], normalised to 53 digits unless the
    exponent is the least one or nothing had to be done. *)
Lemma binary_round_aux_pair (s : bool) (m e : Z) (l : location) :
  0 <= m ->
  l = loc_Exact \/ e <= fexp prec emax (Zdigits2 m + e) ->
  exists m3 e3,
    binary_round_aux prec emax s m e l
    = match m3 with
      | Z0 => S754_zero s
      | Zpos p => if e3 <=? 971 then S754_finite s p e3 else S754_infinity s
      | Zneg _ => S754_nan
      end
    /\ 0 <= m3 /\ e <= e3
    /\ (m3 - 1) * 2 ^ (e3 - e) <= m
    /\ m + 1 <= (m3 + 1) * 2 ^ (e3 - e)
    /\ (2 ^ 52 <= m3 \/ e3 = -1074 \/ (l = loc_Exact /\ e3 = e /\ m3 = m)).
Proof.
  intros M Pre. unfold binary_round_aux.
  destruct (shr_fexp_spec m e l M) as (S1 & E1 & L1).
  destruct (shr_fexp prec emax m e l) as [mrs1 e1]. cbn [fst snd] in S1, E1, L1.
  set (k1 := Z.max 0 (fexp prec emax (Zdigits2 m + e) - e)) in *.
  set (m2 := round_nearest_even (shr_m mrs1) (loc_of_shr_record mrs1)).
  assert (K1 : 0 <= k1) by (subst k1; lia).
  assert (M1 : 0 <= shr_m mrs1).
  { rewrite S1. apply Z.div_pos; [exact M|apply pow2_pos; exact K1]. }
  pose proof (round_nearest_even_range (shr_m mrs1) (loc_of_shr_record mrs1)) as R2.
  fold m2 in R2.
  assert (M2 : 0 <= m2) by lia.
  destruct (shr_fexp_spec m2 e1 loc_Exact M2) as (S3 & E3 & _).
  destruct (shr_fexp prec emax m2 e1 loc_Exact) as [mrs3 e3]. cbn [fst snd] in S3, E3.
  set (k2 := Z.max 0 (fexp prec emax (Zdigits2 m2 + e1) - e1)) in *.
  assert (K2 : 0 <= k2) by (subst k2; lia).
  exists (shr_m mrs3), e3.
  assert (M3 : 0 <= shr_m mrs3).
  { rewrite S3. apply Z.div_pos; [exact M2|apply pow2_pos; exact K2]. }
  split; [destruct (shr_m mrs3); reflexivity|].
  split; [exact M3|]. split; [lia|].
  destruct (div_pow2_bracket m k1 K1) as [B1 B1'].
  destruct (div_pow2_bracket m2 k2 K2) as [B2 B2'].
  rewrite <- S1 in B1, B1'. rewrite <- S3 in B2, B2'.
  replace (e3 - e) with (k2 + k1) by lia.
  rewrite pow2_split by assumption.
  pose proof (pow2_ge_1 k1 K1) as P1. pose proof (pow2_ge_1 k2 K2) as P2.
  split; [nia|]. split; [nia|].
  (* normalisation *)
  pose proof (digits_upper m M) as DU.
  pose proof (ShiftFacts.Zdigits2_nonneg m) as DN.
  rewrite ShiftFacts.fexp_eq in *.
  set (d := Zdigits2 m) in *.
  destruct (Z_lt_le_dec 0 (Z.max (d + e - 53) (-1074) - e)) as [Shift|NoShift].
  - (* the first shift takes place *)
    destruct (Z_le_gt_dec (-1074) (d + e - 53)) as [Normal|Sub].
    + (* to 53 digits *)
      left.
      assert (K1e : k1 = d - 53) by (subst k1 d; rewrite ?ShiftFacts.fexp_eq; lia).
      assert (Mp : 0 < m).
      { destruct (Z.eq_dec m 0) as [Z0|]; [|lia]. subst d. rewrite Z0 in *.
        cbn in K1e. lia. }
      destruct (div_pow2_digits m d k1 K1 ltac:(lia)
                  (ShiftFacts.Zdigits2_bounds m Mp)) as [L53 U53].
      rewrite <- S1 in L53, U53.
      replace (d - 1 - k1) with 52 in L53 by lia.
      replace (d - k1) with 53 in U53 by lia.
      destruct (Z.eq_dec m2 (2 ^ 53)) as [Carry|NoCarry].
      * assert (D2 : Zdigits2 m2 = 54).
        { apply ShiftFacts.Zdigits2_unique; rewrite Carry; cbn; lia. }
        assert (K2e : k2 = 1) by (subst k2; rewrite ?ShiftFacts.fexp_eq, D2; lia).
        rewrite S3, K2e, Carry. cbn. lia.
      * assert (D2 : Zdigits2 m2 = 53).
        { apply ShiftFacts.Zdigits2_unique; [|lia].
          change (2 ^ (53 - 1)) with (2 ^ 52). lia. }
        assert (K2e : k2 = 0) by (subst k2; rewrite ?ShiftFacts.fexp_eq, D2; lia).
        rewrite S3, K2e. cbn. rewrite Z.div_1_r. lia.
    + (* to the least exponent *)
      right. left.
      assert (K1e : k1 = -1074 - e) by (subst k1 d; rewrite ?ShiftFacts.fexp_eq; lia).
      pose proof (div_pow2_small m d k1 (conj M DU) DN K1) as Small.
      rewrite <- S1 in Small.
      assert (S52 : shr_m mrs1 < 2 ^ 52).
      { eapply Z.lt_le_trans; [exact Small|].
        apply Z.pow_le_mono_r; lia. }
      assert (D2 : Zdigits2 m2 <= 53).
      { apply digits_le; [exact M2|lia|].
        change (2 ^ 53) with (2 * 2 ^ 52). lia. }
      assert (K2e : k2 = 0) by (subst k2; rewrite ?ShiftFacts.fexp_eq; lia).
      lia.
  - (* no first shift *)
    assert (K1e : k1 = 0) by (subst k1 d; rewrite ?ShiftFacts.fexp_eq; lia).
    assert (S1' : shr_m mrs1 = m) by (rewrite S1, K1e; cbn; apply Z.div_1_r).
    destruct Pre as [Exact|Pre].
    + right. right.
      assert (E2 : m2 = m).
      { subst m2. rewrite (L1 K1e), Exact, S1'. reflexivity. }
      assert (K2e : k2 = 0).
      { subst k2. rewrite ?ShiftFacts.fexp_eq, E2. replace e1 with e by lia. fold d. lia. }
      split; [exact Exact|]. split; [lia|].
      rewrite S3, K2e, E2. cbn. apply Z.div_1_r.
    + assert (F : Z.max (d + e - 53) (-1074) = e) by lia.
      assert (E1' : e1 = e) by lia.
      destruct (Z.eq_dec d 53) as [D53|Dn].
      * left.
        assert (Mp : 0 < m).
        { destruct (Z.eq_dec m 0) as [Z0|]; [|lia]. subst d. rewrite Z0 in D53.
          discriminate D53. }
        destruct (ShiftFacts.Zdigits2_bounds m Mp) as [L53 U53]. fold d in L53, U53.
        rewrite D53 in L53, U53. change (2 ^ (53 - 1)) with (2 ^ 52) in L53.
        destruct (Z.eq_dec m2 (2 ^ 53)) as [Carry|NoCarry].
        -- assert (D2 : Zdigits2 m2 = 54).
           { apply ShiftFacts.Zdigits2_unique; rewrite Carry; cbn; lia. }
           assert (K2e : k2 = 1) by (subst k2; rewrite ?ShiftFacts.fexp_eq, D2; lia).
           rewrite S3, K2e, Carry. cbn. lia.
        -- assert (D2 : Zdigits2 m2 = 53).
           { apply ShiftFacts.Zdigits2_unique; [|lia].
             change (2 ^ (53 - 1)) with (2 ^ 52). lia. }
           assert (K2e : k2 = 0) by (subst k2; rewrite ?ShiftFacts.fexp_eq, D2; lia).
           rewrite S3, K2e. cbn. rewrite Z.div_1_r. lia.
      * right. left.
        assert (Ee : e = -1074) by lia.
        assert (S52 : m < 2 ^ 52).
        { eapply Z.lt_le_trans; [exact DU|]. apply Z.pow_le_mono_r; lia. }
        assert (D2 : Zdigits2 m2 <= 53).
        { apply digits_le; [exact M2|lia|].
          change (2 ^ 53) with (2 * 2 ^ 52). lia. }
        assert (K2e : k2 = 0) by (subst k2; rewrite ?ShiftFacts.fexp_eq; lia).
        lia.
Qed.

End RoundingFacts.

(** ** Numbers: the value of a rounded result *)

Module ValueFacts.
Import Js.
Local Open Scope Q_scope.

Lemma Q2_pos (e : Z) : 0 < 2 ^ e.
Proof. apply Qpower_0_lt. reflexivity. Qed.

Lemma Q2_plus (a b : Z) : 2 ^ (a + b) == 2 ^ a * 2 ^ b.
Proof. apply Qpower_plus. discriminate. Qed.

Lemma Q2_Z (k : Z) : (0 <= k)%Z -> inject_Z (2 ^ k) == 2 ^ k.
Proof. intros H. apply (Zpower_Qpower 2 k H). Qed.

Lemma EPSILON_eq : Accuracy.EPSILON * 2 ^ 52 == 1.
Proof. reflexivity. Qed.

Lemma EPSILON_pos : 0 < Accuracy.EPSILON.
Proof. reflexivity. Qed.

Lemma MIN_VALUE_pos : 0 < Accuracy.MIN_VALUE.
Proof. apply Q2_pos. Qed.

Lemma inject_Z_le (x y : Z) : (x <= y)%Z -> inject_Z x <= inject_Z y.
Proof. intros H. rewrite <- Zle_Qle. exact H. Qed.

Lemma inject_Z_sub (x y : Z) : inject_Z (x - y) == inject_Z x - inject_Z y.
Proof.
  unfold Z.sub. rewrite inject_Z_plus, inject_Z_opp. reflexivity.
Qed.

(** The sign of a number as a factor. *)
Lemma value_finite (s : bool) (m : positive) (e : Z) :
  Exact.value (S754_finite s m e)
  == (if s then -1 else 1) * (inject_Z (Z.pos m) * 2 ^ e).
Proof. unfold Exact.value. ring. Qed.

Lemma value_zero (s : bool) : Exact.value (S754_zero s) = 0.
Proof. reflexivity. Qed.

(** The value of what [binary_round_aux] returns, when that is finite:
    its magnitude [R] lies within [U] of [m * 2^e], where [U] is at most
    one unit of the last place of [R]; and when the location says that the
    exact number lies above [m * 2^e], then [R + U] is an upper bound of
    [(m + 1) * 2^e]. *)
Lemma binary_round_aux_value (s : bool) (m e : Z) (l : location) :
  (0 <= m)%Z ->
  l = loc_Exact \/ (e <= fexp prec emax (Zdigits2 m + e))%Z ->
  isFinite (binary_round_aux prec emax s m e l) = true ->
  exists R U,
    Exact.value (binary_round_aux prec emax s m e l)
    == (if s then -1 else 1) * R
    /\ 0 <= R /\ 0 <= U
    /\ U <= Accuracy.EPSILON * R + Accuracy.MIN_VALUE
    /\ R - U <= inject_Z m * 2 ^ e
    /\ inject_Z m * 2 ^ e <= R + U
    /\ (l <> loc_Exact -> inject_Z (m + 1) * 2 ^ e <= R + U).
Proof.
  intros M Pre Fin.
  destruct (RoundingFacts.binary_round_aux_pair s m e l M Pre)
    as (m3 & e3 & E & M3 & E3 & Lo & Hi & Norm).
  rewrite E in *. clear E.
  pose proof (Q2_pos e) as Pe. pose proof (Q2_pos e3) as Pe3.
  assert (V : Exact.value
                match m3 with
                | 0%Z => S754_zero s
                | Z.pos p => if (e3 <=? 971)%Z then S754_finite s p e3
                             else S754_infinity s
                | Z.neg _ => S754_nan
                end
              == (if s then -1 else 1) * (inject_Z m3 * 2 ^ e3)).
  { destruct m3 as [|p|p]; [cbn; ring| |discriminate Fin].
    destruct (e3 <=? 971)%Z; [apply value_finite|discriminate Fin]. }
  assert (K : (0 <= e3 - e)%Z) by lia.
  assert (P : 2 ^ e3 == inject_Z (2 ^ (e3 - e)) * 2 ^ e).
  { rewrite (Q2_Z _ K), <- Q2_plus. replace (e3 - e + e)%Z with e3 by lia.
    reflexivity. }
  assert (LoQ : (inject_Z m3 - 1) * 2 ^ e3 <= inject_Z m * 2 ^ e).
  { rewrite P. rewrite Qmult_assoc.
    apply Qmult_le_compat_r; [|apply Qlt_le_weak; exact Pe].
    setoid_replace ((inject_Z m3 - 1) * inject_Z (2 ^ (e3 - e)))
      with (inject_Z ((m3 - 1) * 2 ^ (e3 - e)))
      by (rewrite inject_Z_mult, inject_Z_sub; reflexivity).
    apply inject_Z_le. exact Lo. }
  assert (HiQ : inject_Z (m + 1) * 2 ^ e <= (inject_Z m3 + 1) * 2 ^ e3).
  { rewrite P. rewrite Qmult_assoc.
    apply Qmult_le_compat_r; [|apply Qlt_le_weak; exact Pe].
    setoid_replace ((inject_Z m3 + 1) * inject_Z (2 ^ (e3 - e)))
      with (inject_Z ((m3 + 1) * 2 ^ (e3 - e)))
      by (rewrite inject_Z_mult, inject_Z_plus; reflexivity).
    apply inject_Z_le. exact Hi. }
  assert (M3Q : 0 <= inject_Z m3) by (apply (inject_Z_le 0 m3); exact M3).
  assert (R0 : 0 <= inject_Z m3 * 2 ^ e3).
  { apply Qmult_le_0_compat; [exact M3Q|apply Qlt_le_weak; exact Pe3]. }
  assert (Step : inject_Z m * 2 ^ e <= inject_Z (m + 1) * 2 ^ e).
  { apply Qmult_le_compat_r; [|apply Qlt_le_weak; exact Pe].
    apply inject_Z_le. lia. }
  destruct Norm as [N|[N|(Ex & Ee & Em)]].
  - (* 53 digits *)
    exists (inject_Z m3 * 2 ^ e3), (2 ^ e3).
    split; [exact V|]. split; [exact R0|].
    split; [apply Qlt_le_weak; exact Pe3|].
    split.
    { apply inject_Z_le in N. rewrite (Q2_Z 52) in N by lia.
      pose proof EPSILON_eq as Eq. pose proof MIN_VALUE_pos as Mp.
      pose proof EPSILON_pos as Ep.
      assert (2 ^ e3 <= Accuracy.EPSILON * (inject_Z m3 * 2 ^ e3)).
      { rewrite Qmult_assoc.
        rewrite <- (Qmult_1_l (2 ^ e3)) at 1.
        apply Qmult_le_compat_r; [|apply Qlt_le_weak; exact Pe3].
        rewrite <- Eq. apply Qmult_le_l; [exact Ep|exact N]. }
      lra. }
    split; [lra|]. split; [lra|]. intros _. lra.
  - (* the least exponent *)
    exists (inject_Z m3 * 2 ^ e3), (2 ^ e3).
    split; [exact V|]. split; [exact R0|].
    split; [apply Qlt_le_weak; exact Pe3|].
    split.
    { pose proof EPSILON_pos as Ep.
      assert (0 <= Accuracy.EPSILON * (inject_Z m3 * 2 ^ e3)).
      { apply Qmult_le_0_compat; [apply Qlt_le_weak; exact Ep|exact R0]. }
      unfold Accuracy.MIN_VALUE. rewrite N in *. lra. }
    split; [lra|]. split; [lra|]. intros _. lra.
  - (* nothing to be done *)
    exists (inject_Z m3 * 2 ^ e3), 0.
    split; [exact V|]. split; [exact R0|]. split; [lra|].
    split.
    { pose proof EPSILON_pos as Ep. pose proof MIN_VALUE_pos as Mp.
      assert (0 <= Accuracy.EPSILON * (inject_Z m3 * 2 ^ e3)).
      { apply Qmult_le_0_compat; [apply Qlt_le_weak; exact Ep|exact R0]. }
      lra. }
    rewrite Ee, Em. split; [lra|]. split; [lra|].
    intros Ne. contradiction.
Qed.

End ValueFacts.

(** ** Numbers: every operation rounds once *)

Module OperationFacts.
Import Js.
Local Open Scope Q_scope.

(** [r] is [x] rounded once: it lies within one unit of its last place of
    [x]. *)
Local Notation "'near' x r" :=
  (Qabs (Exact.value r - x)
   <= Accuracy.EPSILON * Qabs (Exact.value r) + Accuracy.MIN_VALUE)
  (at level 10, x at level 9, r at level 9).

Lemma sign_abs (s : bool) (R : Q) : 0 <= R -> Qabs ((if s then -1 else 1) * R) == R.
Proof.
  intros H. destruct s.
  - rewrite Qabs_neg by lra. ring.
  - rewrite Qabs_pos by lra. ring.
Qed.

Lemma sign_diff (s : bool) (R X : Q) :
  Qabs ((if s then -1 else 1) * R - (if s then -1 else 1) * X) == Qabs (R - X).
Proof.
  destruct s.
  - setoid_replace (-1 * R - -1 * X) with (- (R - X)) by ring.
    apply Qabs_opp.
  - setoid_replace (1 * R - 1 * X) with (R - X) by ring. reflexivity.
Qed.

(** From the bracket of a rounding to the distance of the values. *)
Lemma near_of_bracket (r : number) (s : bool) (R U X x : Q) :
  Exact.value r == (if s then -1 else 1) * R ->
  x == (if s then -1 else 1) * X ->
  0 <= R -> U <= Accuracy.EPSILON * R + Accuracy.MIN_VALUE ->
  R - U <= X -> X <= R + U ->
  near x r.
Proof.
  intros V Ex R0 HU Lo Hi.
  rewrite V, Ex, sign_diff, sign_abs by exact R0.
  apply Qabs_Qle_condition. split; lra.
Qed.

Lemma near_zero (s : bool) : near 0 (S754_zero s).
Proof.
  cbn. pose proof ValueFacts.MIN_VALUE_pos. pose proof ValueFacts.EPSILON_pos.
  setoid_replace (Accuracy.EPSILON * 0) with 0 by ring. lra.
Qed.

Lemma near_self (r : number) (x : Q) : x == Exact.value r -> near x r.
Proof.
  intros ->. setoid_replace (Exact.value r - Exact.value r) with 0 by ring.
  pose proof ValueFacts.MIN_VALUE_pos. pose proof ValueFacts.EPSILON_pos.
  pose proof (Qabs_nonneg (Exact.value r)).
  assert (0 <= Accuracy.EPSILON * Qabs (Exact.value r)).
  { apply Qmult_le_0_compat; lra. }
  cbn [Qabs Qnum Z.abs]. lra.
Qed.

(** *** Multiplication *)

Lemma isFinite_mul (x y : number) :
  isFinite (mul x y) = true -> isFinite x = true /\ isFinite y = true.
Proof. destruct x, y; cbn; intros H; try discriminate H; auto. Qed.

Lemma mul_near (x y : number) :
  isFinite (mul x y) = true ->
  near (Exact.value x * Exact.value y) (mul x y).
Proof.
  intros Fin.
  destruct x as [sx|sx| |sx mx ex], y as [sy|sy| |sy my ey];
    try discriminate Fin;
    try (apply near_self; cbn; ring).
  unfold mul, SFmul in *.
  destruct (ValueFacts.binary_round_aux_value (xorb sx sy) (Z.pos (mx * my))
              (ex + ey) loc_Exact ltac:(lia) (or_introl eq_refl) Fin)
    as (R & U & V & R0 & U0 & HU & Lo & Hi & _).
  apply (near_of_bracket _ (xorb sx sy) R U
           (inject_Z (Z.pos (mx * my)) * 2 ^ (ex + ey))); auto.
  rewrite !ValueFacts.value_finite, ValueFacts.Q2_plus, Pos2Z.inj_mul,
    inject_Z_mult.
  destruct sx, sy; cbn [xorb]; ring.
Qed.

(** *** Addition *)

Lemma shl_align_value (m : positive) (e e' : Z) :
  inject_Z (Z.pos (fst (shl_align m e e'))) * 2 ^ snd (shl_align m e e')
  == inject_Z (Z.pos m) * 2 ^ e
  /\ (snd (shl_align m e e') <= e)%Z
  /\ (snd (shl_align m e e') <= e' \/ e <= e')%Z.
Proof.
  unfold shl_align. destruct (e' - e)%Z as [|d|d] eqn:D; cbn [fst snd].
  - split; [reflexivity|]. split; lia.
  - split; [reflexivity|]. split; lia.
  - rewrite RoundFacts.pos_iter_xO, inject_Z_mult.
    rewrite (ValueFacts.Q2_Z (Z.pos d)) by lia.
    rewrite <- Qmult_assoc, <- ValueFacts.Q2_plus.
    replace (Z.pos d + e')%Z with e by lia.
    split; [reflexivity|]. split; lia.
Qed.

Lemma shl_align_snd (m : positive) (e e' : Z) :
  snd (shl_align m e e') = Z.min e e'.
Proof.
  unfold shl_align. destruct (e' - e)%Z as [|d|d] eqn:D; cbn [snd]; lia.
Qed.

Lemma binary_round_near (s : bool) (m : positive) (e : Z) :
  isFinite (binary_round prec emax s m e) = true ->
  near ((if s then -1 else 1) * (inject_Z (Z.pos m) * 2 ^ e))
       (binary_round prec emax s m e).
Proof.
  unfold binary_round. intros Fin.
  destruct (shl_align_value m e (fexp prec emax (Z.pos (digits2_pos m) + e)))
    as (Val & _).
  destruct (shl_align m e (fexp prec emax (Z.pos (digits2_pos m) + e)))
    as [mz ez]. cbn [fst snd] in Val.
  destruct (ValueFacts.binary_round_aux_value s (Z.pos mz) ez loc_Exact
              ltac:(lia) (or_introl eq_refl) Fin)
    as (R & U & V & R0 & U0 & HU & Lo & Hi & _).
  apply (near_of_bracket _ s R U (inject_Z (Z.pos mz) * 2 ^ ez)); auto.
  rewrite Val. reflexivity.
Qed.

Lemma binary_normalize_near (z e : Z) (sz : bool) :
  isFinite (binary_normalize prec emax z e sz) = true ->
  near (inject_Z z * 2 ^ e) (binary_normalize prec emax z e sz).
Proof.
  destruct z as [|p|p]; cbn [binary_normalize]; intros Fin.
  - apply near_self. cbn. ring.
  - pose proof (binary_round_near false p e Fin) as N.
    setoid_replace (inject_Z (Z.pos p) * 2 ^ e)
      with (1 * (inject_Z (Z.pos p) * 2 ^ e)) by ring.
    exact N.
  - pose proof (binary_round_near true p e Fin) as N.
    setoid_replace (inject_Z (Z.neg p) * 2 ^ e)
      with (-1 * (inject_Z (Z.pos p) * 2 ^ e)).
    + exact N.
    + change (Z.neg p) with (- Z.pos p)%Z. rewrite inject_Z_opp. ring.
Qed.

Lemma aligned_value (s : bool) (m : positive) (e ez : Z) :
  (ez <= e)%Z ->
  inject_Z (cond_Zopp s (Z.pos (fst (shl_align m e ez)))) * 2 ^ ez
  == Exact.value (S754_finite s m e).
Proof.
  intros Le.
  destruct (shl_align_value m e ez) as (Val & _).
  rewrite shl_align_snd, Z.min_r in Val by exact Le.
  rewrite ValueFacts.value_finite, <- Val.
  destruct s; cbn [cond_Zopp]; [rewrite inject_Z_opp|]; ring.
Qed.



End OperationFacts.

(** ** Numbers: division and square root *)

Module QuotientFacts.
Import Js.

Lemma digits_ge (m n : Z) : 0 <= n -> 2 ^ n <= m -> n + 1 <= Zdigits2 m.
Proof.
  intros N H.
  assert (P : 0 < m) by (pose proof (RoundingFacts.pow2_pos n N); lia).
  pose proof (RoundingFacts.digits_upper m ltac:(lia)) as U.
  pose proof (ShiftFacts.Zdigits2_nonneg m) as D.
  destruct (Z_lt_le_dec n (Zdigits2 m)) as [Lt|Ge]; [lia|].
  assert (2 ^ Zdigits2 m <= 2 ^ n) by (apply Z.pow_le_mono_r; lia). lia.
Qed.

Lemma new_location_exact (nb k : Z) : new_location nb k = loc_Exact <-> k = 0.
Proof.
  unfold new_location, new_location_even, new_location_odd.
  destruct (Z.even nb); destruct (Z.eqb_spec k 0) as [E|N]; split; intros H;
    try reflexivity; try assumption; try discriminate H; contradiction.
Qed.

(** The quotient that [SFdiv_core_binary] hands to the rounding: the
    dividend is scaled by [2^s], the quotient has enough digits for the
    rounding to be to 53 digits, and the location is exact when the
    remainder is 0. *)
Lemma SFdiv_core_binary_spec (m1 m2 : positive) (e1 e2 : Z) :
  exists q e' l s r,
    SFdiv_core_binary prec emax (Z.pos m1) e1 (Z.pos m2) e2 = (q, e', l)
    /\ 0 <= s /\ s + e' = e1 - e2
    /\ Z.pos m1 * 2 ^ s = q * Z.pos m2 + r
    /\ 0 <= r < Z.pos m2 /\ 0 <= q
    /\ (l = loc_Exact <-> r = 0)
    /\ e' <= fexp prec emax (Zdigits2 q + e').
Proof.
  unfold SFdiv_core_binary.
  set (d1 := Zdigits2 (Z.pos m1)). set (d2 := Zdigits2 (Z.pos m2)).
  set (e' := Z.min (fexp prec emax (d1 + e1 - (d2 + e2))) (e1 - e2)).
  set (s := e1 - e2 - e').
  assert (S0 : 0 <= s) by (subst s e'; lia).
  set (m' := match s with
             | 0 => Z.pos m1
             | Z.pos _ => Z.shiftl (Z.pos m1) s
             | Z.neg _ => 0
             end).
  assert (M' : m' = Z.pos m1 * 2 ^ s).
  { subst m'. destruct s as [|p|p] eqn:Es; [cbn; lia| |lia].
    apply Z.shiftl_mul_pow2. lia. }
  pose proof (Z_div_mod m' (Z.pos m2) ltac:(lia)) as DM.
  destruct (Z.div_eucl m' (Z.pos m2)) as [q r].
  destruct DM as [DM R].
  exists q, e', (new_location (Z.pos m2) r), s, r.
  split; [reflexivity|]. split; [exact S0|]. split; [subst s; lia|].
  split; [lia|]. split; [exact R|].
  assert (Q0 : 0 <= q).
  { pose proof (RoundingFacts.pow2_pos s S0). nia. }
  split; [exact Q0|]. split; [apply new_location_exact|].
  (* digits *)
  destruct (ShiftFacts.Zdigits2_bounds (Z.pos m1) ltac:(lia)) as [L1 U1].
  destruct (ShiftFacts.Zdigits2_bounds (Z.pos m2) ltac:(lia)) as [L2 U2].
  fold d1 in L1, U1. fold d2 in L2, U2.
  assert (D1 : 1 <= d1) by (subst d1; cbn; lia).
  assert (D2 : 1 <= d2) by (subst d2; cbn; lia).
  assert (DQ : d1 + s - d2 <= Zdigits2 q).
  { pose proof (ShiftFacts.Zdigits2_nonneg q) as QN.
    destruct (Z_le_gt_dec (d1 + s - d2) 0) as [Le|Gt]; [lia|].
    replace (d1 + s - d2) with (d1 + s - d2 - 1 + 1) by lia.
    apply digits_ge; [lia|].
    (* (q + 1) * m2 > m' >= 2^(d1-1+s) = 2^(d1+s-d2-1) * 2^d2 *)
    assert (P : 2 ^ (d1 - 1) * 2 ^ s = 2 ^ (d1 + s - d2 - 1) * 2 ^ d2).
    { rewrite <- !RoundingFacts.pow2_split by lia. f_equal. lia. }
    pose proof (RoundingFacts.pow2_pos s S0) as Ps.
    pose proof (RoundingFacts.pow2_pos (d1 + s - d2 - 1) ltac:(lia)) as Pq.
    assert (2 ^ (d1 + s - d2 - 1) * 2 ^ d2 <= m').
    { rewrite <- P, M'. apply Z.mul_le_mono_nonneg_r; lia. }
    assert (m' < (q + 1) * Z.pos m2) by nia.
    assert (2 ^ (d1 + s - d2 - 1) * Z.pos m2 < (q + 1) * Z.pos m2) by nia.
    assert (2 ^ (d1 + s - d2 - 1) < q + 1).
    { apply Z.mul_lt_mono_pos_r with (p := Z.pos m2); lia. }
    lia. }
  rewrite ShiftFacts.fexp_eq.
  assert (E' : e' <= Z.max (d1 + e1 - (d2 + e2) - 53) (-1074)).
  { subst e'. rewrite ShiftFacts.fexp_eq. lia. }
  assert (d1 + e1 - (d2 + e2) <= Zdigits2 q + e') by (subst s; lia).
  lia.
Qed.


End QuotientFacts.

(** ** Numbers: the values of quotients, roots and decimal roundings *)

Module DecimalFacts.
Import Js.
Local Open Scope Q_scope.

Local Notation "'near' x r" :=
  (Qabs (Exact.value r - x)
   <= Accuracy.EPSILON * Qabs (Exact.value r) + Accuracy.MIN_VALUE)
  (at level 10, x at level 9, r at level 9).

Lemma pos_Q (p : positive) : 0 < inject_Z (Z.pos p).
Proof. reflexivity. Qed.


(** *** Division *)

Lemma div_near (x y : number) :
  isFinite (div x y) = true ->
  near (Exact.value x / Exact.value y) (div x y).
Proof.
  intros Fin. unfold div in *.
  destruct x as [sx|sx| |sx mx ex], y as [sy|sy| |sy my ey];
    cbn [SFdiv isFinite] in Fin |- *;
    try discriminate Fin;
    try (apply OperationFacts.near_self; rewrite ValueFacts.value_zero;
         cbn [Exact.value]; unfold Qdiv; cbn [Qinv Qnum]; ring).
  destruct (QuotientFacts.SFdiv_core_binary_spec mx my ex ey)
    as (q & e' & l & s & r & Core & S0 & Se & Eq & R & Q0 & Lx & Pre).
  rewrite Core in *.
  destruct (ValueFacts.binary_round_aux_value (xorb sx sy) q e' l Q0
              (or_intror Pre) Fin)
    as (R' & U & V & R0 & U0 & HU & Lo & Hi & Up).
  pose proof (pos_Q my) as Pm. pose proof (ValueFacts.Q2_pos e') as Pe.
  pose proof (ValueFacts.Q2_pos ey) as Pey.
  set (X := (inject_Z q + inject_Z r / inject_Z (Z.pos my)) * 2 ^ e').
  assert (EX : Exact.value (S754_finite sx mx ex) / Exact.value (S754_finite sy my ey)
               == (if xorb sx sy then -1 else 1) * X).
  { rewrite !ValueFacts.value_finite. subst X.
    assert (E1 : inject_Z (Z.pos mx) * 2 ^ s
                 == inject_Z q * inject_Z (Z.pos my) + inject_Z r).
    { rewrite <- (ValueFacts.Q2_Z s S0), <- !inject_Z_mult, <- inject_Z_plus.
      rewrite Eq. reflexivity. }
    assert (E2 : 2 ^ ex == 2 ^ s * 2 ^ e' * 2 ^ ey).
    { rewrite <- !ValueFacts.Q2_plus. replace (s + e' + ey)%Z with ex by lia.
      reflexivity. }
    rewrite E2.
    setoid_replace (inject_Z (Z.pos mx) * (2 ^ s * 2 ^ e' * 2 ^ ey))
      with ((inject_Z (Z.pos mx) * 2 ^ s) * (2 ^ e' * 2 ^ ey)) by ring.
    rewrite E1.
    destruct sx, sy; cbn [xorb]; field; split; lra. }
  assert (Rq : 0 <= inject_Z r / inject_Z (Z.pos my) < 1).
  { split.
    - apply Qle_shift_div_l; [exact Pm|].
      setoid_replace (0 * inject_Z (Z.pos my)) with 0 by ring.
      apply (ValueFacts.inject_Z_le 0 r). lia.
    - apply Qlt_shift_div_r; [exact Pm|].
      setoid_replace (1 * inject_Z (Z.pos my)) with (inject_Z (Z.pos my)) by ring.
      rewrite <- Zlt_Qlt. lia. }
  apply (OperationFacts.near_of_bracket _ (xorb sx sy) R' U X); auto.
  - subst X. setoid_replace (R' - U) with (R' - U + 0) by ring.
    eapply Qle_trans; [|apply Qmult_le_compat_r;
                         [|apply Qlt_le_weak; exact Pe]].
    + setoid_replace (R' - U + 0) with (R' - U) by ring. exact Lo.
    + lra.
  - destruct (Z.eq_dec r 0) as [Zr|Nr].
    + subst X. rewrite Zr.
      setoid_replace ((inject_Z q + inject_Z 0 / inject_Z (Z.pos my)) * 2 ^ e')
        with (inject_Z q * 2 ^ e'); [exact Hi|].
      unfold Qdiv. setoid_replace (inject_Z 0) with 0 by reflexivity. ring.
    + assert (Nl : l <> loc_Exact) by (intros El; apply Nr, Lx, El).
      specialize (Up Nl).
      eapply Qle_trans; [|exact Up].
      subst X. apply Qmult_le_compat_r; [|apply Qlt_le_weak; exact Pe].
      rewrite inject_Z_plus. setoid_replace (inject_Z 1) with 1 by reflexivity.
      lra.
Qed.

(** *** Square root *)



End DecimalFacts.

(** ** Numbers: [Math.round] and [toFixed] *)

Module RoundValueFacts.
Import Js.
Local Open Scope Q_scope.

Lemma MIN_VALUE_small : Accuracy.MIN_VALUE <= Accuracy.EPSILON * (1 # 4).
Proof. vm_compute. discriminate. Qed.

Lemma of_Z_near (n : Z) :
  isFinite (of_Z n) = true ->
  Qabs (Exact.value (of_Z n) - inject_Z n)
  <= Accuracy.EPSILON * Qabs (Exact.value (of_Z n)) + Accuracy.MIN_VALUE.
Proof.
  intros Fin. unfold of_Z in *.
  pose proof (OperationFacts.binary_normalize_near n 0 false Fin) as N.
  setoid_replace (inject_Z n * 2 ^ 0) with (inject_Z n) in N by (cbn; ring).
  exact N.
Qed.

(** The integer nearest to [sm / 2^k], halves going up. *)
Lemma nearest_bracket (sm k : Z) :
  (0 < k)%Z ->
  let n := ((2 * sm + 2 ^ k) / 2 ^ (k + 1))%Z in
  inject_Z n - (1 # 2) <= inject_Z sm / 2 ^ k
  /\ inject_Z sm / 2 ^ k <= inject_Z n + (1 # 2).
Proof.
  intros K n.
  assert (P : (0 < 2 ^ k)%Z) by (apply RoundingFacts.pow2_pos; lia).
  assert (E : (2 ^ (k + 1) = 2 * 2 ^ k)%Z).
  { replace (k + 1)%Z with (Z.succ k) by lia. apply Z.pow_succ_r. lia. }
  pose proof (Z.div_mod (2 * sm + 2 ^ k) (2 ^ (k + 1)) ltac:(lia)) as D.
  pose proof (Z.mod_pos_bound (2 * sm + 2 ^ k) (2 ^ (k + 1)) ltac:(lia)) as B.
  fold n in D. rewrite E in D, B.
  set (r := ((2 * sm + 2 ^ k) mod (2 * 2 ^ k))%Z) in *.
  assert (L : (2 * n * 2 ^ k - 2 ^ k <= 2 * sm)%Z) by lia.
  assert (U : (2 * sm <= 2 * n * 2 ^ k + 2 ^ k)%Z) by lia.
  apply ValueFacts.inject_Z_le in L, U.
  rewrite ValueFacts.inject_Z_sub, !inject_Z_mult in L.
  rewrite inject_Z_plus, !inject_Z_mult in U.
  rewrite !(ValueFacts.Q2_Z k) in L, U by lia.
  setoid_replace (inject_Z 2) with 2 in L by reflexivity.
  setoid_replace (inject_Z 2) with 2 in U by reflexivity.
  pose proof (ValueFacts.Q2_pos k) as Pk.
  split.
  - apply Qle_shift_div_l; [exact Pk|]. lra.
  - apply Qle_shift_div_r; [exact Pk|]. lra.
Qed.

Lemma value_ratio (s : bool) (m : positive) (e : Z) :
  (e < 0)%Z ->
  Exact.value (S754_finite s m e)
  == inject_Z (cond_Zopp s (Z.pos m)) / 2 ^ (- e).
Proof.
  intros E. rewrite ValueFacts.value_finite.
  pose proof (ValueFacts.Q2_pos (- e)) as P.
  assert (I : 2 ^ e == / 2 ^ (- e)).
  { rewrite Qpower_opp, Qinv_involutive. reflexivity. }
  rewrite I. destruct s; cbn [cond_Zopp].
  - change (- Z.pos m)%Z with (Z.neg m).
    change (Z.neg m) with (- Z.pos m)%Z. rewrite inject_Z_opp.
    unfold Qdiv. ring.
  - unfold Qdiv. ring.
Qed.

(** [Math.round] moves a number by at most one half, up to the rounding of
    the integer it arrives at. *)
Lemma Math_round_value (x : number) :
  isFinite (Math_round x) = true ->
  Qabs (Exact.value (Math_round x) - Exact.value x)
  <= (1 # 2) + 2 * Accuracy.EPSILON * Qabs (Exact.value (Math_round x)).
Proof.
  intros Fin.
  pose proof ValueFacts.EPSILON_pos as Ep.
  assert (Same : forall y : number,
             Qabs (Exact.value y - Exact.value y)
             <= (1 # 2) + 2 * Accuracy.EPSILON * Qabs (Exact.value y)).
  { intros y. setoid_replace (Exact.value y - Exact.value y) with 0 by ring.
    pose proof (Qabs_nonneg (Exact.value y)).
    assert (0 <= 2 * Accuracy.EPSILON * Qabs (Exact.value y)).
    { apply Qmult_le_0_compat; lra. }
    cbn [Qabs Qnum Z.abs]. lra. }
  destruct x as [s|s| |s m e]; try apply Same.
  unfold Math_round in *.
  destruct (0 <=? e)%Z eqn:E; [apply Same|].
  destruct (Z.pos m mod 2 ^ (- e) =? 0)%Z; [apply Same|].
  apply Z.leb_gt in E.
  cbv zeta in *.
  set (sm := cond_Zopp s (Z.pos m)) in *.
  destruct (nearest_bracket sm (- e) ltac:(lia)) as [L U].
  replace (- e + 1)%Z with (- e + 1)%Z in * by reflexivity.
  set (n := ((2 * sm + 2 ^ (- e)) / 2 ^ (- e + 1))%Z) in *.
  rewrite (value_ratio s m e E). fold sm.
  set (v := inject_Z sm / 2 ^ (- e)) in *.
  destruct (Z.eqb_spec n 0) as [Zn|Nn].
  - rewrite ValueFacts.value_zero. rewrite Zn in L, U.
    setoid_replace (inject_Z 0) with 0 in L by reflexivity.
    setoid_replace (inject_Z 0) with 0 in U by reflexivity.
    setoid_replace (2 * Accuracy.EPSILON * Qabs 0) with 0 by (cbn; ring).
    apply Qabs_Qle_condition. split; lra.
  - pose proof (of_Z_near n Fin) as N.
    pose proof MIN_VALUE_small as Ms.
    set (T := Exact.value (of_Z n)) in *.
    assert (N1 : 1 <= Qabs (inject_Z n)).
    { rewrite <- (Qabs_pos 1) by lra.
      change 1 with (inject_Z 1) at 1.
      unfold Qabs, inject_Z. cbn [Qnum Qden].
      unfold Qle. cbn [Qnum Qden]. lia. }
    revert N N1 L U. generalize (inject_Z n). intros qn N N1 L U.
    apply Qabs_Qle_condition in N.
    unfold Accuracy.EPSILON in *.
    assert (Big : (1 # 2) <= Qabs T).
    { revert N N1. apply (Qabs_case T); apply (Qabs_case qn); intros; lra. }
    revert N Big L U. apply (Qabs_case T); intros; apply Qabs_Qle_condition;
      split; lra.
Qed.



End RoundValueFacts.

(** ** The accuracy of the aggregates *)

Module AggregateFacts.
Import Js.
Local Open Scope Q_scope.

Lemma Qabs_cases (x : Q) :
  (0 <= x /\ Qabs x == x) \/ (x <= 0 /\ Qabs x == - x).
Proof.
  destruct (Qlt_le_dec x 0) as [N|P].
  - right. split; [lra|]. apply Qabs_neg. lra.
  - left. split; [exact P|]. apply Qabs_pos. exact P.
Qed.

(** Replaces [Qabs x] by a variable that is [x] or [- x]. *)
Ltac abs_split x :=
  let a := fresh "a" in
  let E := fresh "E" in
  let S := fresh "S" in
  destruct (Qabs_cases x) as [[S E]|[S E]];
  repeat match goal with H : context [Qabs x] |- _ => revert H end;
  generalize (Qabs x); intros a; intros.

Ltac abs_all :=
  repeat match goal with
         | H : context [Qabs ?x] |- _ => abs_split x
         | |- context [Qabs ?x] => abs_split x
         end.

Lemma MIN_VALUE_tiny : Accuracy.MIN_VALUE <= Accuracy.EPSILON * (1 # 1000000000000).
Proof. vm_compute. discriminate. Qed.



Lemma isFinite_Math_round (x : number) :
  isFinite (Math_round x) = true -> isFinite x = true.
Proof. destruct x; cbn; auto. Qed.




End AggregateFacts.

(** ** The accuracy of the vibration magnitude *)

Module MagnitudeFacts.
Import Js.
Import AggregateFacts.
Local Open Scope Q_scope.






End MagnitudeFacts.

(** ** The aggregates and the magnitude as decimals *)

Module DecimalValueFacts.
Import Js.
Import AggregateFacts.
Local Open Scope Q_scope.








(** Subtracting a finite number from a number leaves a number. *)
Lemma sub_finite_not_nan (x y : number) :
  x <> NaN -> isFinite y = true -> sub x y <> NaN.
Proof.
  intros Hx Fy.
  destruct x as [sx|sx| |sx mx ex]; try (contradiction Hx; reflexivity);
    destruct y as [sy|sy| |sy my ey]; try discriminate Fy;
    unfold sub, SFsub; try discriminate.
  - destruct sx, sy; discriminate.
  - apply RoundFacts.binary_normalize_not_nan.
Qed.

End DecimalValueFacts.

(** ** The accuracy of the remaining-life estimate *)

Module LifeFacts.
Import Js.
Import AggregateFacts.
Local Open Scope Q_scope.

Lemma isFinite_sub (x y : number) :
  isFinite (sub x y) = true -> isFinite x = true /\ isFinite y = true.
Proof.
  destruct x as [sx|sx| |sx mx ex], y as [sy|sy| |sy my ey]; cbn;
    intros H; try discriminate H; auto;
    destruct sx, sy; try discriminate H; auto.
Qed.

Lemma sub_near (x y : number) :
  isFinite (sub x y) = true ->
  Qabs (Exact.value (sub x y) - (Exact.value x - Exact.value y))
  <= Accuracy.EPSILON * Qabs (Exact.value (sub x y)) + Accuracy.MIN_VALUE.
Proof.
  intros Fin. unfold sub in *.
  destruct x as [sx|sx| |sx mx ex], y as [sy|sy| |sy my ey];
    cbn [SFsub isFinite] in Fin |- *;
    try discriminate Fin;
    try (destruct sx, sy; try discriminate Fin;
         apply OperationFacts.near_self; cbn; ring);
    try (apply OperationFacts.near_self; rewrite ?ValueFacts.value_zero; ring).
  apply OperationFacts.binary_normalize_near in Fin.
  rewrite ValueFacts.inject_Z_sub in Fin.
  setoid_replace
      ((inject_Z (cond_Zopp sx (Z.pos (fst (shl_align mx ex (Z.min ex ey)))))
        - inject_Z (cond_Zopp sy (Z.pos (fst (shl_align my ey (Z.min ex ey))))))
       * 2 ^ Z.min ex ey)
      with (inject_Z (cond_Zopp sx (Z.pos (fst (shl_align mx ex (Z.min ex ey)))))
            * 2 ^ Z.min ex ey
            - inject_Z (cond_Zopp sy (Z.pos (fst (shl_align my ey (Z.min ex ey)))))
              * 2 ^ Z.min ex ey) in Fin by ring.
  rewrite !OperationFacts.aligned_value in Fin by lia.
  exact Fin.
Qed.

Lemma leb_zero_nonneg (r : number) :
  leb (of_Z 0) r = true -> nonneg r = true.
Proof.
  destruct r as [s|[|]| |[|] m e]; cbn; intros H;
    try discriminate H; reflexivity.
Qed.

(** The rounded budget [1400 - 8*r - h/6 - 3*w] as the source computes
    it, against the same expression on the values. *)
Lemma budget_value (r h w : number) :
  let L := Math_round
             (sub (sub (sub (of_Z 1400) (mul r (of_Z 8))) (div h (of_Z 6)))
                  (mul w (of_Z 3))) in
  let exact := 1400 - 8 * Exact.value r - Exact.value h / 6
               - 3 * Exact.value w in
  let size := 1400 + 8 * Qabs (Exact.value r) + Qabs (Exact.value h) / 6
              + 3 * Qabs (Exact.value w) in
  isFinite L = true ->
  Qabs (Exact.value L - exact)
  <= (1 # 2) + 8 * Accuracy.EPSILON * size + 8 * Accuracy.MIN_VALUE.
Proof.
  intros L exact size Fin. subst L exact size.
  pose proof (RoundValueFacts.Math_round_value _ Fin) as R.
  apply isFinite_Math_round in Fin.
  pose proof (sub_near _ _ Fin) as S3.
  apply isFinite_sub in Fin. destruct Fin as [Fin F3].
  pose proof (OperationFacts.mul_near _ _ F3) as M3.
  pose proof (sub_near _ _ Fin) as S2.
  apply isFinite_sub in Fin. destruct Fin as [Fin F2].
  pose proof (DecimalFacts.div_near _ _ F2) as D.
  pose proof (sub_near _ _ Fin) as S1.
  apply isFinite_sub in Fin. destruct Fin as [_ F1].
  pose proof (OperationFacts.mul_near _ _ F1) as M1.
  assert (V1400 : Exact.value (of_Z 1400) == 1400) by (vm_compute; reflexivity).
  assert (V8 : Exact.value (of_Z 8) == 8) by (vm_compute; reflexivity).
  assert (V6 : Exact.value (of_Z 6) == 6) by (vm_compute; reflexivity).
  assert (V3 : Exact.value (of_Z 3) == 3) by (vm_compute; reflexivity).
  rewrite V1400 in S1. rewrite V8 in M1. rewrite V6 in D. rewrite V3 in M3.
  clear V1400 V8 V6 V3.
  pose proof ValueFacts.MIN_VALUE_pos as Mp.
  pose proof MIN_VALUE_tiny as Mt.
  pose proof (Qle_Qabs (Exact.value r)) as Ar.
  pose proof (Qle_Qabs (- Exact.value r)) as Ar'. rewrite Qabs_opp in Ar'.
  pose proof (Qle_Qabs (Exact.value h)) as Ah.
  pose proof (Qle_Qabs (- Exact.value h)) as Ah'. rewrite Qabs_opp in Ah'.
  pose proof (Qle_Qabs (Exact.value w)) as Aw.
  pose proof (Qle_Qabs (- Exact.value w)) as Aw'. rewrite Qabs_opp in Aw'.
  revert R S3 M3 S2 D S1 M1 Ar Ar' Ah Ah' Aw Aw'.
  generalize (Qabs (Exact.value r)). generalize (Qabs (Exact.value h)).
  generalize (Qabs (Exact.value w)).
  generalize (Exact.value
                (Math_round
                   (sub (sub (sub (of_Z 1400) (mul r (of_Z 8)))
                             (div h (of_Z 6)))
                        (mul w (of_Z 3))))).
  generalize (Exact.value
                (sub (sub (sub (of_Z 1400) (mul r (of_Z 8))) (div h (of_Z 6)))
                     (mul w (of_Z 3)))).
  generalize (Exact.value
                (sub (sub (of_Z 1400) (mul r (of_Z 8))) (div h (of_Z 6)))).
  generalize (Exact.value (sub (of_Z 1400) (mul r (of_Z 8)))).
  generalize (Exact.value (mul r (of_Z 8))).
  generalize (Exact.value (div h (of_Z 6))).
  generalize (Exact.value (mul w (of_Z 3))).
  generalize (Exact.value r). generalize (Exact.value h).
  generalize (Exact.value w).
  intros vw vh vr m3 q m8 B t1 b L aw ah ar R S3 M3 S2 D S1 M1
         Ar Ar' Ah Ah' Aw Aw'.
  assert (Dq : vh / 6 == vh * (1 # 6)) by reflexivity.
  rewrite Dq in D |- *. clear Dq.
  assert (Da : ah / 6 == ah * (1 # 6)) by reflexivity.
  rewrite Da. clear Da.
  unfold Accuracy.EPSILON in *.
  revert Mp Mt R S3 M3 S2 D S1 M1. generalize Accuracy.MIN_VALUE.
  intros mv Mp Mt R S3 M3 S2 D S1 M1.
  apply Qabs_Qle_condition in R, S3, M3, S2, D, S1, M1.
  apply Qabs_Qle_condition.
  abs_all; split; lra.
Qed.

End LifeFacts.

(** ** Derived metrics *)

Module DerivedFacts.
Import Js.

Lemma mul_comm (x y : number) : mul x y = mul y x.
Proof.
  unfold mul, SFmul.
  destruct x as [sx|sx| |sx mx ex], y as [sy|sy| |sy my ey];
    try reflexivity; try (rewrite (xorb_comm sx sy); reflexivity).
  rewrite (xorb_comm sx sy), (Pos.mul_comm mx my), (Z.add_comm ex ey).
  reflexivity.
Qed.

Lemma vibration_formula (p : SimulationParams) :
  vibration (derived p) = Formula.vibrationAggregate p.
Proof. reflexivity. Qed.


Lemma riskScore_formula (p : SimulationParams) :
  riskScore (derived p) = Formula.risk p.
Proof.
  unfold derived, Formula.risk, Formula.weightedSum,
    Formula.vibrationAggregate, Formula.temperatureAggregate.
  cbv zeta. cbn [riskScore]. reflexivity.
Qed.

Lemma risk_clamped (p : SimulationParams) :
  let r := riskScore (derived p) in
  (Formula.weightedSum p = NaN /\ r = NaN) \/
  (Formula.weightedSum p <> NaN /\ r <> NaN /\
   leb (of_Z 0) r = true /\ leb r (of_Z 100) = true).
Proof.
  cbv zeta. rewrite riskScore_formula. unfold Formula.risk.
  destruct (clamp_bounds (Math_round (Formula.weightedSum p)) (of_Z 0) (of_Z 100))
    as [[E C]|(E & C)]; try discriminate; try reflexivity.
  - left. split; [|exact C].
    apply JsFacts.isNaN_true. rewrite <- RoundFacts.Math_round_isNaN.
    apply JsFacts.isNaN_true. exact E.
  - right. split; [|exact C].
    apply JsFacts.isNaN_false. rewrite <- RoundFacts.Math_round_isNaN.
    apply JsFacts.isNaN_false. exact E.
Qed.

Lemma mul_constant (x c : number) :
  Js.positive_constant c = true -> Js.nonneg x = true ->
  Js.nonneg (mul x c) = true.
Proof.
  destruct c as [s|s| |[|] m e]; try discriminate.
  intros _. apply NonNeg.mul_nonneg.
Qed.

Lemma div_constant (x c : number) :
  Js.positive_constant c = true -> Js.nonneg x = true ->
  Js.nonneg (div x c) = true.
Proof.
  destruct c as [s|s| |[|] m e]; try discriminate.
  intros _. apply NonNeg.div_nonneg.
Qed.

Lemma sub_constant_not_nan (x c : number) :
  Js.positive_constant c = true -> x <> NaN ->
  sub c x <> NaN /\ sub x c <> NaN.
Proof.
  destruct c as [s|s| |[|] m e]; try discriminate.
  intros _. apply NonNeg.sub_not_nan.
Qed.

Lemma weightedSum_nonneg (p : SimulationParams) :
  risk_inputs_nonneg p = true -> Js.nonneg (Formula.weightedSum p) = true.
Proof.
  unfold risk_inputs_nonneg. rewrite !andb_true_iff, !negb_true_iff.
  intros ((((((((((R & T) & VX) & VY) & VZ) & MT) & BT) & BW) & WL) & PF) & AT).
  apply JsFacts.isNaN_false in PF, AT.
  unfold Formula.weightedSum, Formula.vibrationAggregate,
    Formula.temperatureAggregate.
  repeat first
    [ apply NonNeg.add_nonneg
    | apply mul_constant; [reflexivity|]
    | apply div_constant; [reflexivity|]
    | apply NonNeg.toFixed_parsed_nonneg
    | apply NonNeg.Math_round_nonneg
    | apply NonNeg.Math_max_zero_nonneg
    | assumption ].
  - apply (sub_constant_not_nan (powerFactor p) (of_Z 1)); [reflexivity|exact PF].
  - apply (sub_constant_not_nan (ambientTemp p) (of_Z 25)); [reflexivity|exact AT].
Qed.

End DerivedFacts.

(** C1 (amended).  For every simulation parameter object the derived risk
    score is [clamp(round(S), 0, 100)] for the weighted sum [S] of the
    specification, where vibration is the mean of the three axes rounded to
    two decimals and temperature is the rounded mean of [motorTemp] and
    [bearingTemp].  The score is [NaN] exactly when [S] is [NaN]; whenever it
    is not [NaN] it lies between 0 and 100 inclusive, and that is the case
    for every parameter object in which no field entering the score is [NaN]
    and rpm, torque, the vibration axes, the two temperatures, bearing wear
    and wear level are not negative.  In every case the score is neither
    less than 0 nor greater than 100. *)
Theorem derived_risk_score (p : SimulationParams) :
  let r := riskScore (derived p) in
  r = Formula.risk p
  /\ Js.isNaN r = Js.isNaN (Formula.weightedSum p)
  /\ (Js.isNaN r = false ->
      Js.leb (Js.of_Z 0) r = true /\ Js.leb r (Js.of_Z 100) = true)
  /\ (risk_inputs_nonneg p = true ->
      Js.leb (Js.of_Z 0) r = true /\ Js.leb r (Js.of_Z 100) = true)
  /\ Js.ltb r (Js.of_Z 0) = false
  /\ Js.ltb (Js.of_Z 100) r = false.
Proof.
  cbv zeta. split; [apply DerivedFacts.riskScore_formula|].
  pose proof (DerivedFacts.risk_clamped p) as H. cbv zeta in H.
  assert (B : Js.isNaN (riskScore (derived p)) = false ->
              Js.leb (Js.of_Z 0) (riskScore (derived p)) = true /\
              Js.leb (riskScore (derived p)) (Js.of_Z 100) = true).
  { intros N. destruct H as [[_ E]|(_ & _ & L & U)]; [|auto].
    rewrite E in N. discriminate N. }
  split; [|split; [exact B|split]].
  - destruct H as [[S E]|(S & E & _)].
    + rewrite S, E. reflexivity.
    + apply JsFacts.isNaN_false in S, E. rewrite S, E. reflexivity.
  - intros I. apply B. destruct H as [[S _]|(_ & E & _)].
    + apply DerivedFacts.weightedSum_nonneg, NonNeg.nonneg_not_nan in I.
      contradiction.
    + apply JsFacts.isNaN_false; exact E.
  - destruct H as [[_ E]|(_ & _ & L & U)].
    + rewrite E. split; reflexivity.
    + split; apply JsFacts.leb_not_ltb; assumption.
Qed.

Lemma derived_risk_score_witness :
  Js.isNaN (riskScore (derived defaultParams)) = false
  /\ risk_inputs_nonneg defaultParams = true
  /\ Js.leb (Js.of_Z 0) (riskScore (derived defaultParams)) = true
  /\ Js.leb (riskScore (derived defaultParams)) (Js.of_Z 100) = true.
Proof.
  destruct (derived_risk_score defaultParams) as (_ & _ & N & H & _).
  assert (HN : Js.isNaN (riskScore (derived defaultParams)) = false)
    by (vm_compute; reflexivity).
  assert (HI : risk_inputs_nonneg defaultParams = true)
    by (vm_compute; reflexivity).
  split; [exact HN|]. split; [exact HI|].
  split; [exact (proj1 (N HN))|exact (proj2 (H HI))].
Defined.

(** C1, as stated, fails: every field of [overflowParams] is finite, and its
    risk score is [NaN], which is neither at least 0 nor at most 100. *)
Lemma derived_risk_score_overflow :
  params_finite overflowParams = true
  /\ riskScore (derived overflowParams) = Js.NaN
  /\ Js.leb (Js.of_Z 0) (riskScore (derived overflowParams)) = false
  /\ Js.leb (riskScore (derived overflowParams)) (Js.of_Z 100) = false
  /\ ~ (forall p, params_finite p = true ->
          Js.leb (Js.of_Z 0) (riskScore (derived p)) = true /\
          Js.leb (riskScore (derived p)) (Js.of_Z 100) = true).
Proof.
  assert (F : params_finite overflowParams = true) by (vm_compute; reflexivity).
  assert (L : Js.leb (Js.of_Z 0) (riskScore (derived overflowParams)) = false)
    by (vm_compute; reflexivity).
  split; [exact F|].
  split; [vm_compute; reflexivity|].
  split; [exact L|].
  split; [vm_compute; reflexivity|].
  intros H. destruct (H overflowParams F) as [H0 _].
  rewrite L in H0. discriminate H0.
Qed.

(** The order of the additions matters: for [orderParams] the source, which
    adds the two wear terms to each other first, obtains 55, and the same
    terms added one after the other give 56. *)
Lemma risk_sum_order_matters :
  riskScore (derived orderParams) = Js.of_Z 55
  /\ clamp (Js.Math_round (Formula.flatSum orderParams)) (Js.of_Z 0) (Js.of_Z 100)
     = Js.of_Z 56.
Proof. split; vm_compute; reflexivity. Qed.

(** Double precision matters: for the integer-valued [halfwayParams] the
    weighted sum is exactly 7.5, which rounds to 8, and the source obtains
    7. *)
Lemma risk_exact_value_differs :
  params_finite halfwayParams = true
  /\ Qeq (Exact.weightedSum halfwayParams) (15 # 2)
  /\ Exact.risk halfwayParams = 8
  /\ riskScore (derived halfwayParams) = Js.of_Z 7.
Proof.
  split; [vm_compute; reflexivity|].
  split; [vm_compute; reflexivity|].
  split; vm_compute; reflexivity.
Qed.

(** C6.  For every simulation parameter object the derived remaining-life
    estimate is computed in double precision as
    [max(120, round(1400 - 8*riskScore - operatingHours/6 - 3*bearingWear))].
    It is [NaN] exactly when the difference is [NaN]; otherwise it is at
    least 120, and the comparison [estimate < 120] is false in every case.
    The estimate is integral; it is either 120 or the rounded difference,
    and when it is finite and not 120 it lies within
    [1/2 + 8 * EPSILON * (1400 + 8*|riskScore| + |operatingHours|/6 +
    3*|bearingWear|) + 8 * MIN_VALUE] of the difference of the values.  It
    is not [NaN], and so at least 120, whenever the risk score is a number
    and [operatingHours/6] and [bearingWear*3] are finite. *)
Theorem derived_remaining_life (p : SimulationParams) :
  let life := remainingLife (derived p) in
  let risk := riskScore (derived p) in
  life = Formula.life p
  /\ Js.isNaN life = Js.isNaN (Formula.lifeBudget p)
  /\ (Js.isNaN life = false -> Js.leb (Js.of_Z 120) life = true)
  /\ Js.ltb life (Js.of_Z 120) = false
  /\ Js.integral life = true
  /\ (Js.isFinite life = true ->
      life = Js.of_Z 120
      \/ (Qabs (Exact.value life - Exact.lifeDifference risk p)
          <= (1 # 2) + 8 * Accuracy.EPSILON * Exact.lifeSize risk p
             + 8 * Accuracy.MIN_VALUE)%Q)
  /\ (Js.isNaN risk = false ->
      Js.isFinite (Js.div (operatingHours p) (Js.of_Z 6)) = true ->
      Js.isFinite (Js.mul (bearingWear p) (Js.of_Z 3)) = true ->
      Js.leb (Js.of_Z 120) life = true).
Proof.
  cbv zeta.
  assert (E : remainingLife (derived p) = Formula.life p).
  { unfold Formula.life, Formula.lifeBudget.
    rewrite <- DerivedFacts.riskScore_formula.
    rewrite (DerivedFacts.mul_comm (Js.of_Z 8)), (DerivedFacts.mul_comm (Js.of_Z 3)).
    unfold derived. cbv zeta. cbn [remainingLife riskScore]. reflexivity. }
  assert (B : Formula.lifeBudget p
              = Js.sub (Js.sub (Js.sub (Js.of_Z 1400)
                                       (Js.mul (riskScore (derived p)) (Js.of_Z 8)))
                               (Js.div (operatingHours p) (Js.of_Z 6)))
                       (Js.mul (bearingWear p) (Js.of_Z 3))).
  { unfold Formula.lifeBudget.
    rewrite <- DerivedFacts.riskScore_formula.
    rewrite (DerivedFacts.mul_comm (Js.of_Z 8)), (DerivedFacts.mul_comm (Js.of_Z 3)).
    reflexivity. }
  split; [exact E|]. rewrite E. unfold Formula.life.
  assert (Below : Js.ltb (Js.Math_max (Js.of_Z 120)
                            (Js.Math_round (Formula.lifeBudget p)))
                         (Js.of_Z 120) = false).
  { apply JsFacts.Math_max_not_below;
      [discriminate|discriminate|vm_compute; reflexivity]. }
  assert (NaNs : Js.isNaN (Js.Math_max (Js.of_Z 120)
                             (Js.Math_round (Formula.lifeBudget p)))
                 = Js.isNaN (Formula.lifeBudget p)).
  { destruct (JsFacts.Math_max_lower (Js.of_Z 120)
                (Js.Math_round (Formula.lifeBudget p)))
      as [[V M]|[V M]]; try discriminate.
    - rewrite M, <- (RoundFacts.Math_round_isNaN (Formula.lifeBudget p)), V.
      reflexivity.
    - assert (N : Js.isNaN (Js.Math_round (Formula.lifeBudget p)) = false)
        by (apply JsFacts.isNaN_false; exact V).
      rewrite <- (RoundFacts.Math_round_isNaN (Formula.lifeBudget p)), N.
      destruct M as [->|[-> _]]; [reflexivity|exact N]. }
  assert (Least : Js.isNaN (Js.Math_max (Js.of_Z 120)
                              (Js.Math_round (Formula.lifeBudget p))) = false ->
                  Js.leb (Js.of_Z 120)
                    (Js.Math_max (Js.of_Z 120)
                       (Js.Math_round (Formula.lifeBudget p))) = true).
  { destruct (JsFacts.Math_max_lower (Js.of_Z 120)
                (Js.Math_round (Formula.lifeBudget p)))
      as [[V M]|[V M]]; try discriminate.
    - rewrite M. discriminate.
    - intros _. destruct M as [->|[-> L]]; [reflexivity|].
      apply JsFacts.leb_of_ltb; exact L. }
  split; [exact NaNs|]. split; [exact Least|]. split; [exact Below|].
  split; [|split].
  - destruct (JsFacts.Math_max_lower (Js.of_Z 120)
                (Js.Math_round (Formula.lifeBudget p)))
      as [[V M]|[V [M|[M _]]]]; try discriminate; rewrite M.
    + reflexivity.
    + apply RoundFacts.of_Z_integral.
    + apply RoundFacts.Math_round_integral.
  - intros Fin.
    destruct (JsFacts.Math_max_lower (Js.of_Z 120)
                (Js.Math_round (Formula.lifeBudget p)))
      as [[V M]|[V [M|[M _]]]]; try discriminate.
    + rewrite M in Fin. discriminate Fin.
    + left. exact M.
    + right. rewrite M in *. rewrite B in *.
      apply (LifeFacts.budget_value (riskScore (derived p)) (operatingHours p)
               (bearingWear p)). exact Fin.
  - intros R F6 F3. apply Least. rewrite NaNs, B.
    apply JsFacts.isNaN_false.
    assert (N8 : Js.mul (riskScore (derived p)) (Js.of_Z 8) <> Js.NaN).
    { apply NonNeg.nonneg_not_nan.
      apply DerivedFacts.mul_constant; [reflexivity|].
      apply LifeFacts.leb_zero_nonneg.
      pose proof (DerivedFacts.risk_clamped p) as C. cbv zeta in C.
      destruct C as [[_ N]|(_ & _ & L & _)]; [|exact L].
      rewrite N in R. discriminate R. }
    apply DecimalValueFacts.sub_finite_not_nan; [|exact F3].
    apply DecimalValueFacts.sub_finite_not_nan; [|exact F6].
    exact (proj1 (DerivedFacts.sub_constant_not_nan _ (Js.of_Z 1400)
                    eq_refl N8)).
Qed.

(** With the default parameters the estimate is the rounded difference
    [1400 - 8*37 - 4200/6 - 3*28 = 320]. *)
Lemma derived_remaining_life_witness :
  Js.isNaN (remainingLife (derived defaultParams)) = false
  /\ Js.isFinite (remainingLife (derived defaultParams)) = true
  /\ Js.isNaN (riskScore (derived defaultParams)) = false
  /\ Js.isFinite (Js.div (operatingHours defaultParams) (Js.of_Z 6)) = true
  /\ Js.isFinite (Js.mul (bearingWear defaultParams) (Js.of_Z 3)) = true
  /\ Js.leb (Js.of_Z 120) (remainingLife (derived defaultParams)) = true
  /\ (remainingLife (derived defaultParams) = Js.of_Z 120
      \/ (Qabs (Exact.value (remainingLife (derived defaultParams))
                - Exact.lifeDifference (riskScore (derived defaultParams))
                    defaultParams)
          <= (1 # 2)
             + 8 * Accuracy.EPSILON
               * Exact.lifeSize (riskScore (derived defaultParams)) defaultParams
             + 8 * Accuracy.MIN_VALUE)%Q)
  /\ remainingLife (derived defaultParams) = Js.of_Z 320
  /\ Qeq (Exact.lifeDifference (riskScore (derived defaultParams)) defaultParams)
         320.
Proof.
  destruct (derived_remaining_life defaultParams) as (_ & _ & H & _ & _ & A & S).
  assert (N : Js.isNaN (remainingLife (derived defaultParams)) = false)
    by (vm_compute; reflexivity).
  assert (F : Js.isFinite (remainingLife (derived defaultParams)) = true)
    by (vm_compute; reflexivity).
  assert (R : Js.isNaN (riskScore (derived defaultParams)) = false)
    by (vm_compute; reflexivity).
  assert (F6 : Js.isFinite (Js.div (operatingHours defaultParams) (Js.of_Z 6))
               = true) by (vm_compute; reflexivity).
  assert (F3 : Js.isFinite (Js.mul (bearingWear defaultParams) (Js.of_Z 3))
               = true) by (vm_compute; reflexivity).
  split; [exact N|]. split; [exact F|]. split; [exact R|].
  split; [exact F6|]. split; [exact F3|].
  split; [exact (S R F6 F3)|]. split; [exact (A F)|].
  split; vm_compute; reflexivity.
Defined.

(** C6, as stated, fails: every field of [overflowParams] is finite, and
    its estimate is [NaN], which is neither below 120 nor at least 120. *)
Lemma derived_remaining_life_overflow :
  params_finite overflowParams = true
  /\ remainingLife (derived overflowParams) = Js.NaN
  /\ Js.ltb (remainingLife (derived overflowParams)) (Js.of_Z 120) = false
  /\ Js.leb (Js.of_Z 120) (remainingLife (derived overflowParams)) = false
  /\ ~ (forall p, params_finite p = true ->
          Js.leb (Js.of_Z 120) (remainingLife (derived p)) = true).
Proof.
  assert (F : params_finite overflowParams = true) by (vm_compute; reflexivity).
  assert (L : Js.leb (Js.of_Z 120) (remainingLife (derived overflowParams))
              = false) by (vm_compute; reflexivity).
  split; [exact F|].
  split; [vm_compute; reflexivity|].
  split; [vm_compute; reflexivity|].
  split; [exact L|].
  intros H. rewrite (H overflowParams F) in L. discriminate L.
Qed.




(** ** Lists of names *)




(** ** The telemetry buffer *)

Lemma push_sample_recent (sample : TelemetrySample) (buffer : list TelemetrySample) :
  push_sample sample buffer
  = skipn (List.length (buffer ++ [sample]) - 200) (buffer ++ [sample]).
Proof.
  unfold push_sample.
  destruct (200 <? List.length (buffer ++ [sample]))%nat eqn:E; [reflexivity|].
  apply Nat.ltb_ge in E.
  replace (List.length (buffer ++ [sample]) - 200)%nat with 0%nat by lia.
  reflexivity.
Qed.

Lemma push_sample_length (sample : TelemetrySample) (buffer : list TelemetrySample) :
  List.length (push_sample sample buffer) = Nat.min 200 (List.length buffer + 1).
Proof.
  rewrite push_sample_recent, length_skipn, length_app. cbn [List.length]. lia.
Qed.

Lemma slice_last_suffix {A : Type} (n : nat) (a : list A) :
  (n <= List.length a)%nat ->
  List.length (slice_last n a) = n /\
  a = firstn (List.length a - n) a ++ slice_last n a.
Proof.
  intros H. unfold slice_last. split.
  - rewrite length_skipn. lia.
  - symmetry. apply firstn_skipn.
Qed.

Lemma buildPredictPayload_copy (sequence : list TelemetrySample) :
  buildPredictPayload sequence = sequence.
Proof.
  unfold buildPredictPayload.
  induction sequence as [|sample rest IH]; simpl; [reflexivity|].
  rewrite IH. destruct sample; reflexivity.
Qed.

Section ComponentFacts.

Variable ToNumber : json -> Js.number.
Variable env : Env.
Variable machinesData : list MachineData.
Variable selectedMachineId : string.

(** One step of symbolic execution of a handler. *)
Ltac mstep :=
  cbv beta iota zeta delta
    [bind fetch issue ret throw await setState getState void_fetch
     try_catch finally];
  cbn [ui sent unhandled fst snd negb].

Lemma fetchTelemetry_try_accepted (w : PollWorld) (mc : Machine)
    (r : Response payload) (pl : payload) (latest : TelemetrySample) :
  telemetry w = Responded r -> ok r = true -> res_json r = Returned pl ->
  getLatestSample pl = Some latest -> active_after_fetch w = true ->
  fetchTelemetry_try ToNumber env w mc
  = predictAndDispatch ToNumber env w latest (accepted env w latest mc).
Proof.
  intros T O J L A. unfold fetchTelemetry_try, accepted.
  mstep. rewrite T. mstep. rewrite O. mstep. rewrite J. mstep.
  rewrite L. rewrite A. mstep. reflexivity.
Qed.

(** What the prediction block does. *)
Lemma predictAndDispatch_short (w : PollWorld) (latest : TelemetrySample)
    (mc : Machine) :
  (List.length (telemetryBuffer (ui mc)) < 50)%nat ->
  predictAndDispatch ToNumber env w latest mc = (Returned tt, mc).
Proof.
  intros H. apply Nat.leb_gt in H.
  unfold predictAndDispatch. mstep. rewrite H. reflexivity.
Qed.

Lemma predictAndDispatch_dispatch (w : PollWorld) (latest : TelemetrySample)
    (mc : Machine) (pr : Response json) (j : json) (nextFailure : Js.number) :
  (50 <= List.length (telemetryBuffer (ui mc)))%nat ->
  predict w = Responded pr -> ok pr = true -> res_json pr = Returned j ->
  nextFailure_of ToNumber j = Returned nextFailure ->
  let sequence := slice_last 50 (telemetryBuffer (ui mc)) in
  predictAndDispatch ToNumber env w latest mc
  = (Returned tt,
     {| ui := with_failureProbability (Some nextFailure) (ui mc);
        sent := sent mc ++ [predictRequest env sequence;
                            dispatchRequest ToNumber env nextFailure latest sequence];
        unhandled := unhandled mc ++
                     match dispatch w with
                     | Rejected e => [e]
                     | Responded _ => []
                     end |}).
Proof.
  intros H P O J N. apply Nat.leb_le in H. cbv zeta.
  unfold predictAndDispatch, dispatchRequest.
  mstep. rewrite H. mstep. rewrite P. mstep. rewrite O. mstep.
  rewrite J. mstep. rewrite N. mstep.
  destruct (Js.geb nextFailure (failureThreshold ToNumber env)); mstep;
    rewrite <- app_assoc; destruct (dispatch w);
    cbn [app]; rewrite ?app_nil_r; reflexivity.
Qed.

(** In every other case of a long enough buffer the block throws after
    having issued the predict request, and nothing else. *)
Lemma predictAndDispatch_throw (w : PollWorld) (latest : TelemetrySample)
    (mc : Machine) :
  (50 <= List.length (telemetryBuffer (ui mc)))%nat ->
  (forall pr j nextFailure,
      predict w = Responded pr -> ok pr = true -> res_json pr = Returned j ->
      nextFailure_of ToNumber j = Returned nextFailure -> False) ->
  exists e,
    predictAndDispatch ToNumber env w latest mc
    = (Threw e,
       with_sent [predictRequest env (slice_last 50 (telemetryBuffer (ui mc)))] mc).
Proof.
  intros H No. apply Nat.leb_le in H.
  unfold predictAndDispatch, with_sent.
  mstep. rewrite H.
  destruct (predict w) as [e|pr] eqn:P; mstep.
  { eexists; reflexivity. }
  destruct (ok pr) eqn:O; mstep; [|eexists; reflexivity].
  destruct (res_json pr) as [j|e] eqn:J; mstep; [|eexists; reflexivity].
  destruct (nextFailure_of ToNumber j) as [nf|e] eqn:N; mstep;
    [|eexists; reflexivity].
  exfalso. eapply No; eauto.
Qed.

Lemma fetchTelemetry_catch_handled (w : PollWorld) (e : Error) (mc : Machine) :
  fetchTelemetry_catch w e mc = (Returned tt, handled w mc).
Proof.
  unfold fetchTelemetry_catch, handled.
  destruct (active_in_catch w); reflexivity.
Qed.

Lemma fetchTelemetry_caught (w : PollWorld) (mc : Machine) (e : Error)
    (mc' : Machine) :
  fetchTelemetry_try ToNumber env w mc = (Threw e, mc') ->
  fetchTelemetry ToNumber env w mc = (Returned tt, handled w mc').
Proof.
  intros H. unfold fetchTelemetry, try_catch. rewrite H.
  apply fetchTelemetry_catch_handled.
Qed.

Lemma fetchTelemetry_returned (w : PollWorld) (mc : Machine) (mc' : Machine) :
  fetchTelemetry_try ToNumber env w mc = (Returned tt, mc') ->
  fetchTelemetry ToNumber env w mc = (Returned tt, mc').
Proof.
  intros H. unfold fetchTelemetry, try_catch. rewrite H. reflexivity.
Qed.

(** The prediction block on a long enough buffer: it throws after the
    predict request, or it dispatches. *)
Lemma predictAndDispatch_long (w : PollWorld) (latest : TelemetrySample)
    (mc : Machine) :
  (50 <= List.length (telemetryBuffer (ui mc)))%nat ->
  let sequence := slice_last 50 (telemetryBuffer (ui mc)) in
  (exists e,
      predictAndDispatch ToNumber env w latest mc
      = (Threw e, with_sent [predictRequest env sequence] mc)) \/
  (exists pr j nextFailure,
      predict w = Responded pr /\ ok pr = true /\ res_json pr = Returned j /\
      nextFailure_of ToNumber j = Returned nextFailure /\
      predictAndDispatch ToNumber env w latest mc
      = (Returned tt,
         {| ui := with_failureProbability (Some nextFailure) (ui mc);
            sent := sent mc ++ [predictRequest env sequence;
                                dispatchRequest ToNumber env nextFailure latest sequence];
            unhandled := unhandled mc ++
                         match dispatch w with
                         | Rejected e => [e]
                         | Responded _ => []
                         end |})).
Proof.
  intros H. cbv zeta.
  destruct (predict w) as [e|pr] eqn:P.
  { left. apply predictAndDispatch_throw; [exact H|]. congruence. }
  destruct (ok pr) eqn:O.
  2:{ left. apply predictAndDispatch_throw; [exact H|].
      intros; congruence. }
  destruct (res_json pr) as [j|e] eqn:J.
  2:{ left. apply predictAndDispatch_throw; [exact H|].
      intros; congruence. }
  destruct (nextFailure_of ToNumber j) as [nf|e] eqn:N.
  2:{ left. apply predictAndDispatch_throw; [exact H|].
      intros; congruence. }
  right. exists pr, j, nf. repeat split; auto.
  apply predictAndDispatch_dispatch with (pr := pr) (j := j); auto.
Qed.

(** C2.  In a poll iteration that accepts a sample and whose buffer then
    holds at least 50 samples, the 50 most recent buffered samples are
    posted to the predict endpoint right after the telemetry request; when
    the predict endpoint answers with a failure probability, that
    probability is stored and exactly one more request is issued: a POST to
    the retrain endpoint, whose body carries the probability, the latest
    sample and the 50-sample sequence, when the probability is at least the
    failure threshold, and a POST to the hardware endpoint, whose body
    carries the probability and the latest sample without the sequence,
    otherwise.  The endpoints are those of the environment, and
    [http://localhost:8000/predict], [.../retrain] and [.../hardware] when it
    sets none; the threshold is 0.6 unless the environment sets it. *)
Theorem poll_predict_dispatch (w : PollWorld) (mc : Machine)
    (r : Response payload) (pl : payload) (latest : TelemetrySample) :
  telemetry w = Responded r -> ok r = true -> res_json r = Returned pl ->
  getLatestSample pl = Some latest -> active_after_fetch w = true ->
  let buffer := push_sample latest (telemetryBuffer (ui mc)) in
  (50 <= List.length buffer)%nat ->
  let sequence := slice_last 50 buffer in
  let mc' := snd (fetchTelemetry ToNumber env w mc) in
  let telemetryGet :=
    {| req_url := TELEMETRY_URL env; req_method := GET; req_body := NoBody |} in
  let predictPost :=
    {| req_url := PREDICT_URL env; req_method := POST;
       req_body := PredictBody sequence |} in
  (List.length sequence = 50%nat
   /\ buffer = firstn (List.length buffer - 50) buffer ++ sequence)
  /\ (exists rest,
        sent mc' = sent mc ++ [telemetryGet; predictPost] ++ rest
        /\ (List.length rest <= 1)%nat)
  /\ (forall pr j nextFailure,
        predict w = Responded pr -> ok pr = true -> res_json pr = Returned j ->
        nextFailure_of ToNumber j = Returned nextFailure ->
        failureProbability (ui mc') = Some nextFailure
        /\ (Js.geb nextFailure (failureThreshold ToNumber env) = true ->
            sent mc' = sent mc ++
              [ telemetryGet; predictPost;
                {| req_url := RETRAIN_URL env; req_method := POST;
                   req_body :=
                     DispatchBody nextFailure (s_timestamp latest)
                       (s_machineId latest) (s_machineName latest) latest
                       (Some sequence) |} ])
        /\ (Js.geb nextFailure (failureThreshold ToNumber env) = false ->
            sent mc' = sent mc ++
              [ telemetryGet; predictPost;
                {| req_url := HARDWARE_URL env; req_method := POST;
                   req_body :=
                     DispatchBody nextFailure (s_timestamp latest)
                       (s_machineId latest) (s_machineName latest) latest
                       None |} ]))
  /\ ((forall u, VITE_PREDICT_URL env = Some u -> PREDICT_URL env = u)
      /\ (forall u, VITE_RETRAIN_URL env = Some u -> RETRAIN_URL env = u)
      /\ (forall u, VITE_HARDWARE_URL env = Some u -> HARDWARE_URL env = u)
      /\ (VITE_PREDICT_URL env = None ->
          PREDICT_URL env = "http://localhost:8000/predict"%string)
      /\ (VITE_RETRAIN_URL env = None ->
          RETRAIN_URL env = "http://localhost:8000/retrain"%string)
      /\ (VITE_HARDWARE_URL env = None ->
          HARDWARE_URL env = "http://localhost:8000/hardware"%string))
  /\ (VITE_FAILURE_THRESHOLD env = None ->
      failureThreshold ToNumber env = Js.decimal 6 1)
  /\ (forall s, VITE_FAILURE_THRESHOLD env = Some s ->
      failureThreshold ToNumber env = ToNumber (JStr s)).
Proof.
  intros T O J L A buffer Hlen sequence mc' telemetryGet predictPost.
  pose proof (fetchTelemetry_try_accepted w mc r pl latest T O J L A) as Try.
  assert (Hlen' : (50 <= List.length (telemetryBuffer (ui (accepted env w latest mc))))%nat)
    by exact Hlen.
  assert (TG : telemetryRequest env = telemetryGet) by reflexivity.
  assert (PP : predictRequest env sequence = predictPost).
  { unfold predictRequest, predictPost.
    rewrite buildPredictPayload_copy. reflexivity. }
  split; [apply slice_last_suffix; exact Hlen|].
  split; [|split; [|split; [|split]]].
  - destruct (predictAndDispatch_long w latest _ Hlen')
      as [[e E]|(pr & j & nf & _ & _ & _ & _ & E)];
      rewrite E in Try.
    + apply fetchTelemetry_caught in Try.
      exists []. subst mc'. rewrite Try. split; [|cbn; lia].
      rewrite <- TG, <- PP.
      unfold handled, with_sent, accepted.
      destruct (active_in_catch w); cbn [sent ui snd];
        rewrite <- app_assoc; reflexivity.
    + apply fetchTelemetry_returned in Try.
      exists [dispatchRequest ToNumber env nf latest sequence]. subst mc'.
      rewrite Try. split; [|cbn; lia].
      rewrite <- TG, <- PP.
      unfold accepted. cbn [sent ui snd]. rewrite <- app_assoc. reflexivity.
  - intros pr j nf P Ok Js N.
    rewrite (predictAndDispatch_dispatch w latest _ pr j nf Hlen' P Ok Js N) in Try.
    apply fetchTelemetry_returned in Try. subst mc'. rewrite Try.
    split; [reflexivity|].
    rewrite <- TG, <- PP.
    split; intros G; unfold accepted, dispatchRequest; cbn [sent ui snd];
      rewrite G, <- app_assoc; reflexivity.
  - repeat split; intros; unfold PREDICT_URL, RETRAIN_URL, HARDWARE_URL;
      match goal with H : _ = _ |- _ => rewrite H end; reflexivity.
  - intros E. unfold failureThreshold, DEFAULT_FAILURE_THRESHOLD.
    rewrite E. reflexivity.
  - intros s E. unfold failureThreshold, DEFAULT_FAILURE_THRESHOLD.
    rewrite E. reflexivity.
Qed.

(** How a whole iteration ends once a sample has been accepted. *)
Lemma fetchTelemetry_accepted (w : PollWorld) (mc : Machine)
    (r : Response payload) (pl : payload) (latest : TelemetrySample) :
  telemetry w = Responded r -> ok r = true -> res_json r = Returned pl ->
  getLatestSample pl = Some latest -> active_after_fetch w = true ->
  let m1 := accepted env w latest mc in
  let sequence := slice_last 50 (telemetryBuffer (ui m1)) in
  ((List.length (telemetryBuffer (ui m1)) < 50)%nat /\
   fetchTelemetry_try ToNumber env w mc = (Returned tt, m1)) \/
  ((50 <= List.length (telemetryBuffer (ui m1)))%nat /\
   exists e, fetchTelemetry_try ToNumber env w mc
             = (Threw e, with_sent [predictRequest env sequence] m1)) \/
  ((50 <= List.length (telemetryBuffer (ui m1)))%nat /\
   exists nextFailure,
     fetchTelemetry_try ToNumber env w mc
     = (Returned tt,
        {| ui := with_failureProbability (Some nextFailure) (ui m1);
           sent := sent m1 ++ [predictRequest env sequence;
                               dispatchRequest ToNumber env nextFailure latest sequence];
           unhandled := unhandled m1 ++
                        match dispatch w with
                        | Rejected e => [e]
                        | Responded _ => []
                        end |})).
Proof.
  intros T O J L A. cbv zeta.
  rewrite (fetchTelemetry_try_accepted w mc r pl latest T O J L A).
  destruct (Nat.lt_ge_cases
              (List.length (telemetryBuffer (ui (accepted env w latest mc)))) 50)
    as [Short|Long].
  - left. split; [exact Short|]. apply predictAndDispatch_short; exact Short.
  - right. destruct (predictAndDispatch_long w latest _ Long)
      as [[e E]|(pr & j & nf & _ & _ & _ & _ & E)].
    + left. split; [exact Long|]. exists e. exact E.
    + right. split; [exact Long|]. exists nf. exact E.
Qed.

(** When no sample is accepted, the [try] block issues the telemetry
    request and changes nothing else. *)
Lemma fetchTelemetry_try_not_accepted (w : PollWorld) (mc : Machine) :
  (forall r pl latest,
      telemetry w = Responded r -> ok r = true -> res_json r = Returned pl ->
      getLatestSample pl = Some latest -> active_after_fetch w = true -> False) ->
  exists o, fetchTelemetry_try ToNumber env w mc
            = (o, with_sent [telemetryRequest env] mc).
Proof.
  intros No. unfold fetchTelemetry_try, with_sent. mstep.
  destruct (telemetry w) as [e|r] eqn:T; mstep; [eexists; reflexivity|].
  destruct (ok r) eqn:O; mstep; [|eexists; reflexivity].
  destruct (res_json r) as [pl|e] eqn:J; mstep; [|eexists; reflexivity].
  destruct (getLatestSample pl) as [latest|] eqn:L; [|eexists; reflexivity].
  destruct (active_after_fetch w) eqn:A; mstep; [|eexists; reflexivity].
  exfalso. eapply No; eauto.
Qed.

(** Every poll issues the telemetry request first, a GET, and only POST
    requests after it. *)
Lemma fetchTelemetry_requests (w : PollWorld) (mc : Machine) :
  exists rest,
    sent (snd (fetchTelemetry ToNumber env w mc))
    = sent mc ++ telemetryRequest env :: rest
    /\ Forall (fun r => req_method r = POST) rest.
Proof.
  assert (No : (forall r pl latest,
                   telemetry w = Responded r -> ok r = true ->
                   res_json r = Returned pl -> getLatestSample pl = Some latest ->
                   active_after_fetch w = true -> False) ->
               exists rest,
                 sent (snd (fetchTelemetry ToNumber env w mc))
                 = sent mc ++ telemetryRequest env :: rest
                 /\ Forall (fun r => req_method r = POST) rest).
  { intros N. destruct (fetchTelemetry_try_not_accepted w mc N) as [[[]|e] E].
    - rewrite (fetchTelemetry_returned _ _ _ E). exists []. split; [reflexivity|].
      constructor.
    - rewrite (fetchTelemetry_caught _ _ _ _ E). exists [].
      split; [|constructor].
      unfold handled. destruct (active_in_catch w); reflexivity. }
  destruct (telemetry w) as [e|r] eqn:T; [apply No; intros; discriminate|].
  destruct (ok r) eqn:O; [|apply No; intros; congruence].
  destruct (res_json r) as [pl|e] eqn:J; [|apply No; intros; congruence].
  destruct (getLatestSample pl) as [latest|] eqn:L; [|apply No; intros; congruence].
  destruct (active_after_fetch w) eqn:A; [|apply No; intros; congruence].
  clear No.
  destruct (fetchTelemetry_accepted w mc r pl latest T O J L A)
    as [[_ E]|[[_ [e E]]|[_ [nf E]]]].
  - rewrite (fetchTelemetry_returned _ _ _ E). exists [].
    split; [reflexivity|constructor].
  - rewrite (fetchTelemetry_caught _ _ _ _ E).
    exists [predictRequest env
              (slice_last 50 (telemetryBuffer (ui (accepted env w latest mc))))].
    split; [|repeat constructor].
    unfold handled, with_sent, accepted.
    destruct (active_in_catch w); cbn [sent ui snd];
      rewrite <- app_assoc; reflexivity.
  - rewrite (fetchTelemetry_returned _ _ _ E). eexists.
    split.
    + unfold accepted. cbn [sent ui snd]. rewrite <- app_assoc. reflexivity.
    + repeat constructor. unfold dispatchRequest.
      destruct (Js.geb nf (failureThreshold ToNumber env)); reflexivity.
Qed.

(** With auto mode on, the mounted effect polls once at mount time and once
    per period. *)
Lemma pollingSession_polls (w : PollWorld) (ws : list PollWorld) (mc : Machine) :
  autoMode (ui mc) = true ->
  pollingSession ToNumber env w ws mc
  = fold_left (fun m v => snd (fetchTelemetry ToNumber env v m)) (w :: ws) mc.
Proof.
  intros A. unfold pollingSession, mountTelemetryEffect, telemetryEffect.
  rewrite A. cbn [negb fold_left perform run_callback fst snd app].
  generalize (snd (fetchTelemetry ToNumber env w mc)). clear A.
  induction ws as [|v ws IH]; intros m; [reflexivity|].
  cbn [fold_left]. rewrite IH. reflexivity.
Qed.

Lemma polls_gets (ws : list PollWorld) (mc : Machine) :
  filter is_get
    (sent (fold_left (fun m v => snd (fetchTelemetry ToNumber env v m)) ws mc))
  = filter is_get (sent mc) ++ repeat (telemetryRequest env) (List.length ws).
Proof.
  revert mc. induction ws as [|v ws IH]; intros mc; cbn [fold_left List.length repeat].
  - rewrite app_nil_r. reflexivity.
  - rewrite IH. destruct (fetchTelemetry_requests v mc) as (rest & S & P).
    rewrite S, filter_app. cbn [filter is_get telemetryRequest req_method].
    assert (F : filter is_get rest = []).
    { clear S. induction P as [|x l Hx _ IHl]; [reflexivity|].
      cbn [filter]. unfold is_get at 1. rewrite Hx. exact IHl. }
    rewrite F, <- app_assoc. reflexivity.
Qed.

(** C3.  With auto mode on, the polling effect calls [fetchTelemetry] once
    at once and registers one interval, and no other timer, that calls it
    every [TELEMETRY_POLL_MS] milliseconds, 1000 unless the environment sets
    it: from the mounting through any number of periods the polls are the
    one at mount time and one per period, each of which issues exactly one
    GET of the telemetry endpoint.  A poll that accepts a sample sets every
    one of the 22 parameters from that sample, twelve of them rounded, and
    the clock's time as last update; the last update stays so when the
    iteration completes without an error.  A poll that accepts no sample
    leaves the parameters as they were.  With auto mode off the effect asks
    for nothing: no call, no timer, and over any number of periods the state
    and the request log are left as they were. *)
Theorem telemetry_polling (w : PollWorld) (mc : Machine) :
  let telemetryGet :=
    {| req_url := TELEMETRY_URL env; req_method := GET; req_body := NoBody |} in
  (autoMode (ui mc) = true ->
     telemetryEffect ToNumber env (ui mc)
     = [CallNow FetchTelemetry;
        SetInterval FetchTelemetry (TELEMETRY_POLL_MS ToNumber env)]
     /\ mountTelemetryEffect ToNumber env w mc
        = (snd (fetchTelemetry ToNumber env w mc),
           [SetInterval FetchTelemetry (TELEMETRY_POLL_MS ToNumber env)])
     /\ forall ws,
          let mc' := pollingSession ToNumber env w ws mc in
          mc' = fold_left (fun m v => snd (fetchTelemetry ToNumber env v m))
                          (w :: ws) mc
          /\ filter is_get (sent mc')
             = filter is_get (sent mc)
               ++ repeat telemetryGet (S (List.length ws)))
  /\ ((VITE_TELEMETRY_POLL_MS env = None ->
       TELEMETRY_POLL_MS ToNumber env = Js.of_Z 1000)
      /\ (forall s, VITE_TELEMETRY_POLL_MS env = Some s ->
          TELEMETRY_POLL_MS ToNumber env = ToNumber (JStr s))
      /\ (VITE_TELEMETRY_URL env = None ->
          TELEMETRY_URL env = "http://localhost:8000/telemetry"%string)
      /\ (forall u, VITE_TELEMETRY_URL env = Some u -> TELEMETRY_URL env = u))
  /\ (exists rest,
        sent (snd (fetchTelemetry ToNumber env w mc))
        = sent mc ++ telemetryGet :: rest
        /\ Forall (fun r => req_method r = POST) rest)
  /\ (forall r pl latest,
        telemetry w = Responded r -> ok r = true -> res_json r = Returned pl ->
        getLatestSample pl = Some latest -> active_after_fetch w = true ->
        let mc' := snd (fetchTelemetry ToNumber env w mc) in
        params (ui mc')
        = {| rpm := Js.Math_round (s_rpm latest);
             torque := Js.Math_round (s_torque latest);
             loadWeight := Js.Math_round (s_loadWeight latest);
             motorTemp := Js.Math_round (s_motorTemp latest);
             windingTemp := Js.Math_round (s_windingTemp latest);
             bearingTemp := Js.Math_round (s_bearingTemp latest);
             ambientTemp := Js.Math_round (s_ambientTemp latest);
             vibrationX := s_vibrationX latest;
             vibrationY := s_vibrationY latest;
             vibrationZ := s_vibrationZ latest;
             voltage := s_voltage latest;
             current := s_current latest;
             powerConsumption := s_powerConsumption latest;
             powerFactor := s_powerFactor latest;
             harmonicDistortion := s_harmonicDistortion latest;
             efficiency := s_efficiency latest;
             insulationResistance := s_insulationResistance latest;
             operatingHours := Js.Math_round (s_operatingHours latest);
             startStopCycles := Js.Math_round (s_startStopCycles latest);
             wearLevel := Js.Math_round (s_wearLevel latest);
             bearingWear := Js.Math_round (s_bearingWear latest);
             humidity := Js.Math_round (s_humidity latest) |}
        /\ (fst (fetchTelemetry_try ToNumber env w mc) = Returned tt ->
            lastUpdate (ui mc') = Some (now w)))
  /\ ((forall r pl latest,
          telemetry w = Responded r -> ok r = true -> res_json r = Returned pl ->
          getLatestSample pl = Some latest -> active_after_fetch w = true ->
          False) ->
      params (ui (snd (fetchTelemetry ToNumber env w mc))) = params (ui mc))
  /\ (autoMode (ui mc) = false ->
      telemetryEffect ToNumber env (ui mc) = []
      /\ mountTelemetryEffect ToNumber env w mc = (mc, [])
      /\ forall ws, pollingSession ToNumber env w ws mc = mc).
Proof.
  cbv zeta. split; [|split; [|split; [|split; [|split]]]].
  - intros A. split; [|split].
    + unfold telemetryEffect. rewrite A. reflexivity.
    + unfold mountTelemetryEffect, telemetryEffect. rewrite A. reflexivity.
    + intros ws. rewrite (pollingSession_polls w ws mc A).
      split; [reflexivity|]. apply (polls_gets (w :: ws) mc).
  - split; [|split; [|split]].
    + intros E. unfold TELEMETRY_POLL_MS. rewrite E. reflexivity.
    + intros s E. unfold TELEMETRY_POLL_MS. rewrite E. reflexivity.
    + intros E. unfold TELEMETRY_URL. rewrite E. reflexivity.
    + intros u E. unfold TELEMETRY_URL. rewrite E. reflexivity.
  - apply fetchTelemetry_requests.
  - intros r pl latest T O J L A.
    destruct (fetchTelemetry_accepted w mc r pl latest T O J L A)
      as [[_ E]|[[_ [e E]]|[_ [nf E]]]]; rewrite E.
    + rewrite (fetchTelemetry_returned _ _ _ E). split; reflexivity.
    + rewrite (fetchTelemetry_caught _ _ _ _ E).
      split; [|discriminate].
      unfold handled. destruct (active_in_catch w); reflexivity.
    + rewrite (fetchTelemetry_returned _ _ _ E). split; reflexivity.
  - intros N. destruct (fetchTelemetry_try_not_accepted w mc N) as [[[]|e] E].
    + rewrite (fetchTelemetry_returned _ _ _ E). reflexivity.
    + rewrite (fetchTelemetry_caught _ _ _ _ E).
      unfold handled. destruct (active_in_catch w); reflexivity.
  - intros A.
    assert (M : mountTelemetryEffect ToNumber env w mc = (mc, [])).
    { unfold mountTelemetryEffect, telemetryEffect. rewrite A. reflexivity. }
    split; [unfold telemetryEffect; rewrite A; reflexivity|].
    split; [exact M|].
    intros ws. unfold pollingSession. rewrite M. cbn [fst snd].
    induction ws as [|v ws IH]; [reflexivity|exact IH].
Qed.

Lemma fetchTelemetry_total (w : PollWorld) (mc : Machine) :
  fst (fetchTelemetry ToNumber env w mc) = Returned tt.
Proof.
  unfold fetchTelemetry, try_catch.
  destruct (fetchTelemetry_try ToNumber env w mc) as [[[]|e] m1].
  - reflexivity.
  - rewrite fetchTelemetry_catch_handled. reflexivity.
Qed.

Lemma fetchTelemetry_ignores_dispatch (w : PollWorld) (mc : Machine)
    (d : fetched json) :
  ui (snd (fetchTelemetry ToNumber env (with_dispatch d w) mc))
  = ui (snd (fetchTelemetry ToNumber env w mc))
  /\ sent (snd (fetchTelemetry ToNumber env (with_dispatch d w) mc))
     = sent (snd (fetchTelemetry ToNumber env w mc)).
Proof.
  unfold fetchTelemetry, fetchTelemetry_try, fetchTelemetry_catch,
    predictAndDispatch, with_dispatch.
  cbn [now telemetry active_after_fetch predict dispatch active_in_catch].
  mstep.
  destruct (telemetry w) as [e|r]; mstep.
  { destruct (active_in_catch w); split; reflexivity. }
  destruct (ok r); mstep.
  2:{ destruct (active_in_catch w); split; reflexivity. }
  destruct (res_json r) as [pl|e]; mstep.
  2:{ destruct (active_in_catch w); split; reflexivity. }
  destruct (getLatestSample pl) as [latest|]; mstep.
  2:{ destruct (active_in_catch w); split; reflexivity. }
  destruct (active_after_fetch w); mstep.
  2:{ split; reflexivity. }
  destruct (50 <=? _)%nat; mstep.
  2:{ split; reflexivity. }
  destruct (predict w) as [e|pr]; mstep.
  { destruct (active_in_catch w); split; reflexivity. }
  destruct (ok pr); mstep.
  2:{ destruct (active_in_catch w); split; reflexivity. }
  destruct (res_json pr) as [j|e]; mstep.
  2:{ destruct (active_in_catch w); split; reflexivity. }
  destruct (nextFailure_of ToNumber j) as [nf|e]; mstep.
  2:{ destruct (active_in_catch w); split; reflexivity. }
  destruct (Js.geb nf (failureThreshold ToNumber env)); mstep;
    destruct d, (dispatch w); split; reflexivity.
Qed.

(** C4 (amended).  An iteration never throws.  The failure handler changes
    nothing but the last-update timestamp, which it sets to [null], and
    only while the effect is still active.  When the telemetry fetch, or
    the predict fetch, rejects or answers with a non-OK response, the
    handler runs on the state reached so far and the request is not issued
    again.  The answer to the retrain or hardware request, which is not
    awaited, is not observed: neither the state nor the requests depend on
    it. *)
Theorem poll_failure_handled (w : PollWorld) (mc : Machine) :
  fst (fetchTelemetry ToNumber env w mc) = Returned tt
  /\ (forall e m,
        fetchTelemetry_catch w e m = (Returned tt, handled w m)
        /\ sent (handled w m) = sent m
        /\ unhandled (handled w m) = unhandled m
        /\ with_lastUpdate None (ui (handled w m)) = with_lastUpdate None (ui m)
        /\ (active_in_catch w = true -> lastUpdate (ui (handled w m)) = None))
  /\ ((forall r, telemetry w = Responded r -> ok r = false) ->
      snd (fetchTelemetry ToNumber env w mc)
      = handled w (with_sent [telemetryRequest env] mc))
  /\ (forall r pl latest,
        telemetry w = Responded r -> ok r = true -> res_json r = Returned pl ->
        getLatestSample pl = Some latest -> active_after_fetch w = true ->
        let m1 := accepted env w latest mc in
        (50 <= List.length (telemetryBuffer (ui m1)))%nat ->
        (forall pr, predict w = Responded pr -> ok pr = false) ->
        snd (fetchTelemetry ToNumber env w mc)
        = handled w
            (with_sent [predictRequest env (slice_last 50 (telemetryBuffer (ui m1)))]
                       m1))
  /\ (forall d,
        ui (snd (fetchTelemetry ToNumber env (with_dispatch d w) mc))
        = ui (snd (fetchTelemetry ToNumber env w mc))
        /\ sent (snd (fetchTelemetry ToNumber env (with_dispatch d w) mc))
           = sent (snd (fetchTelemetry ToNumber env w mc))).
Proof.
  split; [apply fetchTelemetry_total|].
  split; [|split; [|split]].
  - intros e m. split; [apply fetchTelemetry_catch_handled|].
    unfold handled. destruct (active_in_catch w); repeat split; try reflexivity.
    discriminate.
  - intros Bad.
    destruct (fetchTelemetry_try_not_accepted w mc) as [o E].
    { intros r pl latest T O. rewrite (Bad r T) in O. discriminate O. }
    destruct o as [[]|e].
    + exfalso. revert E. unfold fetchTelemetry_try. mstep.
      destruct (telemetry w) as [e|r] eqn:T; mstep; [discriminate|].
      rewrite (Bad r eq_refl). mstep. discriminate.
    + rewrite (fetchTelemetry_caught _ _ _ _ E). reflexivity.
  - intros r pl latest T O J L A m1 Long Bad. subst m1.
    pose proof (fetchTelemetry_try_accepted w mc r pl latest T O J L A) as Try.
    destruct (predictAndDispatch_long w latest _ Long)
      as [[e E]|(pr & j & nf & P & Ok & _)].
    + rewrite E in Try. rewrite (fetchTelemetry_caught _ _ _ _ Try). reflexivity.
    + rewrite (Bad pr P) in Ok. discriminate Ok.
  - intros d. apply fetchTelemetry_ignores_dispatch.
Qed.

(** *** The manual prediction request *)

Lemma handleSendToFriend_failure (w : SendWorld) (mc : Machine) :
  (forall r, send_answer w = Responded r -> ok r = false) ->
  exists msg,
    handleSendToFriend machinesData selectedMachineId w mc
    = (Returned tt, send_failed machinesData selectedMachineId msg w mc).
Proof.
  intros Bad.
  unfold handleSendToFriend, handleSendToFriend_try,
    handleSendToFriend_catch, send_failed.
  mstep.
  destruct (send_answer w) as [e|r] eqn:A; mstep.
  { exists (message e). reflexivity. }
  rewrite (Bad r eq_refl). mstep.
  destruct (res_text r) as [errText|e]; mstep.
  - eexists. cbn [message]. reflexivity.
  - exists (message e). reflexivity.
Qed.

Lemma handleSendToFriend_result (w : SendWorld) (mc : Machine) :
  let mc' := snd (handleSendToFriend machinesData selectedMachineId w mc) in
  result (ui mc') = result (ui mc) \/
  exists r data,
    send_answer w = Responded r /\ ok r = true /\ res_json r = Returned data /\
    result (ui mc') = Some data.
Proof.
  cbv zeta.
  unfold handleSendToFriend, handleSendToFriend_try, handleSendToFriend_catch.
  mstep.
  destruct (send_answer w) as [e|r] eqn:A; mstep.
  { left. reflexivity. }
  destruct (ok r) eqn:O; mstep.
  - destruct (res_json r) as [data|e] eqn:J; mstep.
    + right. exists r, data. repeat split; auto.
    + left. reflexivity.
  - destruct (res_text r); mstep; left; reflexivity.
Qed.

(** C8.  When the manual prediction request fails (the fetch rejects or
    the response is not OK) the handler completes without throwing; the
    status becomes a message that begins with [Error:], for which the
    status effect registers one timeout of 3000 ms whose callback clears
    it; the busy flag is off again and every other part of the state,
    the stored result included, is as before; exactly one request has been
    issued.  In any run the stored result changes only when the response is
    OK and its body parses. *)
Theorem send_failure_transient (w : SendWorld) (mc : Machine) :
  ((forall r, send_answer w = Responded r -> ok r = false) ->
   exists msg,
     let failed := send_failed machinesData selectedMachineId msg w mc in
     handleSendToFriend machinesData selectedMachineId w mc
     = (Returned tt, failed)
     /\ predictionStatus (ui failed) = Some ("Error: " ++ msg)%string
     /\ predictionStatusEffect (ui failed)
        = [SetTimeout ClearPredictionStatus (Js.of_Z 3000)]
     /\ (forall pw, run_callback ToNumber env ClearPredictionStatus pw
                    = clearPredictionStatus)
     /\ predictionStatus (ui (snd (clearPredictionStatus failed))) = None
     /\ result (ui failed) = result (ui mc)
     /\ isPredicting (ui failed) = false
     /\ with_predictionStatus None (with_isPredicting false (ui failed))
        = with_predictionStatus None (with_isPredicting false (ui mc))
     /\ sent failed
        = sent mc ++ [sendRequest machinesData selectedMachineId
                        (params (ui mc)) (send_now w)])
  /\ (let mc' := snd (handleSendToFriend machinesData selectedMachineId w mc) in
      result (ui mc') = result (ui mc) \/
      exists r data,
        send_answer w = Responded r /\ ok r = true /\
        res_json r = Returned data /\ result (ui mc') = Some data).
Proof.
  split; [|apply handleSendToFriend_result].
  intros Bad. destruct (handleSendToFriend_failure w mc Bad) as [msg E].
  exists msg. cbv zeta. repeat split; auto.
Qed.

(** *** The buffer bound along any run *)

Lemma fetchTelemetry_buffer (w : PollWorld) (mc : Machine) :
  let mc' := snd (fetchTelemetry ToNumber env w mc) in
  telemetryBuffer (ui mc') = telemetryBuffer (ui mc) \/
  exists latest,
    telemetryBuffer (ui mc') = push_sample latest (telemetryBuffer (ui mc)).
Proof.
  cbv zeta.
  destruct (telemetry w) as [e|r] eqn:T.
  2: destruct (ok r) eqn:O.
  2: destruct (res_json r) as [pl|e] eqn:J.
  2: destruct (getLatestSample pl) as [latest|] eqn:L.
  2: destruct (active_after_fetch w) eqn:A.
  2:{ right. exists latest.
      destruct (fetchTelemetry_accepted w mc r pl latest T O J L A)
        as [[_ E]|[[_ [e E]]|[_ [nf E]]]].
      - rewrite (fetchTelemetry_returned _ _ _ E). reflexivity.
      - rewrite (fetchTelemetry_caught _ _ _ _ E).
        unfold handled. destruct (active_in_catch w); reflexivity.
      - rewrite (fetchTelemetry_returned _ _ _ E). reflexivity. }
  all: left;
    destruct (fetchTelemetry_try_not_accepted w mc) as [o E];
    [ intros; congruence
    | destruct o as [[]|e'];
      [ rewrite (fetchTelemetry_returned _ _ _ E); reflexivity
      | rewrite (fetchTelemetry_caught _ _ _ _ E);
        unfold handled; destruct (active_in_catch w); reflexivity ] ].
Qed.

Lemma handleSendToFriend_buffer (w : SendWorld) (mc : Machine) :
  telemetryBuffer (ui (snd (handleSendToFriend machinesData selectedMachineId w mc)))
  = telemetryBuffer (ui mc).
Proof.
  unfold handleSendToFriend, handleSendToFriend_try, handleSendToFriend_catch.
  mstep.
  destruct (send_answer w) as [e|r]; mstep; [reflexivity|].
  destruct (ok r); mstep.
  - destruct (res_json r); mstep; reflexivity.
  - destruct (res_text r); mstep; reflexivity.
Qed.

Lemma handle_buffer_bound (mc : Machine) (ev : event) :
  (List.length (telemetryBuffer (ui mc)) <= 200)%nat ->
  (List.length (telemetryBuffer
                  (ui (handle ToNumber env machinesData selectedMachineId mc ev)))
   <= 200)%nat.
Proof.
  intros H. destruct ev as [w|w| |]; cbn [handle].
  - destruct (fetchTelemetry_buffer w mc) as [E|[latest E]]; rewrite E.
    + exact H.
    + rewrite push_sample_length. lia.
  - rewrite handleSendToFriend_buffer. exact H.
  - exact H.
  - cbn. lia.
Qed.

Lemma run_buffer_bound (evs : list event) (mc : Machine) :
  (List.length (telemetryBuffer (ui mc)) <= 200)%nat ->
  (List.length (telemetryBuffer
                  (ui (run ToNumber env machinesData selectedMachineId evs mc)))
   <= 200)%nat.
Proof.
  revert mc. unfold run.
  induction evs as [|ev evs IH]; intros mc H; cbn [fold_left]; [exact H|].
  apply IH, handle_buffer_bound, H.
Qed.

(** C9.  Appending a sample keeps exactly the most recent at most 200
    samples, in arrival order; an iteration leaves the buffer as it was or
    appends one sample in that way; starting from the empty buffer, the
    buffer never holds more than 200 samples, whatever the polls, manual
    requests, status timeouts and resets that occur. *)
Theorem telemetry_buffer_bounded :
  (forall sample buffer,
      push_sample sample buffer
      = skipn (List.length (buffer ++ [sample]) - 200) (buffer ++ [sample])
      /\ List.length (push_sample sample buffer)
         = Nat.min 200 (List.length buffer + 1)
      /\ exists dropped,
           buffer ++ [sample] = dropped ++ push_sample sample buffer)
  /\ (forall w mc,
        let mc' := snd (fetchTelemetry ToNumber env w mc) in
        telemetryBuffer (ui mc') = telemetryBuffer (ui mc) \/
        exists latest,
          telemetryBuffer (ui mc') = push_sample latest (telemetryBuffer (ui mc)))
  /\ (forall evs,
        (List.length
           (telemetryBuffer
              (ui (run ToNumber env machinesData selectedMachineId evs
                       initialMachine))) <= 200)%nat).
Proof.
  split; [|split].
  - intros sample buffer. split; [apply push_sample_recent|].
    split; [apply push_sample_length|].
    exists (firstn (List.length (buffer ++ [sample]) - 200) (buffer ++ [sample])).
    rewrite push_sample_recent. symmetry. apply firstn_skipn.
  - intros w mc. apply fetchTelemetry_buffer.
  - intros evs. apply run_buffer_bound. cbn. lia.
Qed.

Lemma handleSendToFriend_sent (w : SendWorld) (mc : Machine) :
  sent (snd (handleSendToFriend machinesData selectedMachineId w mc))
  = sent mc ++ [sendRequest machinesData selectedMachineId
                  (params (ui mc)) (send_now w)].
Proof.
  unfold handleSendToFriend, handleSendToFriend_try, handleSendToFriend_catch.
  mstep.
  destruct (send_answer w) as [e|r]; mstep; [reflexivity|].
  destruct (ok r); mstep.
  - destruct (res_json r); mstep; reflexivity.
  - destruct (res_text r); mstep; reflexivity.
Qed.


End ComponentFacts.



(** ** The latest sample of a payload *)

Lemma last_element_last {A : Type} (a : list A) (d : A) :
  a <> [] -> last_element a = Some (last a d).
Proof.
  unfold last_element.
  induction a as [|x rest IH]; intros H; [contradiction|].
  destruct rest as [|y r]; [reflexivity|].
  specialize (IH ltac:(discriminate)).
  cbn [List.length] in *. rewrite Nat.sub_succ, Nat.sub_0_r in *.
  exact IH.
Qed.

Lemma last_element_nil {A : Type} : last_element (@nil A) = None.
Proof. reflexivity. Qed.

(** What [getLatestSample] returns on every payload: the last element of the
    array, or of the series of the first machine key when that key is not
    the empty string; [null] otherwise. *)
Lemma getLatestSample_cases (p : payload) :
  getLatestSample p
  = match p with
    | PNull => None
    | PArray samples => last_element samples
    | PObject o =>
        match machines o with
        | None | Some [] => None
        | Some ((k, series) :: _) =>
            if truthy k then last_element series else None
        end
    end.
Proof.
  destruct p as [|samples|o]; [reflexivity| |].
  - destruct samples; reflexivity.
  - unfold getLatestSample. destruct (machines o) as [[|[k series] rest]|];
      try reflexivity.
    cbn [first_key map fst nth_error property].
    destruct (truthy k); [|reflexivity].
    rewrite String.eqb_refl. destruct series; reflexivity.
Qed.

(** C10 (amended).  [getLatestSample] is total.  It returns [null] exactly
    when the payload is [null], is an empty array, is an object with no
    machines map or with an empty one, or when the first machine key is the
    empty string or its series is empty; otherwise it returns the last element
    of the payload array or of the first machine's series. *)
Theorem getLatestSample_total (p : payload) :
  (getLatestSample p = None <->
   match p with
   | PNull => True
   | PArray samples => samples = []
   | PObject o =>
       match machines o with
       | None | Some [] => True
       | Some ((k, series) :: _) => k = EmptyString \/ series = []
       end
   end)
  /\ match p with
     | PNull => True
     | PArray [] => True
     | PArray (x :: rest) => getLatestSample p = Some (last (x :: rest) x)
     | PObject o =>
         match machines o with
         | Some ((String c k, x :: rest) :: _) =>
             getLatestSample p = Some (last (x :: rest) x)
         | _ => True
         end
     end.
Proof.
  rewrite getLatestSample_cases. split.
  - destruct p as [|samples|o]; [tauto| |].
    + destruct samples as [|x rest]; [tauto|].
      rewrite (last_element_last (x :: rest) x) by discriminate.
      split; discriminate.
    + destruct (machines o) as [[|[k series] rest]|]; try tauto.
      destruct k as [|c k]; cbn [truthy]; [tauto|].
      destruct series as [|x r]; [tauto|].
      rewrite (last_element_last (x :: r) x) by discriminate.
      split; [discriminate|]. intros [H|H]; discriminate H.
  - destruct p as [|[|x rest]|o]; try exact I.
    + apply last_element_last. discriminate.
    + destruct (machines o) as [[|[[|c k] [|x r]] rest]|]; try exact I.
      cbn [truthy]. apply last_element_last. discriminate.
Qed.

(** C10, as stated, fails: on the payload whose only machine key is the empty
    string, [getLatestSample] returns [null] although the series of that
    first key is present and holds a sample. *)
Lemma getLatestSample_empty_key :
  Example.emptyKeyPayload
  = PObject {| exportTime := None; totalDataPoints := None; runtime := None;
               machines := Some [(EmptyString, [Example.sampleA])] |}
  /\ first_key [(EmptyString, [Example.sampleA])] = Some EmptyString
  /\ property [(EmptyString, [Example.sampleA])] EmptyString
     = Some [Example.sampleA]
  /\ getLatestSample Example.emptyKeyPayload = None.
Proof. repeat split. Qed.

(** ** The properties at concrete inputs *)

(** A poll that fills the buffer to 50 samples: with a predicted
    probability of 0.9 the sequence goes to the retrain endpoint, with 0.3
    the latest sample goes to the hardware endpoint, and a probability equal
    to the threshold 0.6 counts as critical. *)
Lemma poll_predict_dispatch_witness :
  sent (snd (fetchTelemetry Example.toNumber Example.noEnv Example.criticalPoll
                            Example.almostFull))
  = [ {| req_url := "http://localhost:8000/telemetry"; req_method := GET;
         req_body := NoBody |};
      {| req_url := "http://localhost:8000/predict"; req_method := POST;
         req_body := PredictBody (repeat Example.sampleA 50) |};
      {| req_url := "http://localhost:8000/retrain"; req_method := POST;
         req_body :=
           DispatchBody (Js.decimal 9 1) (Js.of_Z 1700000000000) "M1" "Motor 1"
             Example.sampleA (Some (repeat Example.sampleA 50)) |} ]
  /\ sent (snd (fetchTelemetry Example.toNumber Example.noEnv Trace.calmPoll
                               Example.almostFull))
     = [ {| req_url := "http://localhost:8000/telemetry"; req_method := GET;
            req_body := NoBody |};
         {| req_url := "http://localhost:8000/predict"; req_method := POST;
            req_body := PredictBody (repeat Example.sampleA 50) |};
         {| req_url := "http://localhost:8000/hardware"; req_method := POST;
            req_body :=
              DispatchBody (Js.decimal 3 1) (Js.of_Z 1700000000000) "M1" "Motor 1"
                Example.sampleA None |} ]
  /\ map req_url
       (sent (snd (fetchTelemetry Example.toNumber Example.noEnv
                     Trace.thresholdPoll Example.almostFull)))
     = [ "http://localhost:8000/telemetry"; "http://localhost:8000/predict";
         "http://localhost:8000/retrain" ]%string
  /\ failureThreshold Example.toNumber Example.noEnv = Js.decimal 6 1.
Proof.
  destruct (poll_predict_dispatch Example.toNumber Example.noEnv
              Example.criticalPoll Example.almostFull
              _ (PArray [Example.sampleA]) Example.sampleA
              eq_refl eq_refl eq_refl eq_refl eq_refl)
    as (_ & _ & H & _ & D & _).
  { vm_compute. lia. }
  destruct (H _ _ (Js.decimal 9 1) eq_refl eq_refl eq_refl eq_refl) as (_ & S & _).
  destruct (poll_predict_dispatch Example.toNumber Example.noEnv
              Trace.calmPoll Example.almostFull
              _ (PArray [Example.sampleA]) Example.sampleA
              eq_refl eq_refl eq_refl eq_refl eq_refl)
    as (_ & _ & H' & _).
  { vm_compute. lia. }
  destruct (H' _ _ (Js.decimal 3 1) eq_refl eq_refl eq_refl eq_refl) as (_ & _ & S').
  destruct (poll_predict_dispatch Example.toNumber Example.noEnv
              Trace.thresholdPoll Example.almostFull
              _ (PArray [Example.sampleA]) Example.sampleA
              eq_refl eq_refl eq_refl eq_refl eq_refl)
    as (_ & _ & H'' & _).
  { vm_compute. lia. }
  destruct (H'' _ _ (Js.decimal 6 1) eq_refl eq_refl eq_refl eq_refl) as (_ & S'' & _).
  split; [|split; [|split]].
  - rewrite S by (vm_compute; reflexivity). vm_compute. reflexivity.
  - rewrite S' by (vm_compute; reflexivity). vm_compute. reflexivity.
  - rewrite S'' by (vm_compute; reflexivity). vm_compute. reflexivity.
  - exact (D eq_refl).
Defined.

(** The view with auto mode on, from its mounting through two periods: the
    first and the third poll deliver a sample whose readings are not whole
    numbers, the second fails.  Three GET requests have gone to the
    telemetry endpoint, the parameters are those of the sample, twelve of
    them rounded, and the last update is the time of the third poll.  With
    auto mode off nothing happens over the same periods. *)
Lemma telemetry_polling_witness :
  let mc := pollingSession Example.toNumber Example.noEnv Trace.fractionalPoll
              [Example.telemetryDownPoll; Trace.fractionalPoll]
              Example.autoMachine in
  sent mc
  = repeat {| req_url := "http://localhost:8000/telemetry"; req_method := GET;
              req_body := NoBody |} 3
  /\ params (ui mc)
     = {| rpm := Js.of_Z 1201;
          torque := Js.of_Z 110;
          loadWeight := Js.of_Z 61;
          motorTemp := Js.of_Z 95;
          windingTemp := Js.of_Z 99;
          bearingTemp := Js.of_Z 81;
          ambientTemp := Js.of_Z 25;
          vibrationX := Js.decimal 15 1;
          vibrationY := Js.decimal 20 1;
          vibrationZ := Js.decimal 25 1;
          voltage := Js.decimal 4003 1;
          current := Js.decimal 212 1;
          powerConsumption := Js.decimal 173 1;
          powerFactor := Js.decimal 9 1;
          harmonicDistortion := Js.decimal 21 1;
          efficiency := Js.decimal 905 1;
          insulationResistance := Js.decimal 125 1;
          operatingHours := Js.of_Z 4100;
          startStopCycles := Js.of_Z 12;
          wearLevel := Js.of_Z 16;
          bearingWear := Js.of_Z 20;
          humidity := S754_zero true |}
  /\ lastUpdate (ui mc) = Some (Js.of_Z 1700000003000)
  /\ mountTelemetryEffect Example.toNumber Example.noEnv Trace.fractionalPoll
       Example.autoMachine
     = (snd (fetchTelemetry Example.toNumber Example.noEnv Trace.fractionalPoll
               Example.autoMachine),
        [SetInterval FetchTelemetry (Js.of_Z 1000)])
  /\ pollingSession Example.toNumber Example.noEnv Trace.fractionalPoll
       [Example.telemetryDownPoll; Trace.fractionalPoll] initialMachine
     = initialMachine.
Proof.
  cbv zeta.
  destruct (telemetry_polling Example.toNumber Example.noEnv Trace.fractionalPoll
              Example.autoMachine) as (On & (Ms & _) & _).
  destruct (On eq_refl) as (_ & Mount & Session).
  destruct (Session [Example.telemetryDownPoll; Trace.fractionalPoll])
    as (Polls & Gets).
  destruct (telemetry_polling Example.toNumber Example.noEnv Trace.fractionalPoll
              initialMachine) as (_ & _ & _ & _ & _ & Off).
  destruct (Off eq_refl) as (_ & _ & Still).
  set (before := fold_left
                   (fun m v => snd (fetchTelemetry Example.toNumber Example.noEnv v m))
                   [Trace.fractionalPoll; Example.telemetryDownPoll]
                   Example.autoMachine).
  destruct (telemetry_polling Example.toNumber Example.noEnv Trace.fractionalPoll
              before) as (_ & _ & _ & Update & _).
  destruct (Update _ (PArray [Example.sampleA; Trace.sampleB]) Trace.sampleB
              eq_refl eq_refl eq_refl eq_refl eq_refl) as (P & U).
  assert (Last : pollingSession Example.toNumber Example.noEnv Trace.fractionalPoll
                   [Example.telemetryDownPoll; Trace.fractionalPoll]
                   Example.autoMachine
                 = snd (fetchTelemetry Example.toNumber Example.noEnv
                          Trace.fractionalPoll before)).
  { rewrite Polls. reflexivity. }
  split; [|split; [|split; [|split]]].
  - rewrite Polls. vm_compute. reflexivity.
  - rewrite Last, P. vm_compute. reflexivity.
  - rewrite Last, U; [reflexivity|]. vm_compute. reflexivity.
  - rewrite Mount, (Ms eq_refl). reflexivity.
  - apply Still.
Defined.

Lemma poll_failure_handled_witness :
  lastUpdate (ui (handled Example.telemetryDownPoll Example.almostFull)) = None
  /\ snd (fetchTelemetry Example.toNumber Example.noEnv Example.telemetryDownPoll
                         Example.almostFull)
     = handled Example.telemetryDownPoll
               (with_sent [telemetryRequest Example.noEnv] Example.almostFull)
  /\ sent (snd (fetchTelemetry Example.toNumber Example.noEnv
                  Example.predictDownPoll Example.almostFull))
     = [ telemetryRequest Example.noEnv;
         predictRequest Example.noEnv (repeat Example.sampleA 50) ]
  /\ lastUpdate (ui (snd (fetchTelemetry Example.toNumber Example.noEnv
                            Example.predictDownPoll Example.almostFull))) = None.
Proof.
  destruct (poll_failure_handled Example.toNumber Example.noEnv
              Example.telemetryDownPoll Example.almostFull) as (_ & Hd & T & _).
  destruct (poll_failure_handled Example.toNumber Example.noEnv
              Example.predictDownPoll Example.almostFull) as (_ & _ & _ & P & _).
  destruct (Hd Example.boom Example.almostFull) as (_ & _ & _ & _ & A).
  split; [apply (A eq_refl)|].
  split; [apply T; intros r E; discriminate E|].
  rewrite (P _ (PArray [Example.sampleA]) Example.sampleA
             eq_refl eq_refl eq_refl eq_refl eq_refl).
  - vm_compute. split; reflexivity.
  - vm_compute. lia.
  - intros pr E. injection E as <-. reflexivity.
Defined.

(** C4, as stated, fails for the request that is not awaited: in this
    iteration the retrain request is issued and rejected; the rejection is
    caught by nobody, the failure handler does not run and the last-update
    timestamp stays set. *)
Lemma poll_dispatch_rejection_unhandled :
  let mc' := snd (fetchTelemetry Example.toNumber Example.noEnv
                    Example.dispatchRejectedPoll Example.almostFull) in
  dispatch Example.dispatchRejectedPoll = Rejected Example.boom
  /\ sent mc'
     = [ telemetryRequest Example.noEnv;
         predictRequest Example.noEnv (repeat Example.sampleA 50);
         retrainRequest Example.noEnv (Js.decimal 9 1) Example.sampleA
                        (repeat Example.sampleA 50) ]
  /\ unhandled mc' = [Example.boom]
  /\ lastUpdate (ui mc') = Some (now Example.dispatchRejectedPoll)
  /\ lastUpdate (ui mc') <> None.
Proof.
  vm_compute. repeat split; try reflexivity. discriminate.
Qed.

Lemma send_failure_transient_witness :
  exists msg,
    predictionStatus
      (ui (snd (handleSendToFriend [] "M1" Example.rejectedSend initialMachine)))
    = Some ("Error: " ++ msg)%string
    /\ result (ui (snd (handleSendToFriend [] "M1" Example.rejectedSend
                          initialMachine))) = None.
Proof.
  destruct (send_failure_transient Example.toNumber Example.noEnv [] "M1"
              Example.rejectedSend initialMachine) as [F _].
  destruct F as (msg & E & S & _ & _ & _ & R & _).
  { intros r A. discriminate A. }
  exists msg. rewrite E. cbn [snd]. split; [exact S|exact R].
Defined.

(** ** The model on known values *)

Module Checks.

(** [0.1 + 0.2] is not [0.3]. *)
Example add_tenths :
  Js.add (Js.decimal 1 1) (Js.decimal 2 1) <> Js.decimal 3 1
  /\ Js.sub (Js.add (Js.decimal 1 1) (Js.decimal 2 1)) (Js.decimal 3 1)
     = S754_finite false 4503599627370496 (-106).
Proof. split; [vm_compute; discriminate|vm_compute; reflexivity]. Qed.

(** [Math.round] rounds halves up: 2.5 to 3, -2.5 to -2, and -0.4 to -0. *)
Example round_halves :
  Js.Math_round (Js.decimal 25 1) = Js.of_Z 3
  /\ Js.Math_round (Js.decimal (-25) 1) = Js.of_Z (-2)
  /\ Js.Math_round (Js.decimal (-4) 1) = S754_zero true.
Proof. repeat split; vm_compute; reflexivity. Qed.

(** [(1.005).toFixed(2)] is ["1.00"] and [(2.345).toFixed(2)] is ["2.35"]. *)
Example toFixed_known :
  Js.toFixed_parsed 2 (Js.decimal 1005 3) = Js.of_Z 1
  /\ Js.toFixed_parsed 2 (Js.decimal 2345 3) = Js.decimal 235 2.
Proof. split; vm_compute; reflexivity. Qed.

(** The derived metrics of the default parameters. *)
Example derived_default :
  temperature (derived defaultParams) = Js.of_Z 175
  /\ vibration (derived defaultParams) = Js.decimal 223 2
  /\ riskScore (derived defaultParams) = Js.of_Z 37
  /\ expectedVibration (derived defaultParams) = Js.decimal 22 1
  /\ remainingLife (derived defaultParams) = Js.of_Z 320
  /\ loadPercent (derived defaultParams) = Js.of_Z 62.
Proof. repeat split; vm_compute; reflexivity. Qed.

End Checks.

(** ** Numbers: the order is transitive *)

Module OrderFacts.
Import Js.

(** Two comparisons that do not say "greater" compose. *)
Lemma SFcompare_trans (a b c : number) (x y : comparison) :
  SFcompare a b = Some x -> SFcompare b c = Some y ->
  x <> Gt -> y <> Gt ->
  SFcompare a c = Some (match x, y with Eq, Eq => Eq | _, _ => Lt end).
Proof.
  destruct a as [sa|sa| |sa ma ea], b as [sb|sb| |sb mb eb],
           c as [sc|sc| |sc mc ec];
    try discriminate;
    try (destruct sa); try (destruct sb); try (destruct sc);
    cbn [SFcompare];
    intros X Y Hx Hy;
    injection X as X; injection Y as Y; subst x y;
    try congruence; try reflexivity.
  all: f_equal; revert Hx Hy;
    change (PosDef.Pos.compare_cont Eq) with Pos.compare;
    repeat match goal with
           | |- context [(?p ?= ?q)%Z] => destruct (Z.compare_spec p q)
           end;
    subst;
    repeat match goal with
           | |- context [(?p ?= ?q)%positive] => destruct (Pos.compare_spec p q)
           end;
    cbn [CompOpp]; intros; subst; try congruence; try lia.
Qed.

Lemma ltb_trans (a b c : number) :
  ltb a b = true -> ltb b c = true -> ltb a c = true.
Proof.
  unfold ltb, SFltb.
  destruct (SFcompare a b) as [[ | | ]|] eqn:X; try discriminate.
  destruct (SFcompare b c) as [[ | | ]|] eqn:Y; try discriminate.
  rewrite (SFcompare_trans a b c Lt Lt X Y); congruence.
Qed.

Lemma leb_ltb_trans (a b c : number) :
  leb a b = true -> ltb b c = true -> ltb a c = true.
Proof.
  unfold leb, ltb, SFleb, SFltb.
  destruct (SFcompare a b) as [[ | | ]|] eqn:X; try discriminate;
    destruct (SFcompare b c) as [[ | | ]|] eqn:Y; try discriminate;
    intros _ _.
  - rewrite (SFcompare_trans a b c Eq Lt X Y); congruence.
  - rewrite (SFcompare_trans a b c Lt Lt X Y); congruence.
Qed.

Lemma ltb_leb_trans (a b c : number) :
  ltb a b = true -> leb b c = true -> ltb a c = true.
Proof.
  unfold leb, ltb, SFleb, SFltb.
  destruct (SFcompare a b) as [[ | | ]|] eqn:X; try discriminate;
    destruct (SFcompare b c) as [[ | | ]|] eqn:Y; try discriminate;
    intros _ _.
  - rewrite (SFcompare_trans a b c Lt Eq X Y); congruence.
  - rewrite (SFcompare_trans a b c Lt Lt X Y); congruence.
Qed.

(** A comparison that holds has no [NaN] on either side. *)
Lemma ltb_not_nan (a b : number) :
  ltb a b = true -> isNaN a = false /\ isNaN b = false.
Proof.
  unfold ltb, SFltb. destruct a, b; simpl; try discriminate; auto.
Qed.

Lemma leb_not_nan (a b : number) :
  leb a b = true -> isNaN a = false /\ isNaN b = false.
Proof.
  unfold leb, SFleb. destruct a, b; simpl; try discriminate; auto.
Qed.

(** Two numbers are always comparable. *)
Lemma not_ltb_leb (a b : number) :
  isNaN a = false -> isNaN b = false -> ltb a b = false -> leb b a = true.
Proof.
  unfold ltb, leb, SFltb, SFleb. intros Na Nb.
  destruct (SFcompare a b) as [[ | | ]|] eqn:X; try discriminate; intros _.
  - apply JsFacts.SFcompare_swap in X. rewrite X. reflexivity.
  - apply JsFacts.SFcompare_swap in X. rewrite X. reflexivity.
  - destruct (JsFacts.compare_none _ _ X) as [-> | ->]; discriminate.
Qed.

Lemma ltb_asym (a b : number) : ltb a b = true -> ltb b a = false.
Proof. intros H. apply JsFacts.leb_not_ltb, JsFacts.leb_of_ltb, H. Qed.

(** Every comparison with [NaN] is false. *)
Lemma ltb_nan_l (b : number) : ltb NaN b = false.
Proof. reflexivity. Qed.

Lemma ltb_nan_r (a : number) : ltb a NaN = false.
Proof. destruct a; reflexivity. Qed.

Lemma leb_nan_l (b : number) : leb NaN b = false.
Proof. reflexivity. Qed.

Lemma leb_nan_r (a : number) : leb a NaN = false.
Proof. destruct a; reflexivity. Qed.

End OrderFacts.

(** ** Editing one parameter *)

Lemma key_eqb_eq (a b : SimulationParamsKey) : key_eqb a b = true <-> a = b.
Proof. destruct a, b; vm_compute; split; congruence. Qed.

Lemma key_eqb_refl (a : SimulationParamsKey) : key_eqb a a = true.
Proof. apply key_eqb_eq. reflexivity. Qed.

Lemma key_eqb_neq (a b : SimulationParamsKey) : a <> b -> key_eqb a b = false.
Proof.
  intros H. destruct (key_eqb a b) eqn:E; [|reflexivity].
  apply key_eqb_eq in E. contradiction.
Qed.

Lemma get_set_same (key : SimulationParamsKey) (value : Js.number)
    (p : SimulationParams) :
  get_field key (set_field key value p) = value.
Proof. destruct key; reflexivity. Qed.

Lemma get_set_other (key k : SimulationParamsKey) (value : Js.number)
    (p : SimulationParams) :
  k <> key -> get_field k (set_field key value p) = get_field k p.
Proof.
  intros H. destruct key, k; try reflexivity; contradiction H; reflexivity.
Qed.

(** Two parameter objects with the same fields are the same object. *)
Lemma params_ext (p q : SimulationParams) :
  (forall k, get_field k p = get_field k q) -> p = q.
Proof.
  intros H. destruct p, q.
  pose proof (H K_rpm). pose proof (H K_torque). pose proof (H K_loadWeight).
  pose proof (H K_motorTemp). pose proof (H K_windingTemp).
  pose proof (H K_bearingTemp). pose proof (H K_ambientTemp).
  pose proof (H K_vibrationX). pose proof (H K_vibrationY).
  pose proof (H K_vibrationZ). pose proof (H K_voltage). pose proof (H K_current).
  pose proof (H K_powerConsumption). pose proof (H K_powerFactor).
  pose proof (H K_harmonicDistortion). pose proof (H K_efficiency).
  pose proof (H K_insulationResistance). pose proof (H K_operatingHours).
  pose proof (H K_startStopCycles). pose proof (H K_wearLevel).
  pose proof (H K_bearingWear). pose proof (H K_humidity).
  clear H. cbn in *.
  subst. reflexivity.
Qed.

(** X1.  [updateNumber] is an update of one field: the edited field reads
    back the value given, every other field and every other part of the
    state is as before, and no request is issued.  Of two edits of the same
    field the later one wins; edits of different fields can be made in either
    order; the field names are those of [SimulationParams], in its order. *)
Theorem updateNumber_lookup (key : SimulationParamsKey) (value : Js.number)
    (mc : Machine) :
  let mc' := snd (updateNumber key value mc) in
  fst (updateNumber key value mc) = Returned tt
  /\ get_field key (params (ui mc')) = value
  /\ (forall k, k <> key ->
        get_field k (params (ui mc')) = get_field k (params (ui mc)))
  /\ with_params (fun _ => defaultParams) (ui mc')
     = with_params (fun _ => defaultParams) (ui mc)
  /\ sent mc' = sent mc /\ unhandled mc' = unhandled mc
  /\ (forall value',
        params (ui (snd (updateNumber key value' mc')))
        = params (ui (snd (updateNumber key value' mc))))
  /\ (forall key' value', key' <> key ->
        params (ui (snd (updateNumber key' value' mc')))
        = params (ui (snd (updateNumber key value
                             (snd (updateNumber key' value' mc))))))
  /\ SimulationParams_fields
     = map (fun k => (key_name k, get_field k)) SimulationParams_keys.
Proof.
  cbv zeta. unfold updateNumber, setState. cbn [fst snd ui sent unhandled].
  unfold with_params. cbn [params].
  split; [reflexivity|].
  split; [apply get_set_same|].
  split; [intros k H; apply get_set_other; exact H|].
  split; [reflexivity|]. split; [reflexivity|]. split; [reflexivity|].
  split; [|split].
  - intros value'. apply params_ext. intros k.
    destruct (key_eqb k key) eqn:E.
    + apply key_eqb_eq in E. subst k. rewrite !get_set_same. reflexivity.
    + assert (N : k <> key).
      { intros ->. rewrite key_eqb_refl in E. discriminate. }
      rewrite !get_set_other by exact N. reflexivity.
  - intros key' value' N. apply params_ext. intros k.
    destruct (key_eqb k key) eqn:E; [|destruct (key_eqb k key') eqn:E'].
    + apply key_eqb_eq in E. subst k.
      rewrite get_set_other by (intros ->; apply N; reflexivity).
      rewrite !get_set_same. reflexivity.
    + apply key_eqb_eq in E'. subst k.
      rewrite get_set_same.
      rewrite get_set_other by (intros ->; apply N; reflexivity).
      rewrite get_set_same. reflexivity.
    + assert (N1 : k <> key).
      { intros ->. rewrite key_eqb_refl in E. discriminate. }
      assert (N2 : k <> key').
      { intros ->. rewrite key_eqb_refl in E'. discriminate. }
      rewrite !get_set_other by assumption. reflexivity.
  - reflexivity.
Qed.

(** ** The fields behind the derived metrics *)

Lemma derived_agree (p q : SimulationParams) :
  (forall k, In k derived_reads -> get_field k p = get_field k q) ->
  derived p = derived q.
Proof.
  intros H.
  assert (E : forall k, reads k = true -> get_field k p = get_field k q).
  { intros k R. apply H. unfold reads in R.
    apply existsb_exists in R. destruct R as [k' [I R]].
    apply key_eqb_eq in R. subst k'. exact I. }
  pose proof (E K_rpm eq_refl) as E1. pose proof (E K_torque eq_refl) as E2.
  pose proof (E K_loadWeight eq_refl) as E3.
  pose proof (E K_motorTemp eq_refl) as E4.
  pose proof (E K_bearingTemp eq_refl) as E5.
  pose proof (E K_ambientTemp eq_refl) as E6.
  pose proof (E K_vibrationX eq_refl) as E7.
  pose proof (E K_vibrationY eq_refl) as E8.
  pose proof (E K_vibrationZ eq_refl) as E9.
  pose proof (E K_powerFactor eq_refl) as E10.
  pose proof (E K_operatingHours eq_refl) as E11.
  pose proof (E K_wearLevel eq_refl) as E12.
  pose proof (E K_bearingWear eq_refl) as E13.
  cbn [get_field] in *.
  unfold derived. cbv zeta.
  rewrite E1, E2, E3, E4, E5, E6, E7, E8, E9, E10, E11, E12, E13.
  reflexivity.
Qed.

(** X2.  The derived metrics read thirteen fields of the parameters and no
    other: two parameter objects that agree on them have the same derived
    metrics, so an edit of any of the nine other fields ([windingTemp],
    [voltage], [current], [powerConsumption], [harmonicDistortion],
    [efficiency], [insulationResistance], [startStopCycles], [humidity])
    changes no derived metric; and each of the thirteen matters: setting it
    to 1000 in the default parameters changes some derived metric. *)
Theorem derived_reads_exact :
  (forall p q,
      (forall k, In k derived_reads -> get_field k p = get_field k q) ->
      derived p = derived q)
  /\ (forall key value p,
        reads key = false -> derived (set_field key value p) = derived p)
  /\ filter (fun k => negb (reads k)) SimulationParams_keys
     = [K_windingTemp; K_voltage; K_current; K_powerConsumption;
        K_harmonicDistortion; K_efficiency; K_insulationResistance;
        K_startStopCycles; K_humidity]
  /\ forallb (fun k =>
                negb (same_derived
                        (derived (set_field k (Js.of_Z 1000) defaultParams))
                        (derived defaultParams)))
             derived_reads = true.
Proof.
  split; [exact derived_agree|]. split; [|split].
  - intros key value p R. apply derived_agree. intros k I.
    apply get_set_other. intros ->.
    assert (reads key = true).
    { unfold reads. apply existsb_exists. exists key.
      split; [exact I|apply key_eqb_refl]. }
    congruence.
  - vm_compute. reflexivity.
  - vm_compute. reflexivity.
Qed.

(** ** Parameters mapped from a sample *)

(** X3.  The object literal of [mapSampleToParams] assigns all 22 fields, so
    nothing of the previous parameters survives the spread: the result is
    the same whatever the previous parameters were.  Twelve fields are
    rounded and hold an integral value (or [NaN] or an infinity, which
    [Math.round] lets through); the three vibration axes and the seven
    electrical fields are the sample's, unchanged. *)
Theorem mapSampleToParams_overwrites (sample : TelemetrySample)
    (previous : SimulationParams) :
  object_literal previous (mapSampleToParams_entries sample)
  = mapSampleToParams sample previous
  /\ Permutation (map fst (mapSampleToParams_entries sample)) SimulationParams_keys
  /\ (forall other,
        object_literal other (mapSampleToParams_entries sample)
        = object_literal previous (mapSampleToParams_entries sample))
  /\ Forall (fun k =>
               Js.integral (get_field k (mapSampleToParams sample previous)) = true)
            [ K_rpm; K_torque; K_loadWeight; K_motorTemp; K_windingTemp;
              K_bearingTemp; K_ambientTemp; K_operatingHours;
              K_startStopCycles; K_wearLevel; K_bearingWear; K_humidity ]
  /\ map (fun k => get_field k (mapSampleToParams sample previous))
         [ K_vibrationX; K_vibrationY; K_vibrationZ; K_voltage; K_current;
           K_powerConsumption; K_powerFactor; K_harmonicDistortion;
           K_efficiency; K_insulationResistance ]
     = [ s_vibrationX sample; s_vibrationY sample; s_vibrationZ sample;
         s_voltage sample; s_current sample; s_powerConsumption sample;
         s_powerFactor sample; s_harmonicDistortion sample;
         s_efficiency sample; s_insulationResistance sample ].
Proof.
  assert (L : forall p, object_literal p (mapSampleToParams_entries sample)
                        = mapSampleToParams sample p).
  { intros p. apply params_ext. intros k.
    unfold object_literal, mapSampleToParams_entries.
    cbn [fold_left fst snd].
    destruct k;
      repeat first [ rewrite get_set_same; reflexivity
                   | rewrite get_set_other by discriminate ]. }
  split; [apply L|]. split; [|split; [|split]].
  - apply NoDup_Permutation.
    + repeat constructor; cbn; intuition discriminate.
    + repeat constructor; cbn; intuition discriminate.
    + intros k. split; intros _; destruct k; cbn; tauto.
  - intros other. rewrite !L. reflexivity.
  - repeat constructor; apply RoundFacts.Math_round_integral.
  - reflexivity.
Qed.

(** ** The load percentage *)

Lemma clamp_choice (v lo hi : Js.number) :
  clamp v lo hi = v \/ clamp v lo hi = lo \/ clamp v lo hi = hi
  \/ clamp v lo hi = Js.NaN.
Proof.
  unfold clamp, Js.Math_min, Js.Math_max.
  destruct (SFcompare lo v) as [[ | | ]|];
    try (destruct lo as [[|]| | |]);
    match goal with
    | |- context [SFcompare hi ?w] =>
        destruct (SFcompare hi w) as [[ | | ]|];
          try (destruct hi as [[|]| | |]); auto
    end.
Qed.

(** X4.  The load percentage [clamp(Math.round(loadWeight), 0, 100)] is
    [NaN] exactly when [loadWeight] is; otherwise it is an integral number
    between 0 and 100, both included. *)
Theorem derived_load_percent (p : SimulationParams) :
  let l := loadPercent (derived p) in
  Js.isNaN l = Js.isNaN (loadWeight p)
  /\ (Js.isNaN (loadWeight p) = false ->
      Js.leb (Js.of_Z 0) l = true /\ Js.leb l (Js.of_Z 100) = true)
  /\ Js.integral l = true
  /\ Js.ltb l (Js.of_Z 0) = false /\ Js.ltb (Js.of_Z 100) l = false.
Proof.
  cbv zeta. unfold derived. cbv zeta. cbn [loadPercent].
  set (v := Js.Math_round (loadWeight p)).
  assert (Nv : Js.isNaN v = Js.isNaN (loadWeight p))
    by apply RoundFacts.Math_round_isNaN.
  assert (B : (v = Js.NaN /\ clamp v (Js.of_Z 0) (Js.of_Z 100) = Js.NaN) \/
              (v <> Js.NaN /\ clamp v (Js.of_Z 0) (Js.of_Z 100) <> Js.NaN /\
               Js.leb (Js.of_Z 0) (clamp v (Js.of_Z 0) (Js.of_Z 100)) = true /\
               Js.leb (clamp v (Js.of_Z 0) (Js.of_Z 100)) (Js.of_Z 100) = true)).
  { apply clamp_bounds; try (vm_compute; congruence); vm_compute; reflexivity. }
  assert (I : Js.integral (clamp v (Js.of_Z 0) (Js.of_Z 100)) = true).
  { destruct (clamp_choice v (Js.of_Z 0) (Js.of_Z 100)) as [E|[E|[E|E]]];
      rewrite E.
    - apply RoundFacts.Math_round_integral.
    - vm_compute. reflexivity.
    - vm_compute. reflexivity.
    - reflexivity. }
  destruct B as [[Ev Ec]|(Ev & Ec & Lo & Hi)].
  - rewrite Ec. rewrite <- Nv, Ev.
    split; [reflexivity|]. split; [discriminate|]. split; [reflexivity|].
    split; [reflexivity|]. vm_compute. reflexivity.
  - apply JsFacts.isNaN_false in Ev. apply JsFacts.isNaN_false in Ec.
    rewrite <- Nv, Ev, Ec.
    split; [reflexivity|]. split; [auto|]. split; [exact I|].
    split; apply JsFacts.leb_not_ltb; assumption.
Qed.

(** ** Whole numbers *)

Lemma Math_max_choice (a b : Js.number) :
  Js.Math_max a b = a \/ Js.Math_max a b = b \/ Js.Math_max a b = Js.NaN.
Proof.
  unfold Js.Math_max.
  destruct (SFcompare a b) as [[ | | ]|]; auto.
  destruct a as [[|]| | |]; auto.
Qed.

(** A number between two finite numbers is finite. *)
Lemma between_finite (lo hi r : Js.number) :
  Js.isFinite lo = true -> Js.isFinite hi = true ->
  Js.leb lo r = true -> Js.leb r hi = true -> Js.isFinite r = true.
Proof.
  unfold Js.leb, SFleb.
  destruct r as [s|[|]| |s m e]; try reflexivity;
    destruct lo as [?|?| |? ? ?], hi as [?|?| |? ? ?]; simpl;
    try discriminate; auto.
Qed.

(** X5.  The risk score, the temperature aggregate, the expected
    temperature and the remaining life are whole numbers: each of them is
    the result of [Math.round], or a bound that is a whole number.  The risk
    score is moreover finite unless it is [NaN]; the others can also be
    infinite, since [Math.round] lets the infinities through. *)
Theorem derived_whole_numbers (p : SimulationParams) :
  let d := derived p in
  Js.integral (riskScore d) = true
  /\ (Js.isNaN (riskScore d) = false -> Js.isFinite (riskScore d) = true)
  /\ Js.integral (temperature d) = true
  /\ Js.integral (expectedTemp d) = true
  /\ Js.integral (remainingLife d) = true.
Proof.
  cbv zeta.
  assert (R : Js.integral (riskScore (derived p)) = true).
  { rewrite DerivedFacts.riskScore_formula. unfold Formula.risk.
    destruct (clamp_choice (Js.Math_round (Formula.weightedSum p))
                (Js.of_Z 0) (Js.of_Z 100)) as [E|[E|[E|E]]]; rewrite E.
    - apply RoundFacts.Math_round_integral.
    - vm_compute. reflexivity.
    - vm_compute. reflexivity.
    - reflexivity. }
  split; [exact R|]. split; [|split; [|split]].
  - intros N.
    destruct (DerivedFacts.risk_clamped p) as [[_ E]|(_ & _ & Lo & Hi)].
    + rewrite E in N. discriminate N.
    + apply (between_finite (Js.of_Z 0) (Js.of_Z 100)); auto.
  - apply RoundFacts.Math_round_integral.
  - apply RoundFacts.Math_round_integral.
  - unfold derived. cbv zeta. cbn [remainingLife].
    match goal with
    | |- Js.integral (Js.Math_max ?a ?b) = true =>
        destruct (Math_max_choice a b) as [E|[E|E]]; rewrite E
    end.
    + vm_compute. reflexivity.
    + apply RoundFacts.Math_round_integral.
    + reflexivity.
Qed.

(** ** The simulation view: what it shows and what its handlers write *)

Section ViewFacts.

Variable ToNumber : json -> Js.number.
Variable env : Env.
Variable machinesData : list MachineData.
Variable selectedMachineId : string.

(** One step of symbolic execution of a handler of the view. *)
Ltac vstep :=
  cbv beta iota zeta delta
    [bind fetch issue ret throw await setState getState void_fetch
     try_catch finally];
  cbn [ui sent unhandled fst snd negb].

(** What a run of [fetchTelemetry] leaves alone. *)
Lemma fetchTelemetry_frame (w : PollWorld) (mc : Machine) :
  outside_poll (ui (snd (fetchTelemetry ToNumber env w mc)))
  = outside_poll (ui mc).
Proof.
  unfold fetchTelemetry, fetchTelemetry_try, fetchTelemetry_catch,
    predictAndDispatch.
  vstep.
  destruct (telemetry w) as [e|r]; vstep.
  { destruct (active_in_catch w); reflexivity. }
  destruct (ok r); vstep.
  2:{ destruct (active_in_catch w); reflexivity. }
  destruct (res_json r) as [pl|e]; vstep.
  2:{ destruct (active_in_catch w); reflexivity. }
  destruct (getLatestSample pl) as [latest|]; vstep.
  2:{ destruct (active_in_catch w); reflexivity. }
  destruct (active_after_fetch w); vstep.
  2:{ reflexivity. }
  destruct (50 <=? _)%nat; vstep.
  2:{ reflexivity. }
  destruct (predict w) as [e|pr]; vstep.
  { destruct (active_in_catch w); reflexivity. }
  destruct (ok pr); vstep.
  2:{ destruct (active_in_catch w); reflexivity. }
  destruct (res_json pr) as [j|e]; vstep.
  2:{ destruct (active_in_catch w); reflexivity. }
  destruct (nextFailure_of ToNumber j) as [nf|e]; vstep.
  2:{ destruct (active_in_catch w); reflexivity. }
  destruct (Js.geb nf (failureThreshold ToNumber env)); vstep;
    destruct (dispatch w); reflexivity.
Qed.

(** What a run of [handleSendToFriend] leaves alone, and how it ends. *)
Lemma handleSendToFriend_frame (w : SendWorld) (mc : Machine) :
  let out := handleSendToFriend machinesData selectedMachineId w mc in
  fst out = Returned tt
  /\ outside_send (ui (snd out)) = outside_send (ui mc)
  /\ isPredicting (ui (snd out)) = false
  /\ unhandled (snd out) = unhandled mc
  /\ exists s, predictionStatus (ui (snd out)) = Some s /\ truthy s = true.
Proof.
  cbv zeta.
  unfold handleSendToFriend, handleSendToFriend_try, handleSendToFriend_catch.
  vstep.
  destruct (send_answer w) as [e|r]; vstep.
  { repeat split; eexists; split; reflexivity. }
  destruct (ok r); vstep.
  - destruct (res_json r); vstep; repeat split; eexists; split; reflexivity.
  - destruct (res_text r); vstep; repeat split; eexists; split; reflexivity.
Qed.

(** X6.  [runSimulation] raises the simulating flag and asks for one
    timeout of 1600 ms.  The callback of that timeout carries the derived
    metrics of the render in which the button was pressed: whatever happens
    to the view before the timeout fires (edits, polls, requests, resets),
    the result it stores is the one computed from the parameters at the time
    of the click, the simulating flag is lowered, and nothing else is
    written.  So the stored result can be out of date: when the torque is
    set to 670 between the click and the timeout, the result stored reports
    the risk 37 of the default parameters while the risk of the parameters
    then shown is 70. *)
Theorem runSimulation_snapshot (mc : Machine) (evs : list view_event) :
  let d := derived (params (ui mc)) in
  let mc1 := {| ui := with_isSimulating true (ui mc);
                sent := sent mc; unhandled := unhandled mc |} in
  runSimulation mc = (Returned (Timer (simulationTimeout d) (Js.of_Z 1600)), mc1)
  /\ let later := view_run ToNumber env machinesData selectedMachineId evs mc1 in
     let mc2 := snd (simulationTimeout d later) in
     fst (simulationTimeout d later) = Returned tt
     /\ result (ui mc2) = Some (JObj (simulationResult d))
     /\ isSimulating (ui mc2) = false
     /\ outside_simulation (ui mc2) = outside_simulation (ui later)
     /\ sent mc2 = sent later /\ unhandled mc2 = unhandled later
     /\ map fst (simulationResult d)
        = [ "predictedFailureRisk"; "expectedTemperature"; "expectedVibration";
            "productionImpact"; "remainingLife" ]%string
     /\ property (simulationResult d) "predictedFailureRisk"
        = Some (JNum (riskScore d))
     /\ property (simulationResult d) "remainingLife"
        = Some (JNum (remainingLife d))
     /\ (let clicked := snd (runSimulation initialMachine) in
         let edited := snd (updateNumber K_torque (Js.of_Z 670) clicked) in
         let fired := snd (simulationTimeout (derived defaultParams) edited) in
         optional_property (result (ui fired)) "predictedFailureRisk"
         = Some (JNum (Js.of_Z 37))
         /\ riskScore (derived (params (ui fired))) = Js.of_Z 70).
Proof.
  cbv zeta. split; [reflexivity|].
  repeat (split; [reflexivity|]).
  split; vm_compute; reflexivity.
Qed.

(** X7.  The production impact that the simulation reports is [high]
    exactly when the risk score exceeds 70, [medium] exactly when it exceeds
    40 without exceeding 70, and [low] otherwise: when the score is at most
    40, and also when it is [NaN]. *)
Theorem simulationResult_impact (d : Derived) :
  let impact := property (simulationResult d) "productionImpact" in
  (impact = Some (JStr "high") <-> Js.ltb (Js.of_Z 70) (riskScore d) = true)
  /\ (impact = Some (JStr "medium") <->
      Js.ltb (Js.of_Z 40) (riskScore d) = true
      /\ Js.leb (riskScore d) (Js.of_Z 70) = true)
  /\ (impact = Some (JStr "low") <->
      Js.leb (riskScore d) (Js.of_Z 40) = true \/ Js.isNaN (riskScore d) = true).
Proof.
  cbv zeta. unfold simulationResult.
  cbn [property String.eqb Ascii.eqb Bool.eqb].
  unfold Js.gtb. fold (Js.ltb (Js.of_Z 70) (riskScore d)).
  fold (Js.ltb (Js.of_Z 40) (riskScore d)).
  set (r := riskScore d).
  assert (T : Js.ltb (Js.of_Z 70) r = true -> Js.ltb (Js.of_Z 40) r = true).
  { intros H. apply OrderFacts.ltb_trans with (b := Js.of_Z 70); [|exact H].
    vm_compute. reflexivity. }
  destruct (Js.ltb (Js.of_Z 70) r) eqn:H70.
  - pose proof (T eq_refl) as H40.
    split; [split; auto|]. split; split.
    + discriminate.
    + intros [_ L]. apply JsFacts.leb_not_ltb in L. congruence.
    + discriminate.
    + intros [L|N].
      * apply JsFacts.leb_not_ltb in L. congruence.
      * apply OrderFacts.ltb_not_nan in H70. destruct H70. congruence.
  - destruct (Js.ltb (Js.of_Z 40) r) eqn:H40.
    + split; [split; discriminate|]. split; split.
      * intros _. split; [reflexivity|].
        apply OrderFacts.not_ltb_leb; [reflexivity| |exact H70].
        apply OrderFacts.ltb_not_nan in H40. tauto.
      * reflexivity.
      * discriminate.
      * intros [L|N].
        -- apply JsFacts.leb_not_ltb in L. congruence.
        -- apply OrderFacts.ltb_not_nan in H40. destruct H40. congruence.
    + split; [split; discriminate|]. split; split.
      * discriminate.
      * intros [L _]. discriminate.
      * intros _. destruct (Js.isNaN r) eqn:N; [right; reflexivity|].
        left. apply OrderFacts.not_ltb_leb; [reflexivity|exact N|exact H40].
      * reflexivity.
Qed.

(** X8.  A result stored by [runSimulation] is not displayed: it has none of
    the properties [failureProbability], [riskLevel] and [interpretation]
    that the view reads from the result, so the risk, the risk level and the
    interpretation shown are those shown without any result. *)
Theorem simulation_result_not_displayed (st : State) (d : Derived) :
  let st' := with_result (Some (JObj (simulationResult d))) st in
  predictedRiskPercentage ToNumber st' = None
  /\ predictedRiskLevel st' = None
  /\ predictedInterpretation st' = None
  /\ currentRisk ToNumber st' = currentRisk ToNumber (with_result None st)
  /\ currentRiskLevel ToNumber st' = currentRiskLevel ToNumber (with_result None st)
  /\ riskTileClass ToNumber st' = riskTileClass ToNumber (with_result None st).
Proof.
  cbv zeta.
  assert (P : predictedRiskPercentage ToNumber
                (with_result (Some (JObj (simulationResult d))) st) = None)
    by reflexivity.
  assert (L : predictedRiskLevel
                (with_result (Some (JObj (simulationResult d))) st) = None)
    by reflexivity.
  assert (C : currentRisk ToNumber
                (with_result (Some (JObj (simulationResult d))) st)
              = currentRisk ToNumber (with_result None st)).
  { unfold currentRisk. rewrite P. reflexivity. }
  split; [exact P|]. split; [exact L|]. split; [reflexivity|].
  split; [exact C|]. split.
  - unfold currentRiskLevel. rewrite L, C. reflexivity.
  - unfold riskTileClass. rewrite C. reflexivity.
Qed.

(** X9.  A result whose [failureProbability] is a value that counts as
    false (0, [-0], [NaN], [null], [false] or the empty string) is treated
    as a result without a failure probability: the risk shown is the one of
    the telemetry loop or of the derived metrics, while the result's risk
    level and interpretation are still shown.  A probability of 0 that
    comes from the telemetry loop, however, is shown as 0. *)
Theorem falsy_probability_not_displayed (st : State)
    (entries : list (string * json)) (v : json) :
  result st = Some (JObj entries) ->
  property entries "failureProbability" = Some v ->
  truthy_json (Some v) = false ->
  predictedRiskPercentage ToNumber st = None
  /\ currentRisk ToNumber st = currentRisk ToNumber (with_result None st)
  /\ predictedRiskLevel st = nullish_or (property entries "riskLevel") None
  /\ predictedInterpretation st
     = nullish_or (property entries "interpretation") None
  /\ (failureProbability st = Some (Js.of_Z 0) ->
      currentRisk ToNumber st = Js.of_Z 0)
  /\ truthy_json (Some (JNum (Js.of_Z 0))) = false.
Proof.
  intros R P F.
  assert (E : predictedRiskPercentage ToNumber st = None).
  { unfold predictedRiskPercentage. rewrite R. cbn [optional_property].
    rewrite P. cbv zeta. rewrite F. reflexivity. }
  split; [exact E|]. split; [|split; [|split; [|split]]].
  - unfold currentRisk. rewrite E. reflexivity.
  - unfold predictedRiskLevel. rewrite R. reflexivity.
  - unfold predictedInterpretation. rewrite R. reflexivity.
  - intros Z. unfold currentRisk, autoRisk. rewrite E, Z.
    vm_compute. reflexivity.
  - reflexivity.
Qed.

(** X10.  When the result names no risk level, the level shown is derived
    from the risk with the bounds 70 and 40 taken strictly, while the tile
    is styled with the bounds 40 and 70 taken the other way.  The two agree
    away from the bounds: a tile styled [stat-ok] shows [SAFE] and a
    [CRITICAL] level has a tile styled [stat-alert].  At a risk of exactly
    40 the tile is styled [stat-warn] and shows [SAFE]; at exactly 70 it is
    styled [stat-alert] and shows [WARNING]; a risk that is [NaN] is styled
    [stat-alert] and shows [SAFE]. *)
Theorem risk_tile_and_level (st : State) :
  predictedRiskLevel st = None ->
  (riskTileClass ToNumber st = "stat-ok"%string ->
   currentRiskLevel ToNumber st = JStr "SAFE")
  /\ (currentRiskLevel ToNumber st = JStr "CRITICAL" ->
      riskTileClass ToNumber st = "stat-alert"%string)
  /\ (currentRiskLevel ToNumber st = JStr "CRITICAL" <->
      riskTextClass ToNumber st = "text-red-500"%string)
  /\ (currentRisk ToNumber st = Js.of_Z 40 ->
      riskTileClass ToNumber st = "stat-warn"%string
      /\ currentRiskLevel ToNumber st = JStr "SAFE")
  /\ (currentRisk ToNumber st = Js.of_Z 70 ->
      riskTileClass ToNumber st = "stat-alert"%string
      /\ currentRiskLevel ToNumber st = JStr "WARNING")
  /\ (Js.isNaN (currentRisk ToNumber st) = true ->
      riskTileClass ToNumber st = "stat-alert"%string
      /\ currentRiskLevel ToNumber st = JStr "SAFE").
Proof.
  intros L. unfold currentRiskLevel, riskTileClass, riskTextClass.
  rewrite L. unfold Js.gtb.
  fold (Js.ltb (Js.of_Z 70) (currentRisk ToNumber st)).
  fold (Js.ltb (Js.of_Z 40) (currentRisk ToNumber st)).
  set (r := currentRisk ToNumber st).
  split; [|split; [|split; [|split; [|split]]]].
  - destruct (Js.ltb r (Js.of_Z 40)) eqn:A.
    + intros _.
      assert (B : Js.ltb (Js.of_Z 40) r = false)
        by (apply OrderFacts.ltb_asym; exact A).
      assert (C : Js.ltb (Js.of_Z 70) r = false).
      { destruct (Js.ltb (Js.of_Z 70) r) eqn:C; [|reflexivity].
        pose proof (OrderFacts.ltb_trans _ _ _ C A) as F.
        vm_compute in F. discriminate F. }
      rewrite B, C. reflexivity.
    + destruct (Js.ltb r (Js.of_Z 70)); discriminate.
  - destruct (Js.ltb (Js.of_Z 70) r) eqn:C.
    + intros _.
      assert (B : Js.ltb r (Js.of_Z 70) = false)
        by (apply OrderFacts.ltb_asym; exact C).
      assert (A : Js.ltb r (Js.of_Z 40) = false).
      { destruct (Js.ltb r (Js.of_Z 40)) eqn:A; [|reflexivity].
        pose proof (OrderFacts.ltb_trans _ _ _ C A) as F.
        vm_compute in F. discriminate F. }
      rewrite A, B. reflexivity.
    + destruct (Js.ltb (Js.of_Z 40) r); discriminate.
  - destruct (Js.ltb (Js.of_Z 70) r);
      [|destruct (Js.ltb (Js.of_Z 40) r)]; split; intros; try reflexivity;
      discriminate.
  - intros ->. vm_compute. split; reflexivity.
  - intros ->. vm_compute. split; reflexivity.
  - intros N. apply JsFacts.isNaN_true in N. rewrite N.
    split; reflexivity.
Qed.

(** *** What the handlers write *)

Lemma clearPredictionStatus_frame (mc : Machine) :
  with_predictionStatus None (ui (snd (clearPredictionStatus mc)))
  = with_predictionStatus None (ui mc).
Proof. reflexivity. Qed.

Lemma resetToDefault_frame (mc : Machine) :
  outside_reset (ui (snd (resetToDefault mc))) = outside_reset (ui mc).
Proof. reflexivity. Qed.

(** No handler of the view writes the auto mode. *)
Lemma view_handle_autoMode (mc : Machine) (ev : view_event) :
  autoMode (ui (view_handle ToNumber env machinesData selectedMachineId mc ev))
  = autoMode (ui mc).
Proof.
  destruct ev as [[w|w| |]|key value| |d|]; cbn [view_handle handle];
    try reflexivity.
  - change (autoMode (outside_poll (ui (snd (fetchTelemetry ToNumber env w mc))))
            = autoMode (outside_poll (ui mc))).
    rewrite fetchTelemetry_frame. reflexivity.
  - destruct (handleSendToFriend_frame w mc) as (_ & F & _).
    change (autoMode (outside_send
                        (ui (snd (handleSendToFriend machinesData
                                    selectedMachineId w mc))))
            = autoMode (outside_send (ui mc))).
    rewrite F. reflexivity.
Qed.

(** X11.  What each handler may write.  A poll leaves the result, the
    status, the busy flag and the flags of the view alone; a manual request
    writes nothing but the result, the status and the busy flag; clearing
    the status writes the status only; a reset restores the parameters, the
    result, the failure probability and the buffer, and leaves the last
    update, the status and the busy flag as they are.  No handler of the
    view, in any event, writes the auto mode or the partner URL. *)
Theorem handlers_write_sets (mc : Machine) :
  (forall w,
      outside_poll (ui (snd (fetchTelemetry ToNumber env w mc)))
      = outside_poll (ui mc))
  /\ (forall w,
        outside_send
          (ui (snd (handleSendToFriend machinesData selectedMachineId w mc)))
        = outside_send (ui mc))
  /\ with_predictionStatus None (ui (snd (clearPredictionStatus mc)))
     = with_predictionStatus None (ui mc)
  /\ (outside_reset (ui (snd (resetToDefault mc))) = outside_reset (ui mc)
      /\ params (ui (snd (resetToDefault mc))) = defaultParams
      /\ result (ui (snd (resetToDefault mc))) = None
      /\ failureProbability (ui (snd (resetToDefault mc))) = None
      /\ telemetryBuffer (ui (snd (resetToDefault mc))) = []
      /\ sent (snd (resetToDefault mc)) = sent mc)
  /\ (forall ev,
        let mc' := view_handle ToNumber env machinesData selectedMachineId mc ev in
        autoMode (ui mc') = autoMode (ui mc)
        /\ friendUrl (ui mc') = friendUrl (ui mc)).
Proof.
  split; [intros w; apply fetchTelemetry_frame|].
  split; [intros w; apply handleSendToFriend_frame|].
  split; [reflexivity|].
  split; [repeat split; reflexivity|].
  intros ev. cbv zeta. split; [apply view_handle_autoMode|].
  destruct ev as [[w|w| |]|key value| |d|]; cbn [view_handle handle];
    try reflexivity.
  - change (friendUrl (outside_poll (ui (snd (fetchTelemetry ToNumber env w mc))))
            = friendUrl (outside_poll (ui mc))).
    rewrite fetchTelemetry_frame. reflexivity.
  - destruct (handleSendToFriend_frame w mc) as (_ & F & _).
    change (friendUrl (outside_send
                         (ui (snd (handleSendToFriend machinesData
                                     selectedMachineId w mc))))
            = friendUrl (outside_send (ui mc))).
    rewrite F. reflexivity.
Qed.

(** *** The view as it is mounted *)

Lemma view_run_autoMode (evs : list view_event) (mc : Machine) :
  autoMode (ui (view_run ToNumber env machinesData selectedMachineId evs mc))
  = autoMode (ui mc).
Proof.
  revert mc. unfold view_run.
  induction evs as [|ev evs IH]; intros mc; cbn [fold_left]; [reflexivity|].
  rewrite IH. apply view_handle_autoMode.
Qed.

(** The state of a view that has never polled. *)
Lemma view_handle_quiet (mc : Machine) (ev : view_event) :
  is_poll ev = false ->
  (failureProbability (ui mc) = None /\ lastUpdate (ui mc) = None
   /\ telemetryBuffer (ui mc) = []
   /\ Forall (fun r => req_url r = "/api/send_critical_data"%string) (sent mc)
   /\ unhandled mc = []) ->
  let mc' := view_handle ToNumber env machinesData selectedMachineId mc ev in
  failureProbability (ui mc') = None /\ lastUpdate (ui mc') = None
  /\ telemetryBuffer (ui mc') = []
  /\ Forall (fun r => req_url r = "/api/send_critical_data"%string) (sent mc')
  /\ unhandled mc' = [].
Proof.
  intros P (F & L & B & S & U). cbv zeta.
  destruct ev as [[w|w| |]|key value| |d|]; cbn [view_handle handle];
    try discriminate P;
    try (repeat split; assumption).
  - destruct (handleSendToFriend_frame w mc) as (_ & Fr & _ & Un & _).
    set (mc' := snd (handleSendToFriend machinesData selectedMachineId w mc))
      in *.
    assert (E1 : failureProbability (ui mc') = failureProbability (ui mc))
      by exact (f_equal failureProbability Fr).
    assert (E2 : lastUpdate (ui mc') = lastUpdate (ui mc))
      by exact (f_equal lastUpdate Fr).
    assert (E3 : telemetryBuffer (ui mc') = telemetryBuffer (ui mc))
      by exact (f_equal telemetryBuffer Fr).
    subst mc'.
    rewrite E1, E2, E3, Un, handleSendToFriend_sent.
    repeat split; try assumption.
    apply Forall_app. split; [exact S|].
    constructor; [reflexivity|constructor].
Qed.

(** X12.  Auto mode is off when the view is mounted and no handler turns it
    on: after any sequence of events the polling effect registers nothing
    and the status label reads [MANUAL].  Since polls are started by that
    effect only, the mounted view never polls; then the failure
    probability, the last update and the buffer stay unset, and every
    request the view has issued went to [/api/send_critical_data]. *)
Theorem auto_mode_never_enabled (evs : list view_event) :
  let mc := view_run ToNumber env machinesData selectedMachineId evs
              initialMachine in
  autoMode (ui mc) = false
  /\ telemetryEffect ToNumber env (ui mc) = []
  /\ statusLabel ToNumber env (ui mc) = "MANUAL"%string
  /\ (forallb (fun ev => negb (is_poll ev)) evs = true ->
      failureProbability (ui mc) = None /\ lastUpdate (ui mc) = None
      /\ telemetryBuffer (ui mc) = []
      /\ Forall (fun r => req_url r = "/api/send_critical_data"%string) (sent mc)
      /\ unhandled mc = []).
Proof.
  cbv zeta.
  assert (A : autoMode (ui (view_run ToNumber env machinesData selectedMachineId
                              evs initialMachine)) = false).
  { rewrite view_run_autoMode. reflexivity. }
  split; [exact A|].
  split; [unfold telemetryEffect; rewrite A; reflexivity|].
  split; [unfold statusLabel; rewrite A; reflexivity|].
  assert (G : forall mc,
             forallb (fun ev => negb (is_poll ev)) evs = true ->
             (failureProbability (ui mc) = None /\ lastUpdate (ui mc) = None
              /\ telemetryBuffer (ui mc) = []
              /\ Forall (fun r => req_url r = "/api/send_critical_data"%string)
                        (sent mc)
              /\ unhandled mc = []) ->
             let mc' := view_run ToNumber env machinesData selectedMachineId
                          evs mc in
             failureProbability (ui mc') = None /\ lastUpdate (ui mc') = None
             /\ telemetryBuffer (ui mc') = []
             /\ Forall (fun r => req_url r = "/api/send_critical_data"%string)
                       (sent mc')
             /\ unhandled mc' = []).
  { clear A. unfold view_run.
    induction evs as [|ev evs IH]; intros mc Q I; cbn [fold_left]; [exact I|].
    cbn [forallb] in Q. apply andb_true_iff in Q. destruct Q as [Q1 Q2].
    apply negb_true_iff in Q1.
    apply IH; [exact Q2|].
    apply view_handle_quiet; assumption. }
  intros Q. apply G; [exact Q|].
  repeat split; try reflexivity. constructor.
Qed.

(** *** The manual prediction request *)

(** X13.  A manual request that is answered with an OK response whose body
    parses stores the parsed body as result, sets the status to
    [Prediction received!], for which the status effect registers its
    timeout of 3000 ms, and lowers the busy flag; one request has been
    issued and everything else is as before.  The body text of the
    response is not read. *)
Theorem send_success (w : SendWorld) (mc : Machine) (r : Response json)
    (data : json) :
  send_answer w = Responded r -> ok r = true -> res_json r = Returned data ->
  let out := handleSendToFriend machinesData selectedMachineId w mc in
  out = (Returned tt,
         {| ui := with_isPredicting false
                    (with_predictionStatus (Some "Prediction received!"%string)
                       (with_result (Some data) (ui mc)));
            sent := sent mc ++ [sendRequest machinesData selectedMachineId
                                  (params (ui mc)) (send_now w)];
            unhandled := unhandled mc |})
  /\ result (ui (snd out)) = Some data
  /\ predictionStatusEffect (ui (snd out))
     = [SetTimeout ClearPredictionStatus (Js.of_Z 3000)].
Proof.
  intros A O J. cbv zeta.
  assert (E : handleSendToFriend machinesData selectedMachineId w mc
              = (Returned tt,
                 {| ui := with_isPredicting false
                            (with_predictionStatus
                               (Some "Prediction received!"%string)
                               (with_result (Some data) (ui mc)));
                    sent := sent mc ++ [sendRequest machinesData selectedMachineId
                                          (params (ui mc)) (send_now w)];
                    unhandled := unhandled mc |})).
  { unfold handleSendToFriend, handleSendToFriend_try, handleSendToFriend_catch.
    vstep. rewrite A. vstep. rewrite O. vstep. rewrite J. vstep.
    reflexivity. }
  rewrite E. split; [reflexivity|]. split; reflexivity.
Qed.

(** X14.  Every manual request completes: the handler never throws, the
    busy flag is off when it ends, exactly one request has been issued, no
    rejection is left unobserved, and the status it leaves is never empty,
    so that the status effect always registers its timeout of 3000 ms. *)
Theorem send_always_completes (w : SendWorld) (mc : Machine) :
  let out := handleSendToFriend machinesData selectedMachineId w mc in
  fst out = Returned tt
  /\ isPredicting (ui (snd out)) = false
  /\ (exists s, predictionStatus (ui (snd out)) = Some s /\ truthy s = true)
  /\ predictionStatusEffect (ui (snd out))
     = [SetTimeout ClearPredictionStatus (Js.of_Z 3000)]
  /\ sent (snd out)
     = sent mc ++ [sendRequest machinesData selectedMachineId
                     (params (ui mc)) (send_now w)]
  /\ unhandled (snd out) = unhandled mc.
Proof.
  cbv zeta.
  destruct (handleSendToFriend_frame w mc) as (R & _ & B & U & s & S & T).
  split; [exact R|]. split; [exact B|].
  split; [exists s; split; assumption|].
  split; [unfold predictionStatusEffect; rewrite S, T; reflexivity|].
  split; [apply handleSendToFriend_sent|exact U].
Qed.

(** X15.  The status that a failed manual request leaves.  When the fetch
    rejects, the status is [Error: ] followed by the message of the
    rejection.  When the response is not OK, it is [Error: ] followed by the
    body text of the response, or by [Failed to send] when that text is
    empty; when reading the text fails, the message of that failure is
    shown.  When the response is OK and its body does not parse, the
    message of the parse error is shown and the result is left as it
    was. *)
Theorem send_error_message (w : SendWorld) (mc : Machine) :
  let mc' := snd (handleSendToFriend machinesData selectedMachineId w mc) in
  (forall e, send_answer w = Rejected e ->
             predictionStatus (ui mc') = Some ("Error: " ++ message e)%string)
  /\ (forall r text,
        send_answer w = Responded r -> ok r = false ->
        res_text r = Returned text ->
        predictionStatus (ui mc')
        = Some ("Error: " ++ (if truthy text then text else "Failed to send"))%string)
  /\ (forall r e,
        send_answer w = Responded r -> ok r = false -> res_text r = Threw e ->
        predictionStatus (ui mc') = Some ("Error: " ++ message e)%string)
  /\ (forall r e,
        send_answer w = Responded r -> ok r = true -> res_json r = Threw e ->
        predictionStatus (ui mc') = Some ("Error: " ++ message e)%string
        /\ result (ui mc') = result (ui mc)).
Proof.
  cbv zeta.
  unfold handleSendToFriend, handleSendToFriend_try, handleSendToFriend_catch.
  vstep.
  split; [|split; [|split]].
  - intros e A. rewrite A. vstep. reflexivity.
  - intros r text A O T. rewrite A. vstep. rewrite O. vstep. rewrite T. vstep.
    reflexivity.
  - intros r e A O T. rewrite A. vstep. rewrite O. vstep. rewrite T. vstep.
    reflexivity.
  - intros r e A O J. rewrite A. vstep. rewrite O. vstep. rewrite J. vstep.
    split; reflexivity.
Qed.

(** *** Sequences of polls *)

Lemma accepted_sample_some (w : PollWorld) (s : TelemetrySample) :
  accepted_sample w = Some s ->
  exists r pl,
    telemetry w = Responded r /\ ok r = true /\ res_json r = Returned pl
    /\ getLatestSample pl = Some s /\ active_after_fetch w = true.
Proof.
  unfold accepted_sample.
  destruct (telemetry w) as [e|r]; [discriminate|].
  destruct (ok r) eqn:O; [|discriminate].
  destruct (res_json r) as [pl|e] eqn:J; [|discriminate].
  destruct (active_after_fetch w) eqn:A; [|discriminate].
  intros L. exists r, pl. repeat split; assumption.
Qed.

Lemma accepted_sample_none (w : PollWorld) :
  accepted_sample w = None ->
  forall r pl latest,
    telemetry w = Responded r -> ok r = true -> res_json r = Returned pl ->
    getLatestSample pl = Some latest -> active_after_fetch w = true -> False.
Proof.
  unfold accepted_sample. intros N r pl latest T O J L A.
  rewrite T, O, J, A, L in N. discriminate N.
Qed.

(** The buffer after one poll. *)
Lemma poll_buffer (w : PollWorld) (mc : Machine) :
  telemetryBuffer (ui (snd (fetchTelemetry ToNumber env w mc)))
  = match accepted_sample w with
    | Some s => push_sample s (telemetryBuffer (ui mc))
    | None => telemetryBuffer (ui mc)
    end.
Proof.
  destruct (accepted_sample w) as [s|] eqn:Acc.
  - destruct (accepted_sample_some w s Acc) as (r & pl & T & O & J & L & A).
    destruct (fetchTelemetry_accepted ToNumber env w mc r pl s T O J L A)
      as [[_ E]|[[_ [e E]]|[_ [nf E]]]].
    + rewrite (fetchTelemetry_returned _ _ _ _ _ E). reflexivity.
    + rewrite (fetchTelemetry_caught _ _ _ _ _ _ E).
      unfold handled. destruct (active_in_catch w); reflexivity.
    + rewrite (fetchTelemetry_returned _ _ _ _ _ E). reflexivity.
  - destruct (fetchTelemetry_try_not_accepted ToNumber env w mc
                (accepted_sample_none w Acc)) as [o E].
    destruct o as [[]|e].
    + rewrite (fetchTelemetry_returned _ _ _ _ _ E). reflexivity.
    + rewrite (fetchTelemetry_caught _ _ _ _ _ _ E).
      unfold handled. destruct (active_in_catch w); reflexivity.
Qed.

(** A poll that leaves fewer than 50 samples in the buffer issues the
    telemetry request and no other. *)
Lemma poll_short (w : PollWorld) (mc : Machine) :
  match accepted_sample w with
  | Some s => (List.length (push_sample s (telemetryBuffer (ui mc))) < 50)%nat
  | None => True
  end ->
  let mc' := snd (fetchTelemetry ToNumber env w mc) in
  sent mc' = sent mc ++ [telemetryRequest env]
  /\ failureProbability (ui mc') = failureProbability (ui mc)
  /\ unhandled mc' = unhandled mc.
Proof.
  cbv zeta. destruct (accepted_sample w) as [s|] eqn:Acc; intros Short.
  - destruct (accepted_sample_some w s Acc) as (r & pl & T & O & J & L & A).
    destruct (fetchTelemetry_accepted ToNumber env w mc r pl s T O J L A)
      as [[_ E]|[[Long _]|[Long _]]].
    + rewrite (fetchTelemetry_returned _ _ _ _ _ E). repeat split; reflexivity.
    + exfalso. unfold accepted in Long. cbn in Long. lia.
    + exfalso. unfold accepted in Long. cbn in Long. lia.
  - destruct (fetchTelemetry_try_not_accepted ToNumber env w mc
                (accepted_sample_none w Acc)) as [o E].
    destruct o as [[]|e].
    + rewrite (fetchTelemetry_returned _ _ _ _ _ E). repeat split; reflexivity.
    + rewrite (fetchTelemetry_caught _ _ _ _ _ _ E).
      unfold handled. destruct (active_in_catch w); repeat split; reflexivity.
Qed.

Lemma slice_last_app {A : Type} (n : nat) (l r : list A) :
  slice_last n (slice_last n l ++ r) = slice_last n (l ++ r).
Proof.
  unfold slice_last. rewrite !length_app, length_skipn.
  rewrite !skipn_app, length_skipn, skipn_skipn.
  destruct (Nat.le_gt_cases (List.length l) n) as [Le|Gt].
  - replace (List.length l - n)%nat with 0%nat by lia.
    rewrite !Nat.sub_0_r, Nat.add_0_r. reflexivity.
  - f_equal; f_equal; lia.
Qed.

Lemma polls_buffer (ws : list PollWorld) (mc : Machine) :
  (List.length (telemetryBuffer (ui mc)) <= 200)%nat ->
  telemetryBuffer
    (ui (run ToNumber env machinesData selectedMachineId (map Poll ws) mc))
  = slice_last 200 (telemetryBuffer (ui mc) ++ accepted_samples ws).
Proof.
  revert mc. unfold run.
  induction ws as [|w ws IH]; intros mc H; cbn [map fold_left accepted_samples].
  - rewrite app_nil_r. unfold slice_last.
    replace (List.length (telemetryBuffer (ui mc)) - 200)%nat with 0%nat by lia.
    reflexivity.
  - cbn [handle]. pose proof (poll_buffer w mc) as B.
    destruct (accepted_sample w) as [s|].
    + rewrite IH by (rewrite B, push_sample_length; lia).
      rewrite B, push_sample_recent.
      change (skipn (List.length (telemetryBuffer (ui mc) ++ [s]) - 200)
                    (telemetryBuffer (ui mc) ++ [s]))
        with (slice_last 200 (telemetryBuffer (ui mc) ++ [s])).
      rewrite slice_last_app, <- app_assoc. reflexivity.
    + rewrite IH by (rewrite B; exact H). rewrite B. reflexivity.
Qed.

Lemma polls_short (ws : list PollWorld) (mc : Machine) :
  (List.length (telemetryBuffer (ui mc)) + List.length (accepted_samples ws)
   < 50)%nat ->
  let mc' := run ToNumber env machinesData selectedMachineId (map Poll ws) mc in
  sent mc' = sent mc ++ repeat (telemetryRequest env) (List.length ws)
  /\ failureProbability (ui mc') = failureProbability (ui mc)
  /\ unhandled mc' = unhandled mc.
Proof.
  revert mc. unfold run. cbv zeta.
  induction ws as [|w ws IH]; intros mc H;
    cbn [map fold_left accepted_samples List.length repeat] in *.
  - rewrite app_nil_r. repeat split; reflexivity.
  - cbn [handle]. pose proof (poll_buffer w mc) as B.
    pose proof (poll_short w mc) as S.
    destruct (accepted_sample w) as [s|].
    + assert (Short : (List.length (push_sample s (telemetryBuffer (ui mc)))
                       < 50)%nat).
      { rewrite push_sample_length. cbn [List.length] in H. lia. }
      destruct (S Short) as (S1 & S2 & S3).
      destruct (IH (snd (fetchTelemetry ToNumber env w mc))) as (I1 & I2 & I3).
      { rewrite B, push_sample_length. cbn [List.length] in H. lia. }
      rewrite I1, I2, I3, S1, S2, S3, <- app_assoc. repeat split; reflexivity.
    + destruct (S I) as (S1 & S2 & S3).
      destruct (IH (snd (fetchTelemetry ToNumber env w mc))) as (I1 & I2 & I3).
      { rewrite B. exact H. }
      rewrite I1, I2, I3, S1, S2, S3, <- app_assoc. repeat split; reflexivity.
Qed.

(** X16.  Along any sequence of polls the buffer holds the most recent at
    most 200 of the samples it held and the samples accepted since, in
    arrival order.  While the buffer holds fewer than 50 samples the loop
    only fetches telemetry: each poll issues the telemetry request and no
    other, the failure probability is left as it was and no request is
    dispatched.  In particular the 49 polls that follow a reset (or the
    mounting of the view) issue no prediction request. *)
Theorem polls_fill_buffer (ws : list PollWorld) (mc : Machine) :
  (List.length (telemetryBuffer (ui mc)) <= 200)%nat ->
  let mc' := run ToNumber env machinesData selectedMachineId (map Poll ws) mc in
  telemetryBuffer (ui mc')
  = slice_last 200 (telemetryBuffer (ui mc) ++ accepted_samples ws)
  /\ ((List.length (telemetryBuffer (ui mc))
       + List.length (accepted_samples ws) < 50)%nat ->
      sent mc' = sent mc ++ repeat (telemetryRequest env) (List.length ws)
      /\ failureProbability (ui mc') = failureProbability (ui mc)
      /\ unhandled mc' = unhandled mc)
  /\ ((List.length ws < 50)%nat ->
      let fresh := run ToNumber env machinesData selectedMachineId (map Poll ws)
                       (snd (resetToDefault mc)) in
      sent fresh = sent mc ++ repeat (telemetryRequest env) (List.length ws)
      /\ failureProbability (ui fresh) = None
      /\ telemetryBuffer (ui fresh) = accepted_samples ws).
Proof.
  intros H. cbv zeta. split; [apply polls_buffer; exact H|].
  split; [apply polls_short|].
  intros Few.
  assert (Acc : (List.length (accepted_samples ws) <= List.length ws)%nat).
  { clear. induction ws as [|w ws IH]; cbn [accepted_samples List.length];
      [lia|]. destruct (accepted_sample w); cbn [List.length]; lia. }
  destruct (polls_short ws (snd (resetToDefault mc))) as (S1 & S2 & S3).
  { cbn. lia. }
  split; [exact S1|]. split; [exact S2|].
  rewrite polls_buffer by (cbn; lia).
  cbn [resetToDefault]. unfold slice_last.
  change (telemetryBuffer (ui (snd (resetToDefault mc)))) with (@nil TelemetrySample).
  cbn [app].
  replace (List.length (accepted_samples ws) - 200)%nat with 0%nat by lia.
  reflexivity.
Qed.

(** X17.  The [active] flag of the polling effect is read at two places
    only: after the telemetry response and in the catch block.  A poll whose
    telemetry response arrives after the cleanup writes nothing and issues
    no further request, whether the response is accepted or an error.  A
    cleanup that happens later, while the predict request is in flight, does
    not stop the iteration: the sample has been stored, the probability that
    the predict endpoint returns is still stored and the retrain or hardware
    request is still issued, exactly as without a cleanup; only when the
    iteration fails is something skipped, the reset of the last update. *)
Theorem poll_after_cleanup (w : PollWorld) (mc : Machine) :
  (active_after_fetch w = false -> active_in_catch w = false ->
   fetchTelemetry ToNumber env w mc
   = (Returned tt, with_sent [telemetryRequest env] mc))
  /\ (forall b,
        fst (fetchTelemetry_try ToNumber env w mc) = Returned tt ->
        fetchTelemetry ToNumber env (with_active_in_catch b w) mc
        = fetchTelemetry ToNumber env w mc)
  /\ (forall latest pr j nf,
        accepted_sample w = Some latest -> active_in_catch w = false ->
        let m1 := accepted env w latest mc in
        let sequence := slice_last 50 (telemetryBuffer (ui m1)) in
        (50 <= List.length (telemetryBuffer (ui m1)))%nat ->
        predict w = Responded pr -> ok pr = true -> res_json pr = Returned j ->
        nextFailure_of ToNumber j = Returned nf ->
        let mc' := snd (fetchTelemetry ToNumber env w mc) in
        failureProbability (ui mc') = Some nf
        /\ lastUpdate (ui mc') = Some (now w)
        /\ telemetryBuffer (ui mc')
           = push_sample latest (telemetryBuffer (ui mc))
        /\ exists d,
             sent mc' = sent mc ++ [ telemetryRequest env;
                                     predictRequest env sequence; d ]
             /\ req_method d = POST
             /\ (req_url d = RETRAIN_URL env \/ req_url d = HARDWARE_URL env))
  /\ (forall latest e m2,
        accepted_sample w = Some latest -> active_in_catch w = false ->
        fetchTelemetry_try ToNumber env w mc = (Threw e, m2) ->
        snd (fetchTelemetry ToNumber env w mc) = m2
        /\ lastUpdate (ui m2) = Some (now w)
        /\ lastUpdate
             (ui (snd (fetchTelemetry ToNumber env
                         (with_active_in_catch true w) mc))) = None).
Proof.
  split; [|split; [|split]].
  - intros A C.
    destruct (fetchTelemetry_try_not_accepted ToNumber env w mc) as [o E].
    { intros r pl latest _ _ _ _ A'. congruence. }
    destruct o as [[]|e].
    + apply fetchTelemetry_returned. exact E.
    + rewrite (fetchTelemetry_caught _ _ _ _ _ _ E).
      unfold handled. rewrite C. reflexivity.
  - intros b R. unfold fetchTelemetry, try_catch.
    change (fetchTelemetry_try ToNumber env (with_active_in_catch b w) mc)
      with (fetchTelemetry_try ToNumber env w mc).
    destruct (fetchTelemetry_try ToNumber env w mc) as [[[]|e] m2];
      [reflexivity|discriminate R].
  - intros latest pr j nf Acc C m1 sequence Long P O J N mc'.
    subst sequence m1.
    destruct (accepted_sample_some w latest Acc) as (r & pl & T & Ok & Js' & L & A).
    pose proof (fetchTelemetry_try_accepted ToNumber env w mc r pl latest
                  T Ok Js' L A) as Try.
    rewrite (predictAndDispatch_dispatch ToNumber env w latest _ pr j nf
               Long P O J N) in Try.
    apply fetchTelemetry_returned in Try. subst mc'. rewrite Try.
    cbn [snd sent ui]. repeat split.
    exists (dispatchRequest ToNumber env nf latest
              (slice_last 50 (telemetryBuffer (ui (accepted env w latest mc))))).
    split; [|split].
    + unfold accepted. cbn [sent]. rewrite <- app_assoc. reflexivity.
    + unfold dispatchRequest.
      destruct (Js.geb nf (failureThreshold ToNumber env)); reflexivity.
    + unfold dispatchRequest.
      destruct (Js.geb nf (failureThreshold ToNumber env));
        [left|right]; reflexivity.
  - intros latest e m2 Acc C Try.
    destruct (accepted_sample_some w latest Acc) as (r & pl & T & Ok & Js' & L & A).
    assert (U : lastUpdate (ui m2) = Some (now w)).
    { destruct (fetchTelemetry_accepted ToNumber env w mc r pl latest T Ok Js' L A)
        as [[_ E]|[[_ [e' E]]|[_ [nf E]]]]; rewrite E in Try;
        try discriminate Try.
      injection Try as _ <-. reflexivity. }
    split; [|split; [exact U|]].
    + rewrite (fetchTelemetry_caught _ _ _ _ _ _ Try).
      unfold handled. rewrite C. reflexivity.
    + change (fetchTelemetry_try ToNumber env w mc)
        with (fetchTelemetry_try ToNumber env (with_active_in_catch true w) mc)
        in Try.
      rewrite (fetchTelemetry_caught _ _ _ _ _ _ Try). reflexivity.
Qed.

(** *** The failure probability of a prediction *)

(** X18.  The failure probability is read from the first of the properties
    [failure_probability], [failureProbability] and [failure] of the
    prediction that is neither missing nor [null], and is 0 when there is
    none; a value such as 0, [false] or the empty string is not skipped.  A
    prediction that is [null] makes the reading throw; every other
    prediction that is not an object yields 0. *)
Theorem nextFailure_precedence (j : json) :
  (exists e, nextFailure_of ToNumber JNull = Threw e)
  /\ (j <> JNull -> exists n, nextFailure_of ToNumber j = Returned n)
  /\ (forall entries, j = JObj entries ->
        let a := property entries "failure_probability" in
        let b := property entries "failureProbability" in
        let c := property entries "failure" in
        (forall v, a = Some v -> v <> JNull ->
                   nextFailure_of ToNumber j = Returned (Number ToNumber v))
        /\ (forall v, nullish a = true -> b = Some v -> v <> JNull ->
                      nextFailure_of ToNumber j = Returned (Number ToNumber v))
        /\ (forall v, nullish a = true -> nullish b = true ->
                      c = Some v -> v <> JNull ->
                      nextFailure_of ToNumber j = Returned (Number ToNumber v))
        /\ (nullish a = true -> nullish b = true -> nullish c = true ->
            nextFailure_of ToNumber j = Returned (Js.of_Z 0)))
  /\ ((forall entries, j <> JObj entries) -> j <> JNull ->
      nextFailure_of ToNumber j = Returned (Js.of_Z 0))
  /\ (forall entries n,
        property entries "failure_probability" = Some (JNum n) ->
        nextFailure_of ToNumber (JObj entries) = Returned n).
Proof.
  split; [eexists; reflexivity|].
  split; [|split; [|split]].
  - intros N. unfold nextFailure_of.
    destruct j as [ |b|n|s|items|entries]; cbn [get_property];
      try contradiction; try (eexists; reflexivity).
    destruct (nullish_or _ _); eexists; reflexivity.
  - intros entries ->. cbv zeta. unfold nextFailure_of. cbn [get_property].
    destruct (property entries "failure_probability") as [a|];
      destruct (property entries "failureProbability") as [b|];
      destruct (property entries "failure") as [c|];
      repeat split; intros;
      repeat match goal with
             | H : Some _ = Some _ |- _ => injection H as H; subst
             | H : None = Some _ |- _ => discriminate H
             | H : nullish (Some ?x) = true |- _ =>
                 destruct x; try discriminate H; clear H
             | H : nullish None = true |- _ => clear H
             end;
      try reflexivity;
      match goal with
      | H : ?v <> JNull |- _ => destruct v; try contradiction; reflexivity
      end.
  - intros NO NN. unfold nextFailure_of.
    destruct j as [ |b|n|s|items|entries]; cbn [get_property];
      try contradiction; try reflexivity.
    exfalso. apply (NO entries). reflexivity.
  - intros entries n P. unfold nextFailure_of. cbn [get_property].
    rewrite P.
    destruct (property entries "failureProbability");
      destruct (property entries "failure"); reflexivity.
Qed.

(** X19.  A failure probability that is not a number is never sent to the
    retrain endpoint, and neither is any probability when the threshold is
    not a number: in a poll that accepts a sample, predicts and obtains such
    a probability, the one request that follows the prediction is a POST to
    the hardware endpoint whose body carries the probability and the latest
    sample and no sequence; no request of the iteration carries a sequence
    besides the predict request.  The hardware endpoint is the
    environment's, and [http://localhost:8000/hardware] when it sets
    none. *)
Theorem nan_goes_to_hardware (w : PollWorld) (mc : Machine)
    (latest : TelemetrySample) (pr : Response json) (j : json) (nf : Js.number) :
  accepted_sample w = Some latest ->
  let m1 := accepted env w latest mc in
  let sequence := slice_last 50 (telemetryBuffer (ui m1)) in
  (50 <= List.length (telemetryBuffer (ui m1)))%nat ->
  predict w = Responded pr -> ok pr = true -> res_json pr = Returned j ->
  nextFailure_of ToNumber j = Returned nf ->
  Js.isNaN nf = true \/ Js.isNaN (failureThreshold ToNumber env) = true ->
  let mc' := snd (fetchTelemetry ToNumber env w mc) in
  Js.geb nf (failureThreshold ToNumber env) = false
  /\ (exists issued,
        sent mc' = sent mc ++ issued
        /\ issued
           = [ {| req_url := TELEMETRY_URL env; req_method := GET;
                  req_body := NoBody |};
               {| req_url := PREDICT_URL env; req_method := POST;
                  req_body := PredictBody sequence |};
               {| req_url := HARDWARE_URL env; req_method := POST;
                  req_body :=
                    DispatchBody nf (s_timestamp latest) (s_machineId latest)
                      (s_machineName latest) latest None |} ]
        /\ Forall (fun r => carries_sequence r = false) issued)
  /\ failureProbability (ui mc') = Some nf
  /\ (forall u, VITE_HARDWARE_URL env = Some u -> HARDWARE_URL env = u)
  /\ (VITE_HARDWARE_URL env = None ->
      HARDWARE_URL env = "http://localhost:8000/hardware"%string).
Proof.
  intros Acc m1 sequence Long P O J N Nan mc'. subst sequence m1.
  destruct (accepted_sample_some w latest Acc) as (r & pl & T & Ok & Js' & L & A).
  pose proof (fetchTelemetry_try_accepted ToNumber env w mc r pl latest
                T Ok Js' L A) as Try.
  rewrite (predictAndDispatch_dispatch ToNumber env w latest _ pr j nf
             Long P O J N) in Try.
  apply fetchTelemetry_returned in Try. subst mc'. rewrite Try.
  cbn [snd sent ui].
  assert (G : Js.geb nf (failureThreshold ToNumber env) = false).
  { unfold Js.geb. fold (Js.leb (failureThreshold ToNumber env) nf).
    destruct Nan as [Nan|Nan]; apply JsFacts.isNaN_true in Nan; rewrite Nan.
    - apply OrderFacts.leb_nan_r.
    - apply OrderFacts.leb_nan_l. }
  split; [exact G|].
  split; [|split; [reflexivity|split]].
  - eexists. split; [|split; [reflexivity|]].
    + unfold dispatchRequest. rewrite G. unfold accepted. cbn [sent].
      rewrite <- app_assoc. unfold predictRequest.
      rewrite buildPredictPayload_copy. reflexivity.
    + repeat constructor.
  - intros u E. unfold HARDWARE_URL. rewrite E. reflexivity.
  - intros E. unfold HARDWARE_URL. rewrite E. reflexivity.
Qed.


(** *** The colour of the status line *)

(** X20.  After a manual request the status line is always rendered; it is
    green exactly when the request succeeded (an OK response whose body
    parses) and red in every other case, whatever the message of the
    error. *)
Theorem status_colour (w : SendWorld) (mc : Machine) :
  statusClass (ui (snd (handleSendToFriend machinesData selectedMachineId w mc)))
  = Some (if send_succeeds w then "text-green-400" else "text-red-400")%string.
Proof.
  unfold handleSendToFriend, handleSendToFriend_try, handleSendToFriend_catch,
    send_succeeds, statusClass.
  vstep.
  destruct (send_answer w) as [e|r]; vstep.
  { reflexivity. }
  destruct (ok r); vstep.
  - destruct (res_json r); vstep; reflexivity.
  - destruct (res_text r); vstep; reflexivity.
Qed.

(** *** The machine of the view *)

(** X21.  The machine of the view is the first machine whose identifier is
    the selected one and, when there is none, the first machine of the
    list; only an empty list gives no machine.  The name sent with a manual
    request is never empty: it is [Unknown Machine] when there is no machine
    or when the machine's name is empty.  The identifier sent is the selected
    one in every case, so that for an unknown identifier the request pairs it
    with the name of the first machine. *)
Theorem machine_lookup :
  (machinesData = [] <-> machine machinesData selectedMachineId = None)
  /\ (forall m, machine machinesData selectedMachineId = Some m ->
        In m machinesData
        /\ (m_id m = selectedMachineId
            \/ ((forall m', In m' machinesData -> m_id m' <> selectedMachineId)
                /\ nth_error machinesData 0 = Some m)))
  /\ (forall m, In m machinesData -> m_id m = selectedMachineId ->
        exists m', machine machinesData selectedMachineId = Some m'
                   /\ m_id m' = selectedMachineId)
  /\ truthy (machineName machinesData selectedMachineId) = true
  /\ (forall m, machine machinesData selectedMachineId = Some m ->
        truthy (m_name m) = true ->
        machineName machinesData selectedMachineId = m_name m)
  /\ (forall p now,
        property (sendPayload machinesData selectedMachineId p now) "machineId"
        = Some (JStr selectedMachineId)).
Proof.
  unfold machine, machineName, machine.
  split; [|split; [|split; [|split; [|split]]]].
  - destruct (find _ machinesData) as [m|] eqn:F.
    + apply find_some in F. destruct F as [I _].
      split; [intros ->; destruct I|discriminate].
    + destruct machinesData; split; try reflexivity; discriminate.
  - intros m. destruct (find _ machinesData) as [m0|] eqn:F.
    + intros E. injection E as <-. apply find_some in F. destruct F as [I E].
      apply String.eqb_eq in E. auto.
    + intros N. split; [eapply nth_error_In; exact N|].
      right. split; [|exact N].
      intros m' I E. pose proof (find_none _ _ F m' I) as Q. cbv beta in Q.
      rewrite E, String.eqb_refl in Q. discriminate Q.
  - intros m I E. destruct (find _ machinesData) as [m0|] eqn:F.
    + exists m0. split; [reflexivity|].
      apply find_some in F. destruct F as [_ F]. apply String.eqb_eq in F.
      exact F.
    + pose proof (find_none _ _ F m I) as Q. cbv beta in Q.
      rewrite E, String.eqb_refl in Q. discriminate Q.
  - destruct (find _ machinesData) as [m|].
    + destruct (truthy (m_name m)) eqn:T; [exact T|reflexivity].
    + destruct (nth_error machinesData 0) as [m|]; [|reflexivity].
      destruct (truthy (m_name m)) eqn:T; [exact T|reflexivity].
  - intros m E T. rewrite E, T. reflexivity.
  - reflexivity.
Qed.

End ViewFacts.

(** ** The mock data and the overview dashboard *)

Lemma filter_nonempty {A : Type} (f : A -> bool) (l : list A) :
  (0 <? List.length (filter f l))%nat = true <-> exists x, In x l /\ f x = true.
Proof.
  rewrite Nat.ltb_lt. split.
  - intros H. destruct (filter f l) as [|x rest] eqn:E; [cbn in H; lia|].
    assert (I : In x (filter f l)) by (rewrite E; left; reflexivity).
    apply filter_In in I. exists x. exact I.
  - intros [x [I F]].
    assert (J : In x (filter f l)) by (apply filter_In; auto).
    destruct (filter f l); [destruct J|cbn; lia].
Qed.

Lemma filter_empty {A : Type} (f : A -> bool) (l : list A) :
  (0 <? List.length (filter f l))%nat = false <-> forall x, In x l -> f x = false.
Proof.
  split.
  - intros H x I. destruct (f x) eqn:F; [|reflexivity].
    assert (T : (0 <? List.length (filter f l))%nat = true)
      by (apply filter_nonempty; exists x; auto).
    congruence.
  - intros H. destruct (0 <? List.length (filter f l))%nat eqn:E; [|reflexivity].
    apply filter_nonempty in E. destruct E as [x [I F]].
    rewrite (H x I) in F. discriminate F.
Qed.

Lemma has_status_eq (s : MachineStatus) (m : MachineData) :
  has_status s m = true <-> m_status m = s.
Proof.
  unfold has_status. destruct (m_status m), s; split; congruence.
Qed.

(** X22.  The production line is [at-risk] exactly when some machine is
    critical, [warning] exactly when no machine is critical and some machine
    is in the warning state, and [normal] exactly when every machine is
    healthy, which includes the empty list.  The overview's count of
    machines that require attention is zero exactly when the line is
    [normal]. *)
Theorem production_line_status (machinesData : list MachineData) :
  let status := getProductionLineStatus machinesData in
  (status = "at-risk"%string <->
   exists m, In m machinesData /\ m_status m = critical)
  /\ (status = "warning"%string <->
      (forall m, In m machinesData -> m_status m <> critical)
      /\ exists m, In m machinesData /\ m_status m = warning)
  /\ (status = "normal"%string <->
      forall m, In m machinesData -> m_status m = healthy)
  /\ (warningCount machinesData = 0%nat <-> status = "normal"%string)
  /\ getProductionLineStatus [] = "normal"%string.
Proof.
  cbv zeta. unfold getProductionLineStatus, warningCount. cbv zeta.
  destruct (0 <? List.length (filter (has_status critical) machinesData))%nat
    eqn:C;
    [|destruct (0 <? List.length (filter (has_status warning) machinesData))%nat
        eqn:W].
  - apply filter_nonempty in C. destruct C as [mc [Ic Sc]].
    apply has_status_eq in Sc.
    split; [split; [intros _; exists mc; auto|reflexivity]|].
    split; [split; [discriminate|]|].
    { intros [N _]. exfalso. exact (N mc Ic Sc). }
    split; [split; [discriminate|]|].
    { intros H. rewrite (H mc Ic) in Sc. discriminate Sc. }
    split; [|reflexivity]. split; [|discriminate].
    intros Z. exfalso.
    assert (T : (0 <? List.length
                   (filter (fun m => has_status warning m || has_status critical m)
                           machinesData))%nat = true).
    { apply filter_nonempty. exists mc. split; [exact Ic|].
      apply orb_true_iff. right. apply has_status_eq. exact Sc. }
    rewrite Z in T. discriminate T.
  - apply filter_nonempty in W. destruct W as [mw [Iw Sw]].
    apply has_status_eq in Sw.
    assert (NC : forall m, In m machinesData -> m_status m <> critical).
    { intros m I E. apply has_status_eq in E.
      rewrite (proj1 (filter_empty _ _) C m I) in E. discriminate E. }
    split; [split; [discriminate|]|].
    { intros [m [I E]]. exfalso. exact (NC m I E). }
    split; [split; [intros _; split; [exact NC|exists mw; auto]|reflexivity]|].
    split; [split; [discriminate|]|].
    { intros H. rewrite (H mw Iw) in Sw. discriminate Sw. }
    split; [|reflexivity]. split; [|discriminate].
    intros Z. exfalso.
    assert (T : (0 <? List.length
                   (filter (fun m => has_status warning m || has_status critical m)
                           machinesData))%nat = true).
    { apply filter_nonempty. exists mw. split; [exact Iw|].
      apply orb_true_iff. left. apply has_status_eq. exact Sw. }
    rewrite Z in T. discriminate T.
  - assert (H : forall m, In m machinesData -> m_status m = healthy).
    { intros m I.
      pose proof (proj1 (filter_empty _ _) C m I) as Hc.
      pose proof (proj1 (filter_empty _ _) W m I) as Hw.
      unfold has_status in Hc, Hw. destruct (m_status m); congruence. }
    split; [split; [discriminate|]|].
    { intros [m [I E]]. rewrite (H m I) in E. discriminate E. }
    split; [split; [discriminate|]|].
    { intros [_ [m [I E]]]. rewrite (H m I) in E. discriminate E. }
    split; [split; [intros _; exact H|reflexivity]|].
    split; [|reflexivity]. split; [reflexivity|]. intros _.
    destruct (0 <? List.length
                (filter (fun m => has_status warning m || has_status critical m)
                        machinesData))%nat eqn:T.
    + apply filter_nonempty in T. destruct T as [m [I E]].
      unfold has_status in E. rewrite (H m I) in E. discriminate E.
    + apply Nat.ltb_ge in T. lia.
Qed.

(** An integer of fewer than 53 binary digits is a finite number, with the
    sign given. *)
Lemma binary_round_small (s : bool) (p : positive) :
  Z.pos (digits2_pos p) < 53 ->
  exists m e, binary_round Js.prec Js.emax s p 0 = S754_finite s m e.
Proof.
  intros Small. unfold binary_round, shl_align.
  set (ex := fexp Js.prec Js.emax (Z.pos (digits2_pos p) + 0)).
  assert (Hex : ex = Z.pos (digits2_pos p) - 53).
  { subst ex. unfold fexp, emin, Js.prec, Js.emax. lia. }
  destruct (ex - 0) as [|d|d] eqn:D; try lia.
  assert (Hd : ex = Z.neg d) by lia.
  rewrite Hd.
  unfold binary_round_aux, shr_fexp.
  assert (S0 : fexp Js.prec Js.emax
                 (Zdigits2 (Z.pos (PosDef.Pos.iter xO p d)) + Z.neg d)
               - Z.neg d = 0).
  { simpl Zdigits2. rewrite RoundFacts.digits2_pos_iter.
    replace (Z.pos (digits2_pos p) + Z.pos d + Z.neg d)
      with (Z.pos (digits2_pos p) + 0) by lia.
    fold ex. lia. }
  rewrite S0. simpl shr. cbv beta iota.
  simpl shr_m. simpl loc_of_shr_record. simpl round_nearest_even.
  rewrite S0. simpl shr. cbv beta iota. simpl shr_m.
  assert (L : (Z.neg d <=? Js.emax - Js.prec) = true).
  { apply Z.leb_le. unfold Js.emax, Js.prec. lia. }
  rewrite L. eexists. eexists. reflexivity.
Qed.

(** A positive integer below [2^n] has at most [n] binary digits. *)
Lemma digits2_pos_bound (p : positive) (n : Z) :
  0 <= n -> Z.pos p < 2 ^ n -> Z.pos (digits2_pos p) <= n.
Proof.
  revert n. induction p as [p IH|p IH|]; intros n Hn H; cbn [digits2_pos].
  - assert (0 < n).
    { destruct (Z.eq_dec n 0) as [->|]; [cbn in H; lia|lia]. }
    replace n with (Z.succ (n - 1)) in H by lia.
    rewrite Z.pow_succ_r in H by lia.
    specialize (IH (n - 1)). change (PosDef.Pos.succ) with Pos.succ. lia.
  - assert (0 < n).
    { destruct (Z.eq_dec n 0) as [->|]; [cbn in H; lia|lia]. }
    replace n with (Z.succ (n - 1)) in H by lia.
    rewrite Z.pow_succ_r in H by lia.
    specialize (IH (n - 1)). change (PosDef.Pos.succ) with Pos.succ. lia.
  - destruct (Z.eq_dec n 0) as [->|]; [cbn in H; lia|lia].
Qed.

Lemma sum_nonneg (l : list MachineData) (start : Js.number) :
  Js.nonneg start = true ->
  Forall (fun m => Js.nonneg (m_failureRisk m) = true) l ->
  Js.nonneg (fold_left (fun sum m => Js.add sum (m_failureRisk m)) l start) = true.
Proof.
  revert start. induction l as [|m l IH]; intros start S F; cbn [fold_left].
  - exact S.
  - inversion F as [|m' l' Hm Hl]; subst.
    apply IH; [|exact Hl]. apply NonNeg.add_nonneg; assumption.
Qed.

(** X23.  The overall failure risk is the rounded mean of the failure risks,
    hence an integral number.  For the empty list it is [NaN] (0 divided by
    0).  For a list of at least one and fewer than 2^32 machines whose
    risks are not negative (and not [NaN]) it is a number that is not
    negative.  For the machine list shipped with the repository it is
    14. *)
Theorem overall_failure_risk (machinesData : list MachineData) :
  Js.integral (getOverallFailureRisk machinesData) = true
  /\ Js.isNaN (getOverallFailureRisk []) = true
  /\ (machinesData <> [] ->
      Z.of_nat (List.length machinesData) < 2 ^ 32 ->
      Forall (fun m => Js.nonneg (m_failureRisk m) = true) machinesData ->
      Js.nonneg (getOverallFailureRisk machinesData) = true
      /\ Js.isNaN (getOverallFailureRisk machinesData) = false)
  /\ getOverallFailureRisk mockData.machinesData = Js.of_Z 14.
Proof.
  split; [apply RoundFacts.Math_round_integral|].
  split; [vm_compute; reflexivity|].
  split; [|vm_compute; reflexivity].
  intros NE Small F.
  assert (N : Js.nonneg (getOverallFailureRisk machinesData) = true).
  { unfold getOverallFailureRisk. cbv zeta.
    apply NonNeg.Math_round_nonneg.
    destruct (Z.of_nat (List.length machinesData)) as [|p|p] eqn:Len.
    - destruct machinesData; [contradiction NE; reflexivity|discriminate Len].
    - assert (D : Z.pos (digits2_pos p) < 53).
      { pose proof (digits2_pos_bound p 32) as B. lia. }
      destruct (binary_round_small false p D) as (m & e & E).
      change (Js.of_Z (Z.pos p)) with (binary_round Js.prec Js.emax false p 0).
      rewrite E. apply NonNeg.div_nonneg.
      apply sum_nonneg; [reflexivity|exact F].
    - lia. }
  split; [exact N|].
  apply JsFacts.isNaN_false. apply NonNeg.nonneg_not_nan. exact N.
Qed.

(** ** The colour of a failure risk *)

(** How a number that is not [NaN] compares with a bound that is a
    number. *)
Lemma compare_bound (r b : Js.number) :
  Js.isNaN r = false -> Js.isNaN b = false ->
  (Js.ltb r b = true /\ Js.geb r b = false)
  \/ (Js.ltb r b = false /\ Js.geb r b = true).
Proof.
  intros Nr Nb. unfold Js.geb. fold (Js.leb b r).
  destruct (Js.ltb r b) eqn:L.
  - left. split; [reflexivity|].
    destruct (Js.leb b r) eqn:G; [|reflexivity].
    apply JsFacts.leb_not_ltb in G. congruence.
  - right. split; [reflexivity|].
    apply OrderFacts.not_ltb_leb; assumption.
Qed.

(** X24.  A failure risk gets exactly one of the three colour classes,
    [text-success] below 30, [text-warning] from 30 and [text-destructive]
    from 70 (from 60 for the overall risk of the overview), unless it is
    [NaN], which gets none.  The overview is the stricter of the two: it
    agrees with the machine cards on [text-success], and a risk it shows as
    [text-warning] is shown so on the cards as well. *)
Theorem failure_risk_colour (risk : Js.number) :
  (Js.isNaN risk = true ->
   failureRiskClasses risk = [] /\ overallRiskClasses risk = [])
  /\ (Js.isNaN risk = false ->
      (failureRiskClasses risk = ["text-success"%string]
       \/ failureRiskClasses risk = ["text-warning"%string]
       \/ failureRiskClasses risk = ["text-destructive"%string])
      /\ (overallRiskClasses risk = ["text-success"%string]
          \/ overallRiskClasses risk = ["text-warning"%string]
          \/ overallRiskClasses risk = ["text-destructive"%string]))
  /\ (failureRiskClasses risk = ["text-success"%string] <->
      overallRiskClasses risk = ["text-success"%string])
  /\ (overallRiskClasses risk = ["text-warning"%string] ->
      failureRiskClasses risk = ["text-warning"%string])
  /\ (failureRiskClasses risk = ["text-destructive"%string] ->
      overallRiskClasses risk = ["text-destructive"%string]).
Proof.
  destruct (Js.isNaN risk) eqn:N.
  - apply JsFacts.isNaN_true in N. subst risk.
    split; [intros _; split; reflexivity|].
    split; [discriminate|].
    split; [split; discriminate|]. split; discriminate.
  - assert (T1 : Js.ltb risk (Js.of_Z 30) = true ->
                 Js.ltb risk (Js.of_Z 60) = true).
    { intros H. apply OrderFacts.ltb_trans with (b := Js.of_Z 30);
        [exact H|vm_compute; reflexivity]. }
    assert (T2 : Js.ltb risk (Js.of_Z 60) = true ->
                 Js.ltb risk (Js.of_Z 70) = true).
    { intros H. apply OrderFacts.ltb_trans with (b := Js.of_Z 60);
        [exact H|vm_compute; reflexivity]. }
    unfold failureRiskClasses, overallRiskClasses, conditional_classes.
    destruct (compare_bound risk (Js.of_Z 30) N eq_refl) as [[A A']|[A A']];
      destruct (compare_bound risk (Js.of_Z 60) N eq_refl) as [[B B']|[B B']];
      destruct (compare_bound risk (Js.of_Z 70) N eq_refl) as [[C C']|[C C']];
      try (rewrite (T1 A) in B; discriminate B);
      try (rewrite (T2 B) in C; discriminate C);
      try (rewrite (T2 (T1 A)) in C; discriminate C);
      rewrite A, A', B, B', C, C'; cbn [filter fst snd andb map];
      (split; [discriminate|]);
      (split; [intros _; split; auto|]);
      (split; [split; intros H; (reflexivity || discriminate H)|]);
      split; intros H; (reflexivity || discriminate H).
Qed.

(** ** The status of a metric *)

(** X25.  [getStatus] is monotone in the value, whatever the two
    thresholds: of two values the larger never gets the milder status.  A
    value that is [NaN] is [critical]. *)
Theorem getStatus_monotone (value value' : Js.number)
    (thresholds : Js.number * Js.number) :
  Js.leb value value' = true ->
  (getStatus value' thresholds = "normal"%string ->
   getStatus value thresholds = "normal"%string)
  /\ (getStatus value' thresholds = "warning"%string ->
      getStatus value thresholds <> "critical"%string)
  /\ (getStatus value thresholds = "critical"%string ->
      getStatus value' thresholds = "critical"%string)
  /\ getStatus Js.NaN thresholds = "critical"%string.
Proof.
  intros Le. destruct thresholds as [t0 t1]. unfold getStatus. cbn [fst snd].
  assert (M0 : Js.ltb value' t0 = true -> Js.ltb value t0 = true)
    by (apply OrderFacts.leb_ltb_trans; exact Le).
  assert (M1 : Js.ltb value' t1 = true -> Js.ltb value t1 = true)
    by (apply OrderFacts.leb_ltb_trans; exact Le).
  split; [|split; [|split]].
  - destruct (Js.ltb value' t0) eqn:A.
    + rewrite (M0 eq_refl). reflexivity.
    + destruct (Js.ltb value' t1); discriminate.
  - destruct (Js.ltb value' t0) eqn:A; [discriminate|].
    destruct (Js.ltb value' t1) eqn:B; [|discriminate].
    intros _. rewrite (M1 eq_refl).
    destruct (Js.ltb value t0); discriminate.
  - destruct (Js.ltb value t0) eqn:A; [discriminate|].
    destruct (Js.ltb value t1) eqn:B; [discriminate|].
    intros _.
    destruct (Js.ltb value' t0) eqn:A'; [discriminate (M0 eq_refl)|].
    destruct (Js.ltb value' t1) eqn:B'; [discriminate (M1 eq_refl)|].
    reflexivity.
  - reflexivity.
Qed.

(** ** The boiler of the 3D viewer *)

(** Dividing by a finite positive constant yields [NaN] for [NaN] only. *)
Lemma div_constant_isNaN (x c : Js.number) :
  Js.positive_constant c = true ->
  Js.isNaN (Js.div x c) = Js.isNaN x.
Proof.
  destruct c as [s|s| |[|] m e]; try discriminate. intros _.
  destruct x as [sx|sx| |sx mx ex]; try reflexivity.
  unfold Js.div, SFdiv.
  pose proof (NonNeg.div_core_nonneg mx ex m e) as Q.
  destruct (SFdiv_core_binary Js.prec Js.emax (Z.pos mx) ex (Z.pos m) e)
    as [[mz ez] lz].
  cbn [fst] in Q.
  pose proof (RoundFacts.binary_round_aux_shape (xorb sx false) mz ez lz Q) as S.
  destruct (binary_round_aux Js.prec Js.emax (xorb sx false) mz ez lz);
    try reflexivity. contradiction.
Qed.

(** [Math.min(hi, Math.max(lo, v))] for bounds of the usual kind. *)
Lemma min_max_range (v lo hi : Js.number) :
  lo <> Js.NaN -> lo <> S754_zero true ->
  hi <> Js.NaN -> hi <> S754_zero false ->
  Js.leb lo hi = true -> Js.leb lo lo = true -> Js.leb hi hi = true ->
  let r := Js.Math_min hi (Js.Math_max lo v) in
  Js.isNaN r = Js.isNaN v
  /\ (Js.isNaN v = false -> Js.leb lo r = true /\ Js.leb r hi = true)
  /\ Js.ltb r lo = false /\ Js.ltb hi r = false.
Proof.
  intros H1 H2 H3 H4 H5 H6 H7. cbv zeta.
  change (Js.Math_min hi (Js.Math_max lo v)) with (clamp v lo hi).
  destruct (clamp_bounds v lo hi H1 H2 H3 H4 H5 H6 H7)
    as [[E C]|(E & C & Lo & Hi)].
  - rewrite C, E. split; [reflexivity|]. split; [discriminate|].
    split; [reflexivity|]. apply OrderFacts.ltb_nan_r.
  - apply JsFacts.isNaN_false in E. apply JsFacts.isNaN_false in C.
    rewrite E, C. split; [reflexivity|]. split; [auto|].
    split; apply JsFacts.leb_not_ltb; assumption.
Qed.

(** X26.  The boiler's glow and flame power stay between 0.2 and 1 and its
    pressure ratio between 0 and 1, whatever the temperature and the load
    handed to the viewer; each of them is [NaN] only when its input is: the
    temperature for the glow, the load for the flame power, and the sum
    [(temperature - 80) / 160 + load / 200] for the pressure ratio. *)
Theorem boiler_visual_ranges (temperature load : Js.number) :
  let g := BoilerModel.glow temperature in
  let f := BoilerModel.flamePower load in
  let p := BoilerModel.pressureRatio temperature load in
  (Js.isNaN g = Js.isNaN temperature
   /\ (Js.isNaN temperature = false ->
       Js.leb (Js.decimal 2 1) g = true /\ Js.leb g (Js.of_Z 1) = true)
   /\ Js.ltb g (Js.decimal 2 1) = false /\ Js.ltb (Js.of_Z 1) g = false)
  /\ (Js.isNaN f = Js.isNaN load
      /\ (Js.isNaN load = false ->
          Js.leb (Js.decimal 2 1) f = true /\ Js.leb f (Js.of_Z 1) = true)
      /\ Js.ltb f (Js.decimal 2 1) = false /\ Js.ltb (Js.of_Z 1) f = false)
  /\ (Js.isNaN p
      = Js.isNaN (Js.add (Js.div (Js.sub temperature (Js.of_Z 80)) (Js.of_Z 160))
                         (Js.div load (Js.of_Z 200)))
      /\ (Js.isNaN p = false ->
          Js.leb (Js.of_Z 0) p = true /\ Js.leb p (Js.of_Z 1) = true)
      /\ Js.ltb p (Js.of_Z 0) = false /\ Js.ltb (Js.of_Z 1) p = false).
Proof.
  cbv zeta. unfold BoilerModel.glow, BoilerModel.flamePower,
    BoilerModel.pressureRatio.
  split; [|split].
  - rewrite <- (div_constant_isNaN temperature (Js.of_Z 220) eq_refl).
    apply min_max_range; try (vm_compute; congruence); vm_compute; reflexivity.
  - rewrite <- (div_constant_isNaN load (Js.of_Z 100) eq_refl).
    apply min_max_range; try (vm_compute; congruence); vm_compute; reflexivity.
  - set (v := Js.add _ _).
    assert (R : let r := Js.Math_min (Js.of_Z 1) (Js.Math_max (Js.of_Z 0) v) in
                Js.isNaN r = Js.isNaN v
                /\ (Js.isNaN v = false ->
                    Js.leb (Js.of_Z 0) r = true /\ Js.leb r (Js.of_Z 1) = true)
                /\ Js.ltb r (Js.of_Z 0) = false /\ Js.ltb (Js.of_Z 1) r = false).
    { apply min_max_range; try (vm_compute; congruence); vm_compute; reflexivity. }
    cbv zeta in R. destruct R as (A & B & C & D).
    split; [exact A|]. split; [|split; assumption].
    intros N. apply B. rewrite <- A. exact N.
Qed.

(** ** The page *)

Lemma page_handle_tab (machinesData : list MachineData) (st : Index.State)
    (ev : Index.event) :
  In (Index.activeTab st) (map fst Index.tabs) ->
  In (Index.activeTab (Index.handle machinesData st ev)) (map fst Index.tabs).
Proof.
  intros H. destruct ev as [n|n|n| |]; cbn [Index.handle].
  - destruct (nth_error Index.tabs n) as [tab|] eqn:E; [|exact H].
    cbn [Index.setActiveTab Index.activeTab].
    apply in_map. eapply nth_error_In. exact E.
  - destruct (nth_error machinesData n); [|exact H].
    cbn. tauto.
  - destruct (nth_error machinesData n); exact H.
  - cbn. tauto.
  - cbn. tauto.
Qed.

Lemma page_handle_machine (machinesData : list MachineData) (st : Index.State)
    (ev : Index.event) :
  (exists m, In m machinesData /\ m_id m = Index.selectedMachineId st) ->
  exists m, In m machinesData
            /\ m_id m = Index.selectedMachineId (Index.handle machinesData st ev).
Proof.
  intros H. destruct ev as [n|n|n| |]; cbn [Index.handle].
  - destruct (nth_error Index.tabs n); exact H.
  - destruct (nth_error machinesData n) as [m|] eqn:E; [|exact H].
    exists m. split; [eapply nth_error_In; exact E|reflexivity].
  - destruct (nth_error machinesData n) as [m|] eqn:E; [|exact H].
    exists m. split; [eapply nth_error_In; exact E|reflexivity].
  - exact H.
  - exact H.
Qed.

(** X27.  Whatever the user presses, the active tab is one of the four tabs
    of the navigation bar and the page renders exactly one of its four
    views.  When the machine list contains the machine [B1] that is selected
    at the start, the selected identifier names a machine of the list at
    every moment, so that the views find their machine by its identifier and
    never fall back to the first machine of the list. *)
Theorem page_shows_one_view (machinesData : list MachineData)
    (evs : list Index.event) :
  let st := Index.run machinesData evs Index.initialState in
  In (Index.activeTab st) (map fst Index.tabs)
  /\ (exists v, Index.rendered st = [v])
  /\ ((exists m, In m machinesData /\ m_id m = "B1"%string) ->
      exists m, In m machinesData
                /\ m_id m = Index.selectedMachineId st
                /\ find (fun m' => String.eqb (m_id m') (Index.selectedMachineId st))
                        machinesData = Some m
                /\ machine machinesData (Index.selectedMachineId st) = Some m).
Proof.
  cbv zeta.
  assert (T : forall st,
             In (Index.activeTab st) (map fst Index.tabs) ->
             In (Index.activeTab (Index.run machinesData evs st))
                (map fst Index.tabs)).
  { unfold Index.run. induction evs as [|ev evs IH]; intros st H;
      cbn [fold_left]; [exact H|].
    apply IH, page_handle_tab, H. }
  assert (S : forall st,
             (exists m, In m machinesData /\ m_id m = Index.selectedMachineId st) ->
             exists m, In m machinesData
                       /\ m_id m = Index.selectedMachineId
                                     (Index.run machinesData evs st)).
  { clear T. unfold Index.run. induction evs as [|ev evs IH]; intros st H;
      cbn [fold_left]; [exact H|].
    apply IH, page_handle_machine, H. }
  specialize (T Index.initialState). specialize (S Index.initialState).
  set (st := Index.run machinesData evs Index.initialState) in *.
  assert (Tab : In (Index.activeTab st) (map fst Index.tabs)).
  { apply T. cbn. tauto. }
  split; [exact Tab|]. split.
  - unfold Index.rendered. cbn in Tab.
    destruct Tab as [E|[E|[E|[E|[]]]]]; rewrite <- E; cbn; eexists; reflexivity.
  - intros B. destruct (S B) as [m [I E]].
    destruct (find (fun m' => String.eqb (m_id m') (Index.selectedMachineId st))
                   machinesData) as [m0|] eqn:F.
    + exists m0. pose proof (find_some _ _ F) as [I0 E0].
      apply String.eqb_eq in E0.
      repeat split; try assumption.
      unfold machine. rewrite F. reflexivity.
    + exfalso. pose proof (find_none _ _ F m I) as Q. cbv beta in Q.
      rewrite E, String.eqb_refl in Q. discriminate Q.
Qed.

(** ** The recommendations *)

(** The part of a recommendation that no handler writes. *)
Lemma handle_recommendation_content (st : Decisions.State) (ev : Decisions.event) :
  map (Decisions.with_approved true)
      (Decisions.recommendations (Decisions.handle st ev))
  = map (Decisions.with_approved true) (Decisions.recommendations st).
Proof.
  destruct ev as [n|n]; cbn [Decisions.handle];
    destruct (nth_error (Decisions.recommendations st) n) as [r|];
    try reflexivity;
    destruct (Decisions.has_buttons r); try reflexivity;
    cbn [Decisions.handleApprove Decisions.handleReject
         Decisions.recommendations];
    rewrite map_map; apply map_ext; intros a;
    destruct (String.eqb (Decisions.id a) (Decisions.id r)); reflexivity.
Qed.

Lemma map_id_content (l l' : list Decisions.AIRecommendation) :
  map (Decisions.with_approved true) l = map (Decisions.with_approved true) l' ->
  map Decisions.id l = map Decisions.id l'.
Proof.
  intros H.
  assert (E : forall k, map Decisions.id (map (Decisions.with_approved true) k)
                        = map Decisions.id k).
  { intros k. rewrite map_map. apply map_ext. reflexivity. }
  rewrite <- (E l), <- (E l'), H. reflexivity.
Qed.

(** One event decides at most the recommendation it was pressed on, and
    only if that one is undecided. *)
Lemma handle_decided (st : Decisions.State) (ev : Decisions.event) :
  NoDup (map Decisions.id (Decisions.recommendations st)) ->
  forall k r,
    nth_error (Decisions.recommendations st) k = Some r ->
    exists r',
      nth_error (Decisions.recommendations (Decisions.handle st ev)) k = Some r'
      /\ (Decisions.approved r <> None ->
          Decisions.approved r' = Decisions.approved r).
Proof.
  intros ND k r K.
  assert (G : forall (b : bool) (n : nat) (r0 : Decisions.AIRecommendation),
             nth_error (Decisions.recommendations st) n = Some r0 ->
             Decisions.has_buttons r0 = true ->
             exists r',
               nth_error
                 (map (fun a => if String.eqb (Decisions.id a) (Decisions.id r0)
                                then Decisions.with_approved b a else a)
                      (Decisions.recommendations st)) k = Some r'
               /\ (Decisions.approved r <> None ->
                   Decisions.approved r' = Decisions.approved r)).
  { intros b n r0 N B. rewrite nth_error_map, K. cbn [option_map].
    eexists. split; [reflexivity|].
    destruct (String.eqb (Decisions.id r) (Decisions.id r0)) eqn:E;
      [|reflexivity].
    apply String.eqb_eq in E. intros D. exfalso.
    assert (k = n).
    { apply (proj1 (NoDup_nth_error (map Decisions.id (Decisions.recommendations st)))
               ND).
      - rewrite length_map. apply nth_error_Some. congruence.
      - rewrite !nth_error_map, K, N. cbn. congruence. }
    subst n. rewrite K in N. injection N as <-.
    unfold Decisions.has_buttons in B.
    destruct (Decisions.approved r); [discriminate B|contradiction D; reflexivity]. }
  destruct ev as [n|n]; cbn [Decisions.handle];
    destruct (nth_error (Decisions.recommendations st) n) as [r0|] eqn:N;
    try (exists r; split; [exact K|reflexivity]);
    destruct (Decisions.has_buttons r0) eqn:B;
    try (exists r; split; [exact K|reflexivity]);
    cbn [Decisions.handleApprove Decisions.handleReject
         Decisions.recommendations];
    eapply G; eassumption.
Qed.

(** X28.  Approving or rejecting a recommendation writes its [approved]
    flag and nothing else of it: identifiers, actions, reasons, order and
    number of the recommendations stay as they are.  When the identifiers
    are distinct, a decision is final: the buttons of a decided
    recommendation are gone, and no press on another recommendation changes
    its flag. *)
Theorem decisions_are_final (evs : list Decisions.event) (st : Decisions.State) :
  NoDup (map Decisions.id (Decisions.recommendations st)) ->
  let st' := Decisions.run evs st in
  map (Decisions.with_approved true) (Decisions.recommendations st')
  = map (Decisions.with_approved true) (Decisions.recommendations st)
  /\ map Decisions.id (Decisions.recommendations st')
     = map Decisions.id (Decisions.recommendations st)
  /\ List.length (Decisions.recommendations st')
     = List.length (Decisions.recommendations st)
  /\ (forall k r,
        nth_error (Decisions.recommendations st) k = Some r ->
        exists r',
          nth_error (Decisions.recommendations st') k = Some r'
          /\ (Decisions.approved r <> None ->
              Decisions.approved r' = Decisions.approved r)).
Proof.
  cbv zeta. revert st. unfold Decisions.run.
  induction evs as [|ev evs IH]; intros st ND; cbn [fold_left].
  - repeat split; try reflexivity.
    intros k r K. exists r. split; [exact K|reflexivity].
  - pose proof (handle_recommendation_content st ev) as C.
    pose proof (map_id_content _ _ C) as I.
    destruct (IH (Decisions.handle st ev)) as (C' & I' & L' & F').
    { rewrite I. exact ND. }
    split; [rewrite C'; exact C|].
    split; [rewrite I'; exact I|].
    split.
    { rewrite L'. rewrite <- (length_map Decisions.id), I, length_map.
      reflexivity. }
    intros k r K.
    destruct (handle_decided st ev ND k r K) as (r1 & K1 & D1).
    destruct (F' k r1 K1) as (r2 & K2 & D2).
    exists r2. split; [exact K2|].
    intros D. rewrite D2; [apply D1; exact D|].
    rewrite (D1 D). exact D.
Qed.

(** ** The labels of the parameter inputs *)

Lemma drop_spaces_space_capitals (s : string) :
  Label.alphanumeric s = true ->
  Label.drop_spaces (Label.space_capitals s) = s.
Proof.
  induction s as [|c rest IH]; cbn [Label.alphanumeric Label.space_capitals];
    [reflexivity|].
  intros H. apply andb_true_iff in H. destruct H as [Hc Hr].
  assert (NS : Ascii.eqb c " " = false).
  { destruct (Ascii.eqb c " ") eqn:E; [|reflexivity].
    apply Ascii.eqb_eq in E. subst c. vm_compute in Hc. discriminate Hc. }
  destruct (Label.is_capital c);
    cbn [Label.drop_spaces]; rewrite ?Ascii.eqb_refl, NS, (IH Hr); reflexivity.
Qed.

Lemma small_letter_round_trip (c : ascii) :
  Label.is_small c = true ->
  Label.is_capital c = false
  /\ Label.line_terminator c = false
  /\ Ascii.eqb (Label.toUpperCase c) " " = false
  /\ Label.toLowerCase (Label.toUpperCase c) = c.
Proof.
  destruct c as [[|] [|] [|] [|] [|] [|] [|] [|]];
    vm_compute; intros H; try discriminate H; repeat split.
Qed.

(** X29.  The label of a parameter input is its key with a space put in
    front of every capital letter and the first letter made a capital.  For
    a key made of letters and digits that begins with a small letter the
    key can be read back from the label, so that different keys have
    different labels.  The labels of the 22 parameters are as listed. *)
Theorem label_round_trip (key : string) :
  Label.alphanumeric key = true -> Label.starts_small key = true ->
  Label.key_of_label (Label.label key) = key
  /\ (forall other,
        Label.alphanumeric other = true -> Label.starts_small other = true ->
        Label.label other = Label.label key -> other = key)
  /\ map (fun k => Label.label (key_name k)) SimulationParams_keys
     = [ "Rpm"; "Torque"; "Load Weight"; "Motor Temp"; "Winding Temp";
         "Bearing Temp"; "Ambient Temp"; "Vibration X"; "Vibration Y";
         "Vibration Z"; "Voltage"; "Current"; "Power Consumption";
         "Power Factor"; "Harmonic Distortion"; "Efficiency";
         "Insulation Resistance"; "Operating Hours"; "Start Stop Cycles";
         "Wear Level"; "Bearing Wear"; "Humidity" ]%string.
Proof.
  assert (R : forall s, Label.alphanumeric s = true -> Label.starts_small s = true ->
                        Label.key_of_label (Label.label s) = s).
  { intros s A S. destruct s as [|c rest]; [discriminate S|].
    cbn [Label.starts_small] in S.
    destruct (small_letter_round_trip c S) as (C & T & U & V).
    pose proof (drop_spaces_space_capitals _ A) as D.
    unfold Label.label, Label.key_of_label.
    cbn [Label.space_capitals] in *. rewrite C in *.
    cbn [Label.capitalize]. rewrite T.
    cbn [Label.drop_spaces] in *. rewrite U.
    destruct (Ascii.eqb c " ") eqn:E.
    - apply Ascii.eqb_eq in E. subst c. vm_compute in S. discriminate S.
    - injection D as D. rewrite D, V. reflexivity. }
  intros A S. split; [apply R; assumption|]. split.
  - intros other A' S' E.
    rewrite <- (R other A' S'), E. apply R; assumption.
  - vm_compute. reflexivity.
Qed.

(** ** The body of the prediction request *)

(** X30.  The body of the prediction request carries the samples of the
    sequence as they are: [buildPredictPayload] lists every field of a
    sample, so that each sample is copied in full, and it keeps the order
    and the number of the samples. *)
Theorem buildPredictPayload_identity (sequence : list TelemetrySample) :
  buildPredictPayload sequence = sequence
  /\ List.length (buildPredictPayload sequence) = List.length sequence
  /\ (forall env, req_body (predictRequest env sequence) = PredictBody sequence).
Proof.
  pose proof (buildPredictPayload_copy sequence) as E.
  split; [exact E|]. split; [rewrite E; reflexivity|].
  intros env. unfold predictRequest. cbn [req_body]. rewrite E. reflexivity.
Qed.

(** ** Further properties at concrete inputs *)

(** A stored prediction with probability 0: the risk shown is the derived
    risk of the default parameters, the level is the prediction's. *)
Lemma falsy_probability_not_displayed_witness :
  currentRisk Example.toNumber Scenario.zeroPrediction = Js.of_Z 37
  /\ predictedRiskLevel Scenario.zeroPrediction = Some (JStr "LOW").
Proof.
  destruct (falsy_probability_not_displayed Example.toNumber
              Scenario.zeroPrediction _ (JNum (Js.of_Z 0))
              eq_refl eq_refl eq_refl) as (_ & C & L & _).
  split.
  - rewrite C. vm_compute. reflexivity.
  - rewrite L. reflexivity.
Defined.

(** At a risk of exactly 40 the tile is styled as a warning and shows
    [SAFE]. *)
Lemma risk_tile_and_level_witness :
  currentRisk Example.toNumber Scenario.atForty = Js.of_Z 40
  /\ riskTileClass Example.toNumber Scenario.atForty = "stat-warn"%string
  /\ currentRiskLevel Example.toNumber Scenario.atForty = JStr "SAFE".
Proof.
  assert (R : currentRisk Example.toNumber Scenario.atForty = Js.of_Z 40)
    by (vm_compute; reflexivity).
  destruct (risk_tile_and_level Example.toNumber Scenario.atForty eq_refl)
    as (_ & _ & _ & F & _).
  split; [exact R|]. exact (F R).
Defined.

Lemma send_success_witness :
  result (ui (snd (handleSendToFriend mockData.machinesData "B1"
                     Scenario.answeredSend initialMachine)))
  = Some Scenario.prediction
  /\ predictionStatus
       (ui (snd (handleSendToFriend mockData.machinesData "B1"
                   Scenario.answeredSend initialMachine)))
     = Some "Prediction received!"%string.
Proof.
  destruct (send_success mockData.machinesData "B1" Scenario.answeredSend
              initialMachine _ Scenario.prediction eq_refl eq_refl eq_refl)
    as (E & R & _).
  split; [exact R|]. rewrite E. reflexivity.
Defined.

(** Three polls after mounting, one of which fails: two samples are
    buffered and three telemetry requests have been issued. *)
Lemma polls_fill_buffer_witness :
  let mc := run Example.toNumber Example.noEnv mockData.machinesData "B1"
              (map Poll Scenario.threePolls) initialMachine in
  telemetryBuffer (ui mc) = [Example.sampleA; Example.sampleA]
  /\ sent mc = repeat (telemetryRequest Example.noEnv) 3.
Proof.
  cbv zeta.
  destruct (polls_fill_buffer Example.toNumber Example.noEnv
              mockData.machinesData "B1" Scenario.threePolls initialMachine)
    as (B & S & _).
  { cbn. lia. }
  split.
  - rewrite B. vm_compute. reflexivity.
  - destruct S as (S & _); [vm_compute; lia|].
    rewrite S. reflexivity.
Defined.

(** A response that arrives after the cleanup leaves no trace but the
    telemetry request; a cleanup during the predict request does not keep
    the probability 0.9 from being stored nor the retrain request from being
    sent; and when the predict request then fails, the last update stays. *)
Lemma poll_after_cleanup_witness :
  ui (snd (fetchTelemetry Example.toNumber Example.noEnv Scenario.latePoll
             Example.almostFull))
  = ui Example.almostFull
  /\ sent (snd (fetchTelemetry Example.toNumber Example.noEnv Scenario.latePoll
                  Example.almostFull))
     = [telemetryRequest Example.noEnv]
  /\ failureProbability
       (ui (snd (fetchTelemetry Example.toNumber Example.noEnv
                   Trace.cleanedUpInFlight Example.almostFull)))
     = Some (Js.decimal 9 1)
  /\ map req_url
       (sent (snd (fetchTelemetry Example.toNumber Example.noEnv
                     Trace.cleanedUpInFlight Example.almostFull)))
     = [ "http://localhost:8000/telemetry"; "http://localhost:8000/predict";
         "http://localhost:8000/retrain" ]%string
  /\ lastUpdate
       (ui (snd (fetchTelemetry Example.toNumber Example.noEnv
                   Trace.cleanedUpThenFailed Example.almostFull)))
     = Some (Js.of_Z 1700000001000).
Proof.
  destruct (poll_after_cleanup Example.toNumber Example.noEnv Scenario.latePoll
              Example.almostFull) as (Late & _).
  destruct (poll_after_cleanup Example.toNumber Example.noEnv
              Trace.cleanedUpInFlight Example.almostFull) as (_ & _ & Fly & _).
  destruct (poll_after_cleanup Example.toNumber Example.noEnv
              Trace.cleanedUpThenFailed Example.almostFull) as (_ & _ & _ & Fail).
  rewrite (Late eq_refl eq_refl).
  split; [reflexivity|]. split; [reflexivity|].
  destruct (Fly Example.sampleA
              {| ok := true; status := 200; res_text := Returned ""%string;
                 res_json := Returned (Example.predicted (Js.decimal 9 1)) |}
              (Example.predicted (Js.decimal 9 1)) (Js.decimal 9 1)
              eq_refl eq_refl) as (F & _ & _ & d & S & _).
  { vm_compute. lia. }
  { reflexivity. }
  { reflexivity. }
  { reflexivity. }
  { reflexivity. }
  split; [exact F|].
  split; [vm_compute; reflexivity|].
  destruct (fetchTelemetry_try Example.toNumber Example.noEnv
              Trace.cleanedUpThenFailed Example.almostFull) as [[[]|e] m2] eqn:E.
  - vm_compute in E. discriminate E.
  - destruct (Fail Example.sampleA e m2 eq_refl eq_refl eq_refl) as (M & U & _).
    rewrite M, U. reflexivity.
Defined.

(** A prediction whose probability is [NaN] goes to the hardware endpoint. *)
Lemma nan_goes_to_hardware_witness :
  sent (snd (fetchTelemetry Example.toNumber Example.noEnv Scenario.nanPoll
               Example.almostFull))
  = [ {| req_url := "http://localhost:8000/telemetry"; req_method := GET;
         req_body := NoBody |};
      {| req_url := "http://localhost:8000/predict"; req_method := POST;
         req_body := PredictBody (repeat Example.sampleA 50) |};
      {| req_url := "http://localhost:8000/hardware"; req_method := POST;
         req_body :=
           DispatchBody Js.NaN (Js.of_Z 1700000000000) "M1" "Motor 1"
             Example.sampleA None |} ].
Proof.
  destruct (nan_goes_to_hardware Example.toNumber Example.noEnv Scenario.nanPoll
              Example.almostFull Example.sampleA
              {| ok := true; status := 200; res_text := Returned ""%string;
                 res_json := Returned (Example.predicted Js.NaN) |}
              (Example.predicted Js.NaN) Js.NaN
              eq_refl) as (_ & (issued & S & I & _) & _).
  - vm_compute. lia.
  - reflexivity.
  - reflexivity.
  - reflexivity.
  - reflexivity.
  - left. reflexivity.
  - rewrite S, I. vm_compute. reflexivity.
Defined.

(** A temperature of 50 is [normal] with the thresholds 60 and 80, as the
    lower temperature 45 then is. *)
Lemma getStatus_monotone_witness :
  getStatus (Js.of_Z 50) (Js.of_Z 60, Js.of_Z 80) = "normal"%string
  /\ getStatus (Js.of_Z 45) (Js.of_Z 60, Js.of_Z 80) = "normal"%string.
Proof.
  assert (H : getStatus (Js.of_Z 50) (Js.of_Z 60, Js.of_Z 80) = "normal"%string)
    by (vm_compute; reflexivity).
  split; [exact H|].
  destruct (getStatus_monotone (Js.of_Z 45) (Js.of_Z 50) (Js.of_Z 60, Js.of_Z 80))
    as (N & _).
  - vm_compute. reflexivity.
  - exact (N H).
Defined.

(** The recommendation shipped with the repository, approved and then
    pressed again: the approval stands. *)
Lemma decisions_are_final_witness :
  let st := Decisions.run [Decisions.Approve 0] Decisions.initialState in
  map Decisions.approved (Decisions.recommendations st) = [Some true]
  /\ map Decisions.approved
       (Decisions.recommendations
          (Decisions.run [Decisions.Reject 0; Decisions.Approve 0] st))
     = [Some true].
Proof.
  cbv zeta.
  assert (A : map Decisions.approved
                (Decisions.recommendations
                   (Decisions.run [Decisions.Approve 0] Decisions.initialState))
              = [Some true]) by reflexivity.
  split; [exact A|].
  destruct (decisions_are_final [Decisions.Reject 0; Decisions.Approve 0]
              (Decisions.run [Decisions.Approve 0] Decisions.initialState))
    as (_ & _ & L & F).
  { vm_compute. repeat constructor. intros []. }
  destruct (Decisions.recommendations
              (Decisions.run [Decisions.Approve 0] Decisions.initialState))
    as [|r [|r' rest]] eqn:E; try discriminate A.
  destruct (F 0%nat r eq_refl) as (r2 & K & D).
  injection A as A.
  destruct (Decisions.recommendations
              (Decisions.run [Decisions.Reject 0; Decisions.Approve 0]
                 (Decisions.run [Decisions.Approve 0] Decisions.initialState)))
    as [|q [|q' rest']]; try discriminate L.
  cbn in K. injection K as ->. cbn [map]. rewrite D; [rewrite A; reflexivity|].
  rewrite A. discriminate.
Defined.

Lemma label_round_trip_witness :
  Label.label "loadWeight" = "Load Weight"%string
  /\ Label.key_of_label "Load Weight" = "loadWeight"%string.
Proof.
  assert (L : Label.label "loadWeight" = "Load Weight"%string) by reflexivity.
  split; [exact L|].
  rewrite <- L.
  destruct (label_round_trip "loadWeight" eq_refl eq_refl) as (R & _).
  exact R.
Defined.

Lemma updateNumber_lookup_witness :
  let mc := snd (updateNumber K_torque (Js.of_Z 170) initialMachine) in
  torque (params (ui mc)) = Js.of_Z 170 /\ rpm (params (ui mc)) = Js.of_Z 980.
Proof.
  cbv zeta.
  destruct (updateNumber_lookup K_torque (Js.of_Z 170) initialMachine)
    as (_ & G & O & _).
  split; [exact G|].
  apply (O K_rpm). discriminate.
Defined.

(** An edit of the humidity changes no derived metric. *)
Lemma derived_reads_exact_witness :
  derived (set_field K_humidity (Js.of_Z 0) defaultParams) = derived defaultParams.
Proof.
  destruct derived_reads_exact as (_ & F & _).
  apply (F K_humidity (Js.of_Z 0) defaultParams). reflexivity.
Defined.

Lemma derived_load_percent_witness :
  Js.leb (Js.of_Z 0) (loadPercent (derived defaultParams)) = true
  /\ Js.leb (loadPercent (derived defaultParams)) (Js.of_Z 100) = true.
Proof.
  destruct (derived_load_percent defaultParams) as (_ & B & _).
  apply B. reflexivity.
Defined.

Lemma derived_whole_numbers_witness :
  Js.isFinite (riskScore (derived defaultParams)) = true.
Proof.
  destruct (derived_whole_numbers defaultParams) as (_ & F & _).
  apply F. vm_compute. reflexivity.
Defined.

(** At a risk of exactly 40 the impact is [low]. *)
Lemma simulationResult_impact_witness :
  property (simulationResult (derived (params Scenario.atForty))) "productionImpact"
  = Some (JStr "low").
Proof.
  destruct (simulationResult_impact (derived (params Scenario.atForty)))
    as (_ & _ & L).
  apply L. left. vm_compute. reflexivity.
Defined.

Lemma auto_mode_never_enabled_witness :
  let mc := view_run Example.toNumber Example.noEnv mockData.machinesData "B1"
              Scenario.manualSession initialMachine in
  statusLabel Example.toNumber Example.noEnv (ui mc) = "MANUAL"%string
  /\ Forall (fun r => req_url r = "/api/send_critical_data"%string) (sent mc)
  /\ telemetryBuffer (ui mc) = [].
Proof.
  cbv zeta.
  destruct (auto_mode_never_enabled Example.toNumber Example.noEnv
              mockData.machinesData "B1" Scenario.manualSession)
    as (_ & _ & L & Q).
  split; [exact L|].
  destruct (Q eq_refl) as (_ & _ & B & S & _).
  split; [exact S|exact B].
Defined.

Lemma send_error_message_witness :
  predictionStatus
    (ui (snd (handleSendToFriend mockData.machinesData "B1" Example.rejectedSend
                initialMachine)))
  = Some "Error: Failed to fetch"%string
  /\ predictionStatus
       (ui (snd (handleSendToFriend mockData.machinesData "B1"
                   Scenario.refusedSend initialMachine)))
     = Some "Error: Service Unavailable"%string
  /\ predictionStatus
       (ui (snd (handleSendToFriend mockData.machinesData "B1"
                   Scenario.emptyRefusal initialMachine)))
     = Some "Error: Failed to send"%string.
Proof.
  destruct (send_error_message mockData.machinesData "B1" Example.rejectedSend
              initialMachine) as (R & _).
  destruct (send_error_message mockData.machinesData "B1" Scenario.refusedSend
              initialMachine) as (_ & T & _).
  destruct (send_error_message mockData.machinesData "B1" Scenario.emptyRefusal
              initialMachine) as (_ & T' & _).
  split; [exact (R Example.boom eq_refl)|].
  split.
  - exact (T _ "Service Unavailable"%string eq_refl eq_refl eq_refl).
  - exact (T' _ ""%string eq_refl eq_refl eq_refl).
Defined.

Lemma nextFailure_precedence_witness :
  nextFailure_of Example.toNumber Scenario.secondKey = Returned (Js.decimal 7 1).
Proof.
  destruct (nextFailure_precedence Example.toNumber Scenario.secondKey)
    as (_ & _ & O & _).
  destruct (O _ eq_refl) as (_ & B & _).
  apply (B (JNum (Js.decimal 7 1))); [reflexivity|reflexivity|discriminate].
Defined.

(** An identifier that no machine has: the view shows the first machine,
    and the request pairs the identifier with that machine's name. *)
Lemma machine_lookup_witness :
  machine mockData.machinesData "M9" = nth_error mockData.machinesData 0
  /\ machineName mockData.machinesData "M9" = "High-Pressure Boiler"%string.
Proof.
  destruct (machine_lookup mockData.machinesData "M9") as (_ & _ & _ & _ & N & _).
  split; [reflexivity|].
  destruct (nth_error mockData.machinesData 0) as [m|] eqn:E; [|discriminate E].
  injection E as <-.
  apply (N _ eq_refl). reflexivity.
Defined.

Lemma production_line_status_witness :
  getProductionLineStatus mockData.machinesData = "normal"%string.
Proof.
  destruct (production_line_status mockData.machinesData) as (_ & _ & N & _).
  apply N. intros m [<-|[]]. reflexivity.
Defined.

Lemma overall_failure_risk_witness :
  Js.nonneg (getOverallFailureRisk mockData.machinesData) = true.
Proof.
  destruct (overall_failure_risk mockData.machinesData) as (_ & _ & P & _).
  destruct P as [P _].
  - discriminate.
  - reflexivity.
  - repeat constructor.
  - exact P.
Defined.

Lemma failure_risk_colour_witness :
  failureRiskClasses (Js.of_Z 20) = ["text-success"%string]
  /\ failureRiskClasses (Js.of_Z 45) = ["text-warning"%string].
Proof.
  destruct (failure_risk_colour (Js.of_Z 20)) as (_ & _ & S & _).
  destruct (failure_risk_colour (Js.of_Z 45)) as (_ & _ & _ & W & _).
  split.
  - apply S. vm_compute. reflexivity.
  - apply W. vm_compute. reflexivity.
Defined.

Lemma boiler_visual_ranges_witness :
  Js.leb (Js.decimal 2 1) (BoilerModel.glow (Js.of_Z 175)) = true
  /\ Js.leb (BoilerModel.glow (Js.of_Z 175)) (Js.of_Z 1) = true.
Proof.
  destruct (boiler_visual_ranges (Js.of_Z 175) (Js.of_Z 62)) as ((_ & G & _) & _).
  apply G. reflexivity.
Defined.

Lemma page_shows_one_view_witness :
  let st := Index.run mockData.machinesData Scenario.visit Index.initialState in
  Index.rendered st = [Index.DigitalTwinSimulation]
  /\ exists m, machine mockData.machinesData (Index.selectedMachineId st) = Some m
               /\ m_id m = "B1"%string.
Proof.
  cbv zeta.
  destruct (page_shows_one_view mockData.machinesData Scenario.visit)
    as (_ & _ & S).
  split; [reflexivity|].
  destruct S as (m & _ & E & _ & M).
  - eexists. split; [left; reflexivity|reflexivity].
  - exists m. split; [exact M|]. rewrite E. reflexivity.
Defined.
